(** * CNTK binary reader: BinaryChunkDeserializer and its offsets table

    A shallow embedding of [BinaryChunkDeserializer.h],
    [BinaryChunkDeserializer.cpp] and [BinaryDataDeserializer.h] (namespace
    Microsoft::MSR::CNTK), and the properties of the chunk store that follow
    from the code.

    Conventions of the embedding.
    - A C++ integer is a [Z]; every conversion between integer types is
      written out ([to_size_t], [to_int64], [to_int32]).
    - A method of the deserializer is a function from the object's state to
      an outcome and the state it leaves behind.
    - An outcome is a returned value, a thrown exception, a failed [assert],
      or [Undefined] where C++ gives the statement no meaning (a null or
      out-of-bounds access, the use of a value that was never written).
    - Memory is never short: an allocation fails only if it asks for more
      than [PTRDIFF_MAX] bytes.
    - The file is read on a little-endian machine with two's complement
      integers. *)

From Stdlib Require Import ZArith List Lia Strings.Byte Strings.String.
From stdpp Require Import base list numbers strings gmap.

Local Open Scope Z_scope.

(** ** Machine integers *)

Definition wrap_unsigned (w z : Z) : Z := z mod 2 ^ w.
Definition wrap_signed (w z : Z) : Z := (z + 2 ^ (w - 1)) mod 2 ^ w - 2 ^ (w - 1).

Definition to_size_t : Z -> Z := wrap_unsigned 64.
Definition to_int64 : Z -> Z := wrap_signed 64.
Definition to_int32 : Z -> Z := wrap_signed 32.

Definition SIZE_MAX : Z := 2 ^ 64 - 1.
Definition PTRDIFF_MAX : Z := 2 ^ 63 - 1.

(** ** Bytes, little endian *)

Definition byte_val (b : byte) : Z := Z.of_N (Byte.to_N b).

Fixpoint le_unsigned (bs : list byte) : Z :=
  match bs with
  | [] => 0
  | b :: rest => byte_val b + 256 * le_unsigned rest
  end.

Definition decode_int64 (bs : list byte) : Z := to_int64 (le_unsigned bs).
Definition decode_int32 (bs : list byte) : Z := to_int32 (le_unsigned bs).

(** The inverse direction, used to write files down in examples. *)
Fixpoint le_bytes (n : nat) (z : Z) : list byte :=
  match n with
  | O => []
  | S n' =>
      match Byte.of_N (Z.to_N (z mod 256)) with
      | Some b => b :: le_bytes n' (z / 256)
      | None => []
      end
  end.

Definition encode_int64 (z : Z) : list byte := le_bytes 8 (to_size_t z).
Definition encode_int32 (z : Z) : list byte := le_bytes 4 (wrap_unsigned 32 z).

(** ** Outcomes *)

(** The failures of the reader.  The first six are the kinds the design
    names; in this code [FormatVersionMismatch] is the [LogicError] of the
    version check and [UnsupportedEncoding] the [RuntimeError] of an unknown
    tag.  The last three are raised by the runtime: [fopenOrDie],
    [operator new] and [std::vector::resize]. *)
Inductive ErrorKind : Type :=
| FormatVersionMismatch
| UnsupportedEncoding
| NotInitialized
| OutOfRange
| TruncatedRead
| MalformedSparseData
| FileOpenError
| StdBadAlloc
| StdLengthError.

Inductive result (A : Type) : Type :=
| Ok (a : A)
| Throw (e : ErrorKind)
| AssertionFailed
| Undefined.

Arguments Ok {A} a.
Arguments Throw {A} e.
Arguments AssertionFailed {A}.
Arguments Undefined {A}.

#[global] Instance result_ret : MRet result := fun A a => Ok a.
#[global] Instance result_bind : MBind result := fun A B f r =>
  match r with
  | Ok a => f a
  | Throw e => Throw e
  | AssertionFailed => AssertionFailed
  | Undefined => Undefined
  end.

(** ** The C file API ([FILE*] opened with mode "rb") *)

Record FILE : Type := mkFILE { f_bytes : list byte; f_pos : Z }.

Inductive whence : Type := SEEK_SET | SEEK_END.

(** [_fseeki64]: a negative target is rejected and the position stays. The
    return value is never looked at by the callers. *)
Definition _fseeki64 (f : FILE) (off : Z) (w : whence) : FILE :=
  let target := match w with
                | SEEK_SET => off
                | SEEK_END => Z.of_nat (length (f_bytes f)) + off
                end in
  if target <? 0 then f else mkFILE (f_bytes f) target.

Definition _ftelli64 (f : FILE) : Z := f_pos f.

(** [fread(buf, size, count, f)]: the bytes of the items that were read
    completely, and the file afterwards.  Every byte up to [size * count] or
    the end of the file is consumed. *)
Definition fread (size count : Z) (f : FILE) : list byte * FILE :=
  let avail := drop (Z.to_nat (f_pos f)) (f_bytes f) in
  let want := Z.min (size * count) (Z.of_nat (length avail)) in
  let got := take (Z.to_nat want) avail in
  let items := if size =? 0 then 0 else Z.of_nat (length got) / size in
  (take (Z.to_nat (items * size)) got,
   mkFILE (f_bytes f) (f_pos f + Z.of_nat (length got))).

(** One scalar: [None] when the file ends inside it, and the variable keeps
    its indeterminate value. *)
Definition fread_int64 (f : FILE) : option Z * FILE :=
  let '(bs, f') := fread 8 1 f in
  (if decide (length bs = 8%nat) then Some (decode_int64 bs) else None, f').

Definition fread_int32 (f : FILE) : option Z * FILE :=
  let '(bs, f') := fread 4 1 f in
  (if decide (length bs = 4%nat) then Some (decode_int32 bs) else None, f').

(** ** The offsets table *)

(** [struct DiskOffsetsTable], packed: 8 + 4 + 4 bytes. *)
Record DiskOffsetsTable : Type := mkDisk {
  offset : Z;          (* int64_t *)
  numSequences : Z;    (* int32_t *)
  numSamples : Z       (* int32_t *)
}.

Definition sizeof_DiskOffsetsTable : Z := 16.

Definition decode_DiskOffsetsTable (bs : list byte) : DiskOffsetsTable :=
  mkDisk (decode_int64 (take 8 bs))
         (decode_int32 (take 4 (drop 8 bs)))
         (decode_int32 (take 4 (drop 12 bs))).

Fixpoint decode_records (n : nat) (bs : list byte) : list DiskOffsetsTable :=
  match n with
  | O => []
  | S n' => decode_DiskOffsetsTable (take 16 bs) :: decode_records n' (drop 16 bs)
  end.

Definition encode_DiskOffsetsTable (r : DiskOffsetsTable) : list byte :=
  encode_int64 (offset r) ++ encode_int32 (numSequences r) ++ encode_int32 (numSamples r).

(** A [DiskOffsetsTable*] from [new DiskOffsetsTable[n]]: [n] slots, a slot
    is [None] until something is stored in it. *)
Abbreviation disk_array := (list (option DiskOffsetsTable)).

Definition array_get (a : disk_array) (index : Z) : result DiskOffsetsTable :=
  match a !! Z.to_nat index with
  | Some (Some r) => Ok r
  | Some None => Undefined
  | None => Undefined
  end.

Definition array_set (a : disk_array) (index : Z) (r : DiskOffsetsTable) : result disk_array :=
  if decide (Z.to_nat index < length a)%nat
  then Ok (<[Z.to_nat index := Some r]> a)
  else Undefined.

Module OffsetsTable.

Record t : Type := mk {
  m_numBatches : Z;                 (* int64_t *)
  m_diskOffsetsTable : disk_array;  (* DiskOffsetsTable* *)
  m_startIndex : list Z             (* vector<size_t> *)
}.

(** The body of the [for] loop of [Initialize], [n] iterations from [c]. *)
Fixpoint Initialize_loop (n : nat) (c : Z) (tbl : disk_array)
    (startIndex : list Z) (sequencesSeen : Z) : result (list Z) :=
  match n with
  | O => Ok startIndex
  | S n' =>
      let startIndex' := <[Z.to_nat c := sequencesSeen]> startIndex in
      r ← array_get tbl c;
      Initialize_loop n' (c + 1) tbl startIndex'
        (to_size_t (sequencesSeen + numSequences r))
  end.

(** [m_startIndex.resize(m_numBatches)], which throws for a size above
    [max_size()], as a negative [m_numBatches] converts to; then
    [for (int64_t c = 1; c < m_numBatches; c++)]. *)
Definition Initialize (numBatches : Z) (tbl : disk_array) : result (list Z) :=
  if to_size_t numBatches * 8 >? PTRDIFF_MAX then Throw StdLengthError
  else Initialize_loop (Z.to_nat (numBatches - 1)) 1 tbl
         (replicate (Z.to_nat numBatches) 0) 0.

(** The constructor [OffsetsTable(numBatches, offsetsTable)]; it runs [Initialize]. *)
Definition new (numBatches : Z) (tbl : disk_array) : result t :=
  let nb := to_int64 numBatches in
  si ← Initialize nb tbl;
  mret (mk nb tbl si).

Definition GetOffset (ot : t) (index : Z) : result Z :=
  r ← array_get (m_diskOffsetsTable ot) index; mret (offset r).

Definition GetNumSequences (ot : t) (index : Z) : result Z :=
  r ← array_get (m_diskOffsetsTable ot) index; mret (numSequences r).

Definition GetNumSamples (ot : t) (index : Z) : result Z :=
  r ← array_get (m_diskOffsetsTable ot) index; mret (numSamples r).

Definition GetStartIndex (ot : t) (index : Z) : result Z :=
  match m_startIndex ot !! Z.to_nat index with
  | Some s => Ok (to_int64 s)
  | None => Undefined
  end.

Definition GetChunkSize (ot : t) (index : Z) : result Z :=
  hi ← array_get (m_diskOffsetsTable ot) (to_size_t (index + 1));
  lo ← array_get (m_diskOffsetsTable ot) index;
  mret (to_size_t (offset hi - offset lo)).

End OffsetsTable.

(** ** Stream codecs *)

Inductive ElementType : Type := tfloat | tdouble.
Inductive StorageType : Type := st_dense | st_sparse_csc.

(** The class [BinaryDataDeserialzer] and its two implementations
    (BinaryDataDeserializer.h, which the source holds at the end of
    TrainingCriterionNodes.h, lines 1644 to 1814).  A codec is what its
    constructor stored: [m_matType], which the constructor of the variant
    fixes, [m_elemType], and [m_numCols], a [size_t]. *)
Inductive BinaryDataDeserializer : Type :=
| DenseBinaryDataDeserializer (elemType : ElementType) (numCols : Z)
| SparseBinaryDataDeserializer (elemType : ElementType) (numCols : Z).

(** [GetElementType], [GetStorageType] and [GetSampleLayout]
    (TrainingCriterionNodes.h, lines 1648 to 1650): the members as stored,
    the layout being the one-dimensional [TensorShape(m_numCols)]. *)
Definition GetElementType (d : BinaryDataDeserializer) : ElementType :=
  match d with
  | DenseBinaryDataDeserializer e _ => e
  | SparseBinaryDataDeserializer e _ => e
  end.

Definition GetStorageType (d : BinaryDataDeserializer) : StorageType :=
  match d with
  | DenseBinaryDataDeserializer _ _ => st_dense
  | SparseBinaryDataDeserializer _ _ => st_sparse_csc
  end.

Definition GetSampleLayout (d : BinaryDataDeserializer) : Z :=
  match d with
  | DenseBinaryDataDeserializer _ n => n
  | SparseBinaryDataDeserializer _ n => n
  end.

(** The element type of a tag, as both constructors decide it; another tag
    is a runtime error. *)
Definition element_type_of_tag (tag : Z) : result ElementType :=
  if tag =? 0 then Ok tfloat
  else if tag =? 1 then Ok tdouble
  else Throw UnsupportedEncoding.

(** ** Stateful computations

    [stateful S A]: a computation over a state [S] that ends in an outcome
    and leaves a state behind, also when it fails. *)
Definition stateful (S A : Type) : Type := S -> result A * S.

#[global] Instance stateful_ret {S} : MRet (stateful S) := fun A a s => (Ok a, s).
#[global] Instance stateful_bind {S} : MBind (stateful S) := fun A B f m s =>
  match m s with
  | (Ok a, s') => f a s'
  | (Throw e, s') => (Throw e, s')
  | (AssertionFailed, s') => (AssertionFailed, s')
  | (Undefined, s') => (Undefined, s')
  end.

Definition lift {S A} (r : result A) : stateful S A := fun s => (r, s).
Definition throw {S A} (e : ErrorKind) : stateful S A := lift (Throw e).
Definition undefined {S A} : stateful S A := lift Undefined.
Definition gets {S A} (proj : S -> A) : stateful S A := fun s => (Ok (proj s), s).
Definition modify {S} (upd : S -> S) : stateful S unit := fun s => (Ok tt, upd s).

(** The use of a variable that holds a value only if it was written. *)
Definition use {S A} (v : option A) : stateful S A :=
  match v with
  | Some a => mret a
  | None => undefined
  end.

(** A header field read with [fread] and then used: when the file ended
    early the variable is indeterminate. *)
Definition header_int32 : stateful FILE Z := fun f =>
  match fread_int32 f with
  | (Some v, f') => (Ok v, f')
  | (None, f') => (Undefined, f')
  end.

Definition header_int64 : stateful FILE Z := fun f =>
  match fread_int64 f with
  | (Some v, f') => (Ok v, f')
  | (None, f') => (Undefined, f')
  end.

(** The constructor [DenseBinaryDataDeserializer(infile)]
    (TrainingCriterionNodes.h, lines 1674 to 1693): it reads the element-type
    tag and the column count, 4 bytes each; [m_numCols = numCols] converts
    the [int32_t] to [size_t]. *)
Definition DenseBinaryDataDeserializer_new : stateful FILE BinaryDataDeserializer :=
  tag ← header_int32;
  e ← lift (element_type_of_tag tag);
  cols ← header_int32;
  mret (DenseBinaryDataDeserializer e (to_size_t cols)).

(** The constructor [SparseBinaryDataDeserializer(infile)]
    (TrainingCriterionNodes.h, lines 1720 to 1745): it reads the storage-type
    tag, of which only 0 is valid, then the element-type tag and the column
    count, 4 bytes each; [m_numCols = numCols] converts the [int32_t] to
    [size_t]. *)
Definition SparseBinaryDataDeserializer_new : stateful FILE BinaryDataDeserializer :=
  subtype ← header_int32;
  if subtype =? 0 then
    tag ← header_int32;
    e ← lift (element_type_of_tag tag);
    cols ← header_int32;
    mret (SparseBinaryDataDeserializer e (to_size_t cols))
  else throw UnsupportedEncoding.

(** [StreamDescription], with the members that [Initialize] assigns. *)
Record StreamDescription : Type := mkStream {
  m_name : string;
  m_id : Z;
  m_elementType : ElementType;
  m_storageType : StorageType;
  m_sampleLayout : Z
}.

(** ** Chunks and descriptions *)

(** Modelled from the spec: [ChunkDescription] is declared outside the
    source.  A description is (chunk id, sample count, sequence count), the
    three values of the brace initialiser in [GetChunkDescriptions], kept as
    they are passed. *)
Record ChunkDescription : Type := mkChunkDescription {
  cd_id : Z;
  cd_numberOfSamples : Z;
  cd_numberOfSequences : Z
}.

(** Modelled from the spec: [SequenceDescription] is declared outside the
    source.  A description is (sequence id, sample count, chunk id, validity
    flag, key pair), the values of the brace initialiser in
    [GetSequencesForChunk]. *)
Record SequenceDescription : Type := mkSequenceDescription {
  sd_id : Z;
  sd_numberOfSamples : Z;
  sd_chunkId : Z;
  sd_isValid : bool;
  sd_key : Z * Z
}.

(** Modelled from the spec: [BinaryDataChunk] is declared in
    BinaryDataChunk.h, outside the source.  A chunk wraps what [GetChunk]
    passes to its constructor: the chunk id, the start index, the sequence
    count, the buffer and the codec list. *)
Record BinaryDataChunk : Type := mkChunk {
  chunk_id : Z;
  chunk_startSequence : Z;
  chunk_numSequences : Z;
  chunk_buffer : list byte;
  chunk_deserializers : list (option BinaryDataDeserializer)
}.

Definition zero_byte : byte := x00.

(** The characters of a C string: the bytes before the first NUL. *)
Fixpoint c_string (bs : list byte) : list byte :=
  match bs with
  | [] => []
  | b :: rest => if Byte.eqb b x00 then [] else b :: c_string rest
  end.

(** [BinaryConfigHelper], declared outside the source, as far as the
    constructor reads it. *)
Record BinaryConfigHelper : Type := mkHelper {
  GetFilePath : string;
  GetTraceLevel : Z;
  GetRename : gmap string string
}.

(** The files that can be opened, by name. *)
Definition filesystem : Type := string -> option (list byte).

(** [fopenOrDie], a helper from outside the source: the opened file,
    positioned at its start, or an exception. *)
Definition fopenOrDie (fs : filesystem) (name : string) : result FILE :=
  match fs name with
  | Some bytes => Ok (mkFILE bytes 0)
  | None => Throw FileOpenError
  end.

(** ** The deserializer *)

Module BinaryChunkDeserializer.

(** The data members.  [m_numBatches] and [m_numInputs] have no initializer:
    they hold a value once [Initialize] has read one.  [m_chunkBuffer] is
    never touched and is left out. *)
Record t : Type := mk {
  m_filename : string;
  m_file : option FILE;                                   (* nullptr = None *)
  m_offsetStart : Z;                                      (* int64_t *)
  m_dataStart : Z;                                        (* int64_t *)
  m_streams : list (option StreamDescription);            (* of the base class *)
  m_deserializers : list (option BinaryDataDeserializer); (* shared_ptr, null = None *)
  m_offsetsTable : option OffsetsTable.t;                 (* unique_ptr, null = None *)
  m_versionNumber : Z;                                    (* int64_t, = 1 *)
  m_numBatches : option Z;                                (* int64_t *)
  m_numInputs : option Z;                                 (* int32_t *)
  m_traceLevel : Z
}.

Definition set_file (v : option FILE) (s : t) : t :=
  mk (m_filename s) v (m_offsetStart s) (m_dataStart s) (m_streams s)
     (m_deserializers s) (m_offsetsTable s) (m_versionNumber s)
     (m_numBatches s) (m_numInputs s) (m_traceLevel s).
Definition set_offsetStart (v : Z) (s : t) : t :=
  mk (m_filename s) (m_file s) v (m_dataStart s) (m_streams s)
     (m_deserializers s) (m_offsetsTable s) (m_versionNumber s)
     (m_numBatches s) (m_numInputs s) (m_traceLevel s).
Definition set_dataStart (v : Z) (s : t) : t :=
  mk (m_filename s) (m_file s) (m_offsetStart s) v (m_streams s)
     (m_deserializers s) (m_offsetsTable s) (m_versionNumber s)
     (m_numBatches s) (m_numInputs s) (m_traceLevel s).
Definition set_streams (v : list (option StreamDescription)) (s : t) : t :=
  mk (m_filename s) (m_file s) (m_offsetStart s) (m_dataStart s) v
     (m_deserializers s) (m_offsetsTable s) (m_versionNumber s)
     (m_numBatches s) (m_numInputs s) (m_traceLevel s).
Definition set_deserializers (v : list (option BinaryDataDeserializer)) (s : t) : t :=
  mk (m_filename s) (m_file s) (m_offsetStart s) (m_dataStart s) (m_streams s)
     v (m_offsetsTable s) (m_versionNumber s)
     (m_numBatches s) (m_numInputs s) (m_traceLevel s).
Definition set_offsetsTable (v : option OffsetsTable.t) (s : t) : t :=
  mk (m_filename s) (m_file s) (m_offsetStart s) (m_dataStart s) (m_streams s)
     (m_deserializers s) v (m_versionNumber s)
     (m_numBatches s) (m_numInputs s) (m_traceLevel s).
Definition set_numBatches (v : option Z) (s : t) : t :=
  mk (m_filename s) (m_file s) (m_offsetStart s) (m_dataStart s) (m_streams s)
     (m_deserializers s) (m_offsetsTable s) (m_versionNumber s)
     v (m_numInputs s) (m_traceLevel s).
Definition set_numInputs (v : option Z) (s : t) : t :=
  mk (m_filename s) (m_file s) (m_offsetStart s) (m_dataStart s) (m_streams s)
     (m_deserializers s) (m_offsetsTable s) (m_versionNumber s)
     (m_numBatches s) v (m_traceLevel s).
Definition set_traceLevel (v : Z) (s : t) : t :=
  mk (m_filename s) (m_file s) (m_offsetStart s) (m_dataStart s) (m_streams s)
     (m_deserializers s) (m_offsetsTable s) (m_versionNumber s)
     (m_numBatches s) (m_numInputs s) v.

(** The private constructor [BinaryChunkDeserializer(filename)]. *)
Definition new (filename : string) : t :=
  mk filename None 0 0 [] [] None 1 None None 0.

(** An operation of the C runtime on [m_file]; a null [FILE*] has none. *)
Definition on_file {A} (op : stateful FILE A) : stateful t A := fun s =>
  match m_file s with
  | None => (Undefined, s)
  | Some f => let '(r, f') := op f in (r, set_file (Some f') s)
  end.

Definition seek (off : Z) (w : whence) : stateful FILE unit :=
  fun f => (Ok tt, _fseeki64 f off w).
Definition tell : stateful FILE Z := fun f => (Ok (_ftelli64 f), f).
Definition read (size count : Z) : stateful FILE (list byte) :=
  fun f => let '(bs, f') := fread size count f in (Ok bs, f').
Definition read_int64 : stateful FILE (option Z) :=
  fun f => let '(v, f') := fread_int64 f in (Ok v, f').
Definition read_int32 : stateful FILE (option Z) :=
  fun f => let '(v, f') := fread_int32 f in (Ok v, f').

(** [fread(tempName, 1, len, m_file); tempName[len] = 0; utf16(tempName)].
    The buffer holds at least [len + 1] characters, and [len + 1] overflows
    for the largest [len].  A negative [len] indexes before the buffer; after
    a short read the characters that were not read are indeterminate, and the
    conversion reaches them unless a NUL came first. *)
Definition read_stream_name (len : Z) : stateful FILE string := fun f =>
  if (len <? 0) || (len =? 2 ^ 31 - 1) then (Undefined, f)
  else
    let '(got, f') := fread 1 len f in
    let name := c_string got in
    if decide (length name < length got \/ length got = Z.to_nat len)%nat
    then (Ok (string_of_list_byte name), f')
    else (Undefined, f').

Section Methods.

(** Whether the build defines [NDEBUG], which empties [assert]. *)
Variable NDEBUG : bool.

Variable fs : filesystem.

(** [assert(cond)]: the condition is evaluated only in a build with
    assertions. *)
Definition c_assert (cond : stateful t bool) : stateful t unit :=
  if NDEBUG then mret tt
  else (holds ← cond; if holds : bool then mret tt else lift AssertionFailed).

(** [ReadOffsetsTable(infile, startOffset, numBatches)], with [infile]
    the member [m_file] as at its one call site. *)
Definition ReadOffsetsTable (startOffset numBatches : Z) : stateful t unit :=
  c_assert (nb ← gets m_numBatches ≫= use;
            mret (to_int64 (to_size_t (startOffset + numBatches)) <=? nb));;
  offsetStart ← gets m_offsetStart;
  let startPos := to_size_t (startOffset * sizeof_DiskOffsetsTable + offsetStart) in
  on_file (seek (to_int64 startPos) SEEK_SET);;
  (* new DiskOffsetsTable[numBatches + 1] *)
  let slots := to_size_t (numBatches + 1) in
  if slots * sizeof_DiskOffsetsTable >? PTRDIFF_MAX then throw StdBadAlloc
  else
    bytes ← on_file (read sizeof_DiskOffsetsTable numBatches);
    let records := decode_records (length bytes / 16) bytes in
    if decide (Z.to_nat slots < length records)%nat then undefined
    else
      let offsetsTable : disk_array :=
        (Some <$> records) ++ replicate (Z.to_nat slots - length records) None in
      nb ← gets m_numBatches ≫= use;
      offsetsTable ←
        (if to_int64 (to_size_t (startOffset + numBatches)) =? nb then
           on_file (seek 0 SEEK_END);;
           pos ← on_file tell;
           lift (array_set offsetsTable numBatches (mkDisk pos 0 0))
         else
           last ← on_file (read sizeof_DiskOffsetsTable 1);
           if decide (length last = 16%nat)
           then lift (array_set offsetsTable numBatches (decode_DiskOffsetsTable last))
           else mret offsetsTable);
      ot ← lift (OffsetsTable.new numBatches offsetsTable);
      modify (set_offsetsTable (Some ot)).

(** [ReadOffsetsTable(infile)]. *)
Definition ReadOffsetsTable_all : stateful t unit :=
  nb ← gets m_numBatches ≫= use;
  ReadOffsetsTable 0 (to_size_t nb).

(** One iteration of the loop over the input streams, then the rest. *)
Fixpoint Initialize_streams (n : nat) (c : Z) (rename : gmap string string)
    : stateful t unit :=
  match n with
  | O => mret tt
  | S n' =>
      len ← on_file header_int32;
      wname ← on_file (read_stream_name len);
      let name := default wname (rename !! wname) in
      matType ← on_file header_int32;
      d ← (if matType =? 0 then on_file DenseBinaryDataDeserializer_new
           else if matType =? 1 then on_file SparseBinaryDataDeserializer_new
           else throw UnsupportedEncoding);
      modify (fun s => set_deserializers (<[Z.to_nat c := Some d]> (m_deserializers s)) s);;
      let streamDescription :=
        mkStream name c (GetElementType d) (GetStorageType d) (GetSampleLayout d) in
      modify (fun s => set_streams (<[Z.to_nat c := Some streamDescription]> (m_streams s)) s);;
      Initialize_streams n' (c + 1) rename
  end.

(** [Initialize(rename)].  The handle that [fclose] releases is the one that
    [fopenOrDie] replaces. *)
Definition Initialize (rename : gmap string string) : stateful t unit :=
  filename ← gets m_filename;
  f ← lift (fopenOrDie fs filename);
  modify (set_file (Some f));;
  on_file (seek 0 SEEK_SET);;
  versionNumber ← on_file header_int64;
  readerVersion ← gets m_versionNumber;
  if negb (versionNumber =? readerVersion) then throw FormatVersionMismatch
  else
    nb ← on_file read_int64;
    modify (set_numBatches nb);;
    ni ← on_file read_int32;
    modify (set_numInputs ni);;
    numInputs ← use ni;
    (* m_streams.resize(m_numInputs); m_deserializers.resize(m_numInputs) *)
    if numInputs <? 0 then throw StdLengthError
    else
      modify (fun s => set_streams (resize (Z.to_nat numInputs) None (m_streams s)) s);;
      modify (fun s => set_deserializers (resize (Z.to_nat numInputs) None (m_deserializers s)) s);;
      Initialize_streams (Z.to_nat numInputs) 0 rename;;
      offsetStart ← on_file tell;
      modify (set_offsetStart offsetStart);;
      numBatches ← use nb;
      modify (set_dataStart
                (to_int64 (to_size_t (offsetStart
                   + to_size_t (to_size_t numBatches * sizeof_DiskOffsetsTable)))));;
      ReadOffsetsTable_all.

Definition SetTraceLevel (traceLevel : Z) : stateful t unit :=
  modify (set_traceLevel traceLevel).

(** The public constructor: the object exists only if [Initialize]
    returns. *)
Definition create (helper : BinaryConfigHelper) : result t :=
  let body := SetTraceLevel (GetTraceLevel helper);; Initialize (GetRename helper) in
  match body (new (GetFilePath helper)) with
  | (Ok _, s) => Ok s
  | (Throw e, _) => Throw e
  | (AssertionFailed, _) => AssertionFailed
  | (Undefined, _) => Undefined
  end.

End Methods.

Section Queries.

Variable NDEBUG : bool.

(** [SequenceData] and [BinaryDataChunk::GetSequence] are declared outside
    the source.  A sequence exposes its [m_numberOfSamples];
    [GetSequence(sequenceId, result)] fills the vector it is handed and
    may decode the chunk on the way, so it runs over the chunk. *)
Variable SequenceData : Type.
Variable m_numberOfSamples : SequenceData -> Z.
Variable GetSequence :
  Z -> list SequenceData -> stateful BinaryDataChunk (list SequenceData).

(** The member [m_offsetsTable], dereferenced. *)
Definition offsetsTable : stateful t OffsetsTable.t :=
  gets m_offsetsTable ≫= use.

Fixpoint GetChunkDescriptions_loop (n : nat) (c : Z)
    (result : list ChunkDescription) : stateful t (list ChunkDescription) :=
  match n with
  | O => mret result
  | S n' =>
      ot ← offsetsTable;
      samples ← lift (OffsetsTable.GetNumSamples ot c);
      sequences ← lift (OffsetsTable.GetNumSequences ot c);
      GetChunkDescriptions_loop n' (c + 1)
        (result ++ [mkChunkDescription c samples sequences])
  end.

Definition GetChunkDescriptions : stateful t (list ChunkDescription) :=
  c_assert NDEBUG (table ← gets m_offsetsTable; mret (bool_decide (is_Some table)));;
  nb ← gets m_numBatches ≫= use;
  (* result.reserve(m_numBatches), 16 bytes an element *)
  if to_size_t nb * 16 >? PTRDIFF_MAX then throw StdLengthError
  else GetChunkDescriptions_loop (Z.to_nat nb) 0 [].

(** [make_unique<byte[]>(chunkSize)] gives zeroed bytes; [fread] then
    overwrites as many as the file still holds. *)
Definition ReadChunk (chunkId : Z) : stateful t (list byte) :=
  ot ← offsetsTable;
  off ← lift (OffsetsTable.GetOffset ot chunkId);
  dataStart ← gets m_dataStart;
  on_file (seek (to_int64 (dataStart + off)) SEEK_SET);;
  chunkSize ← lift (OffsetsTable.GetChunkSize ot chunkId);
  if chunkSize >? PTRDIFF_MAX then throw StdBadAlloc
  else
    got ← on_file (read 1 chunkSize);
    mret (got ++ replicate (Z.to_nat chunkSize - length got) zero_byte).

Definition GetChunk (chunkId : Z) : stateful t BinaryDataChunk :=
  chunkBuffer ← ReadChunk chunkId;
  ot ← offsetsTable;
  startIndex ← lift (OffsetsTable.GetStartIndex ot chunkId);
  sequences ← lift (OffsetsTable.GetNumSequences ot chunkId);
  deserializers ← gets m_deserializers;
  mret (mkChunk chunkId startIndex sequences chunkBuffer deserializers).

Definition max_numberOfSamples (temp : list SequenceData) : Z :=
  foldl (fun numSamples s => Z.max numSamples (m_numberOfSamples s)) 0 temp.

(** The loop over the sequences of the chunk; [chunk] is the local
    [ChunkPtr], [result] the caller's vector. *)
Fixpoint GetSequencesForChunk_loop (n : nat) (c : Z) (chunkId startId : Z)
    (chunk : BinaryDataChunk) (result : list SequenceDescription)
    : stateful t (list SequenceDescription) :=
  match n with
  | O => mret result
  | S n' =>
      ot ← offsetsTable;
      startIndex ← lift (OffsetsTable.GetStartIndex ot chunkId);
      let '(temp, chunk') := GetSequence (to_size_t (startIndex + c)) [] chunk in
      temp ← lift temp;
      let numSamples := max_numberOfSamples temp in
      let id := to_size_t (startId + c) in
      GetSequencesForChunk_loop n' (c + 1) chunkId startId chunk'
        (result ++ [mkSequenceDescription id numSamples chunkId true (id, 0)])
  end.

Definition GetSequencesForChunk (chunkId : Z) (result : list SequenceDescription)
    : stateful t (list SequenceDescription) :=
  ot ← offsetsTable;
  sequences ← lift (OffsetsTable.GetNumSequences ot chunkId);
  (* result.reserve(numSequences): a negative count converts to a size
     above max_size() *)
  if sequences <? 0 then throw StdLengthError
  else
    chunk ← GetChunk chunkId;
    ot ← offsetsTable;
    startIndex ← lift (OffsetsTable.GetStartIndex ot chunkId);
    let startId := to_size_t startIndex in
    sequences ← lift (OffsetsTable.GetNumSequences ot chunkId);
    GetSequencesForChunk_loop (Z.to_nat (to_size_t sequences)) 0
      chunkId startId chunk result.

End Queries.
End BinaryChunkDeserializer.

(** * Vocabulary of the statements *)

(** ** Relations between the states of a computation *)

(** [preserves R m]: whatever [m] ends in, the state it leaves is related by
    [R] to the one it started from. *)
Definition preserves {S : Type} (R : S -> S -> Prop) {A} (m : stateful S A) : Prop :=
  forall s r s', m s = (r, s') -> R s s'.

(** [ensures m Q]: whenever [m] returns, it leaves a state with [Q]. *)
Definition ensures {S A} (m : stateful S A) (Q : S -> Prop) : Prop :=
  forall s a s', m s = (Ok a, s') -> Q s'.

(** [only_file s s']: [s'] differs from [s] in the file handle at most. *)
Definition only_file (s s' : BinaryChunkDeserializer.t) : Prop :=
  s' = BinaryChunkDeserializer.set_file (BinaryChunkDeserializer.m_file s') s.

(** [table_and_file s s']: [s'] differs from [s] in the file handle and the
    offsets table at most. *)
Definition table_and_file (s s' : BinaryChunkDeserializer.t) : Prop :=
  s' = BinaryChunkDeserializer.set_offsetsTable (BinaryChunkDeserializer.m_offsetsTable s')
         (BinaryChunkDeserializer.set_file (BinaryChunkDeserializer.m_file s') s).

(** [advances f f']: the same file, read further. *)
Definition advances (f f' : FILE) : Prop :=
  f_bytes f' = f_bytes f /\ f_pos f <= f_pos f'.

(** [reads_on s s']: from [s] to [s'] the file was only read further, and
    the batch count was left alone. *)
Definition reads_on (s s' : BinaryChunkDeserializer.t) : Prop :=
  BinaryChunkDeserializer.m_numBatches s' = BinaryChunkDeserializer.m_numBatches s
  /\ forall f, BinaryChunkDeserializer.m_file s = Some f ->
       exists f', BinaryChunkDeserializer.m_file s' = Some f' /\ advances f f'.


Definition sum_numSequences (rs : list DiskOffsetsTable) : Z :=
  foldr (fun r acc => numSequences r + acc) 0 rs.

(** The start indices that the loop of [OffsetsTable::Initialize] leaves for
    a table holding [records]: slot 0 keeps the zero of [resize], slot
    [k + 1] holds the counts of the records 1 to [k]. *)
Definition derived_startIndex (records : list DiskOffsetsTable) : list Z :=
  match records with
  | [] => []
  | _ :: rest =>
      0 :: ((fun k => to_size_t (sum_numSequences (take k rest))) <$> seq 0 (length rest))
  end.

(** The table in memory after a load through the end of the file: the
    records read, and the closing entry made from the end-of-file position. *)
Definition loaded_array (records : list DiskOffsetsTable) (endOffset : Z) : disk_array :=
  (Some <$> records) ++ [Some (mkDisk endOffset 0 0)].

Definition loaded_table (records : list DiskOffsetsTable) (endOffset : Z) : OffsetsTable.t :=
  OffsetsTable.mk (Z.of_nat (length records)) (loaded_array records endOffset)
    (derived_startIndex records).

(** An initialized store over a file of [length records] chunks. *)
Definition Initialized (s : BinaryChunkDeserializer.t)
    (records : list DiskOffsetsTable) (endOffset : Z) : Prop :=
  BinaryChunkDeserializer.m_offsetsTable s = Some (loaded_table records endOffset)
  /\ BinaryChunkDeserializer.m_numBatches s = Some (Z.of_nat (length records))
  /\ is_Some (BinaryChunkDeserializer.m_file s)
  /\ (Z.of_nat (length records) + 1) * sizeof_DiskOffsetsTable <= PTRDIFF_MAX.

(** The bytes a file still holds from the position of its handle. *)
Definition remaining (f : FILE) : list byte := drop (Z.to_nat (f_pos f)) (f_bytes f).

(** ** Decoding a chunk *)

Module SpecChunk.

(** A decoded sequence, as far as this development looks at it: its
    [m_numberOfSamples], and its [m_data] as a byte offset into the buffer
    of the chunk. *)
Record SequenceData : Type := mkSequenceData {
  m_numberOfSamples : Z;
  m_dataOffset : Z     (* where the sequence's data starts in the chunk buffer *)
}.

(** [GetElemSizeBytes] (TrainingCriterionNodes.h, lines 1652 to 1660). *)
Definition elemSize (e : ElementType) : Z :=
  match e with tfloat => 4 | tdouble => 8 end.

(** An [int32_t] read from, or written to, the chunk buffer at byte [off];
    an access that is not inside the buffer is undefined. *)
Definition load_int32 (buffer : list byte) (off : Z) : result Z :=
  if (0 <=? off) && (off + 4 <=? Z.of_nat (length buffer))
  then Ok (decode_int32 (take 4 (drop (Z.to_nat off) buffer)))
  else Undefined.

Definition store_int32 (buffer : list byte) (off v : Z) : result (list byte) :=
  if (0 <=? off) && (off + 4 <=? Z.of_nat (length buffer))
  then Ok (take (Z.to_nat off) buffer ++ encode_int32 v ++ drop (Z.to_nat (off + 4)) buffer)
  else Undefined.

(** [DenseBinaryDataDeserializer::GetSequencesForChunk]
    (TrainingCriterionNodes.h, lines 1695 to 1713), with [data] the byte
    [start] of the chunk buffer: sequence [c] has one sample and its data at
    [c * m_numCols * elemSize] from [data], and
    [numSequences * m_numCols * elemSize] bytes are used, both products in
    [size_t].  [result.resize(numSequences)] does not fail for a count that
    fits an [int32_t], as the count of a chunk does. *)
Definition dense_region (e : ElementType) (numCols numSequences start : Z)
    : list SequenceData * Z :=
  ((fun c => mkSequenceData 1 (start + to_size_t (c * numCols * elemSize e)))
     <$> seqZ 0 numSequences,
   to_size_t (numSequences * numCols * elemSize e)).

(** The loop over [curRow] of
    [SparseBinaryDataDeserializer::GetSequencesForChunk]
    (TrainingCriterionNodes.h, lines 1788 to 1799), [n] iterations with
    [rowOffsets + curRow] at byte [row] of the buffer.  The index read there
    converts to [size_t] for the division by [m_numCols]; [m_nnzCounts] grows
    to [sampleNum + 1] entries, the entry of the sample is incremented, and
    the index is overwritten in the buffer with its remainder.  A column
    count of 0 divides by zero.  The element type of [m_nnzCounts] is
    declared outside the source: the vector cannot hold more than
    [PTRDIFF_MAX] entries. *)
Fixpoint sparse_rows (n : nat) (numCols row : Z) (nnzCounts : list Z)
    : stateful (list byte) (list Z) :=
  match n with
  | O => mret nnzCounts
  | S n' =>
      buffer ← gets id;
      r ← lift (load_int32 buffer row);
      if numCols =? 0 then undefined
      else
        let sampleNum := to_size_t r / numCols in
        let wanted := to_size_t (sampleNum + 1) in
        if wanted >? PTRDIFF_MAX then throw StdLengthError
        else
          let grown :=
            nnzCounts ++ replicate (Z.to_nat wanted - length nnzCounts) 0 in
          match grown !! Z.to_nat sampleNum with
          | None => undefined
          | Some count =>
              buffer' ← lift (store_int32 buffer row
                                (to_int32 (to_size_t r mod numCols)));
              modify (fun _ => buffer');;
              sparse_rows n' numCols (row + 4)
                (<[Z.to_nat sampleNum := count + 1]> grown)
          end
  end.

(** The loop over [colIndex] (lines 1772 to 1806), [n] iterations from
    [colIndex]; [values], [rowOffsets] and [colOffsets] are byte offsets
    into the buffer.  The number of indices of a sequence is the difference
    of two column offsets, an [int32_t]; [values] and [rowOffsets] move on
    by that number of elements after every sequence. *)
Fixpoint sparse_sequences (n : nat) (colIndex : Z) (e : ElementType)
    (numCols colOffsets values rowOffsets : Z) (result : list SequenceData)
    : stateful (list byte) (list SequenceData) :=
  match n with
  | O => mret result
  | S n' =>
      buffer ← gets id;
      next ← lift (load_int32 buffer (colOffsets + 4 * (colIndex + 1)));
      this ← lift (load_int32 buffer (colOffsets + 4 * colIndex));
      let totalNnzCount := to_int32 (next - this) in
      nnzCounts ← sparse_rows (Z.to_nat totalNnzCount) numCols rowOffsets [];
      let sequence := mkSequenceData (Z.of_nat (length nnzCounts)) values in
      sparse_sequences n' (colIndex + 1) e numCols colOffsets
        (values + totalNnzCount * elemSize e)
        (rowOffsets + 4 * totalNnzCount)
        (result ++ [sequence])
  end.

(** [SparseBinaryDataDeserializer::GetSequencesForChunk]
    (TrainingCriterionNodes.h, lines 1752 to 1812), with [data] the byte
    [start] of the chunk buffer, which it reads and overwrites.  The region
    holds the count [totalNNz], the values, [totalNNz] row indices and the
    column offsets; the bytes used are computed in [size_t]. *)
Definition sparse_region (e : ElementType) (numCols numSequences start : Z)
    : stateful (list byte) (list SequenceData * Z) :=
  buffer ← gets id;
  totalNNz ← lift (load_int32 buffer start);
  let values := start + 4 in
  let rowOffsets := values + elemSize e * totalNNz in
  let colOffsets := rowOffsets + 4 * totalNNz in
  sequences ← sparse_sequences (Z.to_nat numSequences) 0 e numCols colOffsets
                 values rowOffsets [];
  mret (sequences,
        to_size_t (4 + to_size_t totalNNz * (elemSize e + 4) + (numSequences + 1) * 4)).

(** Modelled from the spec: [BinaryDataChunk] is declared outside the
    source.  The streams of a chunk lie one after the other in declaration
    order, each codec starting where the one before it stopped, and the
    codecs run in that order over the one buffer. *)
Fixpoint ParseChunk (buffer : list byte)
    (deserializers : list (option BinaryDataDeserializer))
    (numSequences start : Z) : result (list (list SequenceData)) :=
  match deserializers with
  | [] => Ok []
  | None :: _ => Undefined
  | Some (DenseBinaryDataDeserializer e numCols) :: rest =>
      let '(sequences, used) := dense_region e numCols numSequences start in
      others ← ParseChunk buffer rest numSequences (start + used);
      mret (sequences :: others)
  | Some (SparseBinaryDataDeserializer e numCols) :: rest =>
      let '(region, buffer') := sparse_region e numCols numSequences start buffer in
      '(sequences, used) ← region;
      others ← ParseChunk buffer' rest numSequences (start + used);
      mret (sequences :: others)
  end.

(** Modelled from the spec: [BinaryDataChunk::GetSequence(sequenceId, result)]
    hands out, for every stream, the sequence of the chunk with that id; an
    id outside the chunk is [OutOfRange].  The chunk decodes its buffer once
    and keeps the result; here every call decodes the buffer as it was read,
    which gives the same sequences, and the chunk is returned as it was. *)
Definition GetSequence (sequenceId : Z) (result : list SequenceData)
    : stateful BinaryDataChunk (list SequenceData) := fun chunk =>
  let index := sequenceId - chunk_startSequence chunk in
  if (index <? 0) || (chunk_numSequences chunk <=? index) then (Throw OutOfRange, chunk)
  else
    (data ← ParseChunk (chunk_buffer chunk) (chunk_deserializers chunk)
              (chunk_numSequences chunk) 0;
     mapM (fun stream : list SequenceData =>
             match stream !! Z.to_nat index with
             | Some s => Ok s
             | None => Undefined
             end) data,
     chunk).

End SpecChunk.

(** ** Example files *)

Definition dense_stream_header (name : list byte) (elemType numCols : Z) : list byte :=
  encode_int32 (Z.of_nat (length name)) ++ name
  ++ encode_int32 0 ++ encode_int32 elemType ++ encode_int32 numCols.

Definition sparse_stream_header (name : list byte) (elemType numCols : Z) : list byte :=
  encode_int32 (Z.of_nat (length name)) ++ name
  ++ encode_int32 1 ++ encode_int32 0 ++ encode_int32 elemType ++ encode_int32 numCols.

Definition file_bytes (version : Z) (streams : list (list byte))
    (records : list DiskOffsetsTable) (payload : list byte) : list byte :=
  encode_int64 version ++ encode_int64 (Z.of_nat (length records))
  ++ encode_int32 (Z.of_nat (length streams)) ++ concat streams
  ++ concat (encode_DiskOffsetsTable <$> records) ++ payload.

Definition one_disk (bytes : list byte) : filesystem := fun _ => Some bytes.

Definition stream_x : list byte := dense_stream_header [x78] 0 1.

Definition payload_values (vs : list Z) : list byte := concat (encode_int32 <$> vs).

(** Two chunks of one dense float column: three sequences, then two. *)
Definition sample_records : list DiskOffsetsTable := [mkDisk 0 3 3; mkDisk 12 2 2].
Definition sample_file : list byte :=
  file_bytes 1 [stream_x] sample_records (payload_values [1; 2; 3; 4; 5]).

(** The same file cut off in the middle of its first chunk. *)
Definition truncated_file : list byte :=
  file_bytes 1 [stream_x] sample_records (take 6 (payload_values [1; 2; 3; 4; 5])).

(** A file whose second record points past the end of the file. *)
Definition short_file : list byte :=
  file_bytes 1 [stream_x] [mkDisk 0 3 3; mkDisk 1000 2 2] (payload_values [1; 2; 3; 4; 5]).

(** A file written for version 2. *)
Definition version2_file : list byte :=
  file_bytes 2 [stream_x] sample_records (payload_values [1; 2; 3; 4; 5]).

Definition sample_helper : BinaryConfigHelper := mkHelper "sample.bin" 0 ∅.

(** One chunk of two sequences over two streams, the dense column [x] and a
    sparse stream [y] of 5 columns, and an empty chunk behind it.  The
    sparse region holds 3 values with the flattened row indices 2, 7 and 12
    and the column offsets 0, 2 and 3: the first sequence has the samples 0
    and 1, the second has sample 2 behind two empty ones. *)
Definition stream_y : list byte := sparse_stream_header [x79] 0 5.

Definition mixed_payload : list byte :=
  payload_values [1; 2]
  ++ encode_int32 3 ++ payload_values [10; 20; 30]
  ++ payload_values [2; 7; 12] ++ payload_values [0; 2; 3].

Definition mixed_records : list DiskOffsetsTable := [mkDisk 0 2 5; mkDisk 48 0 0].

Definition mixed_file : list byte :=
  file_bytes 1 [stream_x; stream_y] mixed_records mixed_payload.

(** Where [ReadChunk] leaves the file before it reads, and the bytes it
    reads there. *)
Definition chunk_seek (s : BinaryChunkDeserializer.t) (f : FILE) (off : Z) : FILE :=
  _fseeki64 f (to_int64 (BinaryChunkDeserializer.m_dataStart s + off)) SEEK_SET.

Definition chunk_bytes (s : BinaryChunkDeserializer.t) (f : FILE) (off size : Z)
    : list byte :=
  take (Z.to_nat size) (remaining (chunk_seek s f off)).

(** The stores that the public constructor builds from the example files,
    in a build with assertions. *)
Definition sample_store : result BinaryChunkDeserializer.t :=
  BinaryChunkDeserializer.create false (one_disk sample_file) sample_helper.

Definition truncated_store : result BinaryChunkDeserializer.t :=
  BinaryChunkDeserializer.create false (one_disk truncated_file) sample_helper.

Definition short_store : result BinaryChunkDeserializer.t :=
  BinaryChunkDeserializer.create false (one_disk short_file) sample_helper.

(** The store of the example file, written out. *)
Definition sample_state : BinaryChunkDeserializer.t :=
  BinaryChunkDeserializer.mk "sample.bin" (Some (mkFILE sample_file 89)) 37 69
    [Some (mkStream "x" 0 tfloat st_dense 1)]
    [Some (DenseBinaryDataDeserializer tfloat 1)]
    (Some (loaded_table sample_records 89)) 1 (Some 2) (Some 1) 0.

(** The store of the file that was cut off. *)
Definition truncated_state : BinaryChunkDeserializer.t :=
  BinaryChunkDeserializer.mk "sample.bin" (Some (mkFILE truncated_file 75)) 37 69
    [Some (mkStream "x" 0 tfloat st_dense 1)]
    [Some (DenseBinaryDataDeserializer tfloat 1)]
    (Some (loaded_table sample_records 75)) 1 (Some 2) (Some 1) 0.

(** The store of the file with two streams, and the chunk that [GetChunk(0)]
    reads from it. *)
Definition mixed_state : BinaryChunkDeserializer.t :=
  BinaryChunkDeserializer.mk "sample.bin" (Some (mkFILE mixed_file 138)) 58 90
    [Some (mkStream "x" 0 tfloat st_dense 1); Some (mkStream "y" 1 tfloat st_sparse_csc 5)]
    [Some (DenseBinaryDataDeserializer tfloat 1);
     Some (SparseBinaryDataDeserializer tfloat 5)]
    (Some (loaded_table mixed_records 138)) 1 (Some 2) (Some 2) 0.

Definition mixed_chunk : BinaryDataChunk :=
  mkChunk 0 0 2 mixed_payload
    [Some (DenseBinaryDataDeserializer tfloat 1);
     Some (SparseBinaryDataDeserializer tfloat 5)].

(** The description of chunk [i] as the table has it. *)
Definition description_of (i : nat) (r : DiskOffsetsTable) : ChunkDescription :=
  mkChunkDescription (Z.of_nat i) (numSamples r) (numSequences r).

Definition chunk_descriptions (records : list DiskOffsetsTable) : list ChunkDescription :=
  imap description_of records.

(** The calls of [GetSequence] that the loop of [GetSequencesForChunk] makes
    for the sequences [c], [c + 1], ... of a chunk: what each call returned,
    one list of per-stream sequences for every sequence of the chunk. *)
Fixpoint decode_sequences {SequenceData : Type}
    (GetSequence : Z -> list SequenceData -> stateful BinaryDataChunk (list SequenceData))
    (n : nat) (c startIndex : Z) (chunk : BinaryDataChunk)
    : result (list (list SequenceData)) :=
  match n with
  | O => Ok []
  | S n' =>
      let '(temp, chunk') := GetSequence (to_size_t (startIndex + c)) [] chunk in
      temp ← temp;
      rest ← decode_sequences GetSequence n' (c + 1) startIndex chunk';
      mret (temp :: rest)
  end.

(** The description that [GetSequencesForChunk] pushes for the sequence with
    id [id] of chunk [chunkId], decoded as [temp]. *)
Definition sequence_description {SequenceData : Type}
    (m_numberOfSamples : SequenceData -> Z) (chunkId id : Z) (temp : list SequenceData)
    : SequenceDescription :=
  mkSequenceDescription id
    (BinaryChunkDeserializer.max_numberOfSamples SequenceData m_numberOfSamples temp)
    chunkId true (id, 0).

(** ** Well-formed tables *)

(** The offsets of the records do not decrease. *)
Fixpoint offsets_increasing (rs : list DiskOffsetsTable) : bool :=
  match rs with
  | r :: (r' :: _) as rest => (offset r <=? offset r') && offsets_increasing rest
  | _ => true
  end.

(** The last chunk does not start behind [endOffset]. *)
Definition last_offset_within (rs : list DiskOffsetsTable) (endOffset : Z) : bool :=
  match last rs with
  | Some r => offset r <=? endOffset
  | None => true
  end.

Definition counts_nonnegative (rs : list DiskOffsetsTable) : bool :=
  forallb (fun r => 0 <=? numSequences r) rs.

(** What the accessors of a table of [N] chunks promise. *)
Definition offsets_monotone (ot : OffsetsTable.t) (N : Z) : Prop :=
  forall i, 0 <= i < N ->
    exists lo hi size,
      OffsetsTable.GetOffset ot i = Ok lo
      /\ OffsetsTable.GetOffset ot (i + 1) = Ok hi
      /\ lo <= hi
      /\ OffsetsTable.GetChunkSize ot i = Ok size
      /\ 0 <= size.

Definition startIndex_monotone (ot : OffsetsTable.t) (N : Z) : Prop :=
  forall i j, 0 <= i <= j -> j < N ->
    exists a b,
      OffsetsTable.GetStartIndex ot i = Ok a
      /\ OffsetsTable.GetStartIndex ot j = Ok b
      /\ a <= b.

(** The store of the file whose second record points past the end. *)
Definition short_state : BinaryChunkDeserializer.t :=
  BinaryChunkDeserializer.mk "sample.bin" (Some (mkFILE short_file 89)) 37 69
    [Some (mkStream "x" 0 tfloat st_dense 1)]
    [Some (DenseBinaryDataDeserializer tfloat 1)]
    (Some (loaded_table [mkDisk 0 3 3; mkDisk 1000 2 2] 89)) 1 (Some 2) (Some 1) 0.

(** The example store just before [ReadOffsetsTable] runs. *)
Definition sample_state_before_load : BinaryChunkDeserializer.t :=
  BinaryChunkDeserializer.mk "sample.bin" (Some (mkFILE sample_file 37)) 37 69
    [Some (mkStream "x" 0 tfloat st_dense 1)]
    [Some (DenseBinaryDataDeserializer tfloat 1)]
    None 1 (Some 2) (Some 1) 0.

(** ** Vocabulary of the further properties *)

(** The three scalars at the start of the file, as [Initialize] reads them:
    the version (8 bytes), the number of chunks (8 bytes) and the number of
    input streams (4 bytes). *)
Definition header_version (bytes : list byte) : Z := decode_int64 (take 8 bytes).
Definition header_numBatches (bytes : list byte) : Z :=
  decode_int64 (take 8 (drop 8 bytes)).
Definition header_numInputs (bytes : list byte) : Z :=
  decode_int32 (take 4 (drop 16 bytes)).

(** The 16-byte record that the file holds at byte [pos]. *)
Definition record_in_file (bytes : list byte) (pos : Z) : DiskOffsetsTable :=
  decode_DiskOffsetsTable (take 16 (drop (Z.to_nat pos) bytes)).

(** [moves_handle s s']: [s'] differs from [s] in the position of the file
    handle at most; the content of the file and every other member are the
    same, and a handle is neither opened nor closed. *)
Definition moves_handle (s s' : BinaryChunkDeserializer.t) : Prop :=
  only_file s s'
  /\ match BinaryChunkDeserializer.m_file s, BinaryChunkDeserializer.m_file s' with
     | Some f, Some f' => f_bytes f' = f_bytes f
     | None, None => True
     | _, _ => False
     end.

(** [fills_streams s s']: from [s] to [s'] only the file handle and the
    entries of [m_streams] and [m_deserializers] changed, and the two vectors
    kept their sizes. *)
Definition fills_streams (s s' : BinaryChunkDeserializer.t) : Prop :=
  s' = BinaryChunkDeserializer.set_streams (BinaryChunkDeserializer.m_streams s')
         (BinaryChunkDeserializer.set_deserializers
            (BinaryChunkDeserializer.m_deserializers s')
            (BinaryChunkDeserializer.set_file (BinaryChunkDeserializer.m_file s') s))
  /\ length (BinaryChunkDeserializer.m_streams s')
     = length (BinaryChunkDeserializer.m_streams s)
  /\ length (BinaryChunkDeserializer.m_deserializers s')
     = length (BinaryChunkDeserializer.m_deserializers s).

(** Slot [c] of [m_deserializers] and [m_streams] as an iteration of the loop
    of [Initialize] leaves it: a codec, and a description with the id [c] and
    the types and layout that the codec reports. *)
Definition stream_filled (s : BinaryChunkDeserializer.t) (c : nat) : Prop :=
  exists d sd,
    BinaryChunkDeserializer.m_deserializers s !! c = Some (Some d)
    /\ BinaryChunkDeserializer.m_streams s !! c = Some (Some sd)
    /\ m_id sd = Z.of_nat c
    /\ m_elementType sd = GetElementType d
    /\ m_storageType sd = GetStorageType d
    /\ m_sampleLayout sd = GetSampleLayout d.

(** [ignores_trace m]: [m] runs the same whatever the trace level is, and
    leaves the trace level as it found it. *)
Definition ignores_trace {A} (m : stateful BinaryChunkDeserializer.t A) : Prop :=
  forall level s,
    m (BinaryChunkDeserializer.set_traceLevel level s)
    = (fst (m s), BinaryChunkDeserializer.set_traceLevel level (snd (m s))).

(** A file of three chunks behind one dense stream, and the store just before
    its offsets table is loaded. *)
Definition three_records : list DiskOffsetsTable :=
  [mkDisk 0 3 3; mkDisk 12 2 2; mkDisk 20 4 4].

Definition three_chunk_file : list byte :=
  file_bytes 1 [stream_x] three_records (payload_values [1; 2; 3; 4; 5; 6; 7; 8; 9]).

Definition three_chunk_state_before_load : BinaryChunkDeserializer.t :=
  BinaryChunkDeserializer.mk "sample.bin" (Some (mkFILE three_chunk_file 37)) 37 85
    [Some (mkStream "x" 0 tfloat st_dense 1)]
    [Some (DenseBinaryDataDeserializer tfloat 1)]
    None 1 (Some 3) (Some 1) 0.

(** A file whose only stream asks for matrix type 7, and one whose header
    gives a negative number of streams. *)
Definition bad_type_file : list byte :=
  encode_int64 1 ++ encode_int64 0 ++ encode_int32 1
  ++ encode_int32 1 ++ [x78] ++ encode_int32 7.

Definition negative_inputs_file : list byte :=
  encode_int64 1 ++ encode_int64 0 ++ encode_int32 (-1).

(** The store after [Initialize] has opened the file [bytes], read the three
    scalars of its header and resized the two vectors: the handle is behind
    the header, at byte 20. *)
Definition after_header (bytes : list byte) (s : BinaryChunkDeserializer.t)
    : BinaryChunkDeserializer.t :=
  let n := Z.to_nat (header_numInputs bytes) in
  BinaryChunkDeserializer.mk
    (BinaryChunkDeserializer.m_filename s)
    (Some (mkFILE bytes 20))
    (BinaryChunkDeserializer.m_offsetStart s)
    (BinaryChunkDeserializer.m_dataStart s)
    (resize n None (BinaryChunkDeserializer.m_streams s))
    (resize n None (BinaryChunkDeserializer.m_deserializers s))
    (BinaryChunkDeserializer.m_offsetsTable s)
    (BinaryChunkDeserializer.m_versionNumber s)
    (Some (header_numBatches bytes))
    (Some (header_numInputs bytes))
    (BinaryChunkDeserializer.m_traceLevel s).

(** [same_failure r r']: [r] and [r'] are the same failure: the same
    exception, a failed assertion both, or undefined both. *)
Definition same_failure {A B} (r : result A) (r' : result B) : Prop :=
  match r, r' with
  | Throw e, Throw e' => e = e'
  | AssertionFailed, AssertionFailed => True
  | Undefined, Undefined => True
  | _, _ => False
  end.

(** Whether an outcome is a returned value. *)
Definition returned {A} (r : result A) : bool :=
  match r with
  | Ok _ => true
  | _ => false
  end.

(** A chunk decoder that rejects every sequence. *)
Definition rejecting_GetSequence (sequenceId : Z) (result : list unit)
    : stateful BinaryDataChunk (list unit) :=
  fun chunk => (Throw MalformedSparseData, chunk).

(** A file of five chunks behind one dense stream, and the store just before
    its offsets table is loaded. *)
Definition five_records : list DiskOffsetsTable :=
  [mkDisk 0 3 3; mkDisk 12 2 2; mkDisk 20 4 4; mkDisk 36 1 1; mkDisk 40 5 5].

Definition five_chunk_file : list byte :=
  file_bytes 1 [stream_x] five_records
    (payload_values [1; 2; 3; 4; 5; 6; 7; 8; 9; 10; 11; 12; 13; 14; 15]).

Definition five_chunk_state_before_load : BinaryChunkDeserializer.t :=
  BinaryChunkDeserializer.mk "sample.bin" (Some (mkFILE five_chunk_file 37)) 37 117
    [Some (mkStream "x" 0 tfloat st_dense 1)]
    [Some (DenseBinaryDataDeserializer tfloat 1)]
    None 1 (Some 5) (Some 1) 0.
(** * Properties *)

Import BinaryChunkDeserializer.

(** ** Machine integers *)

Lemma to_size_t_range z : 0 <= to_size_t z < 2 ^ 64.
Proof. unfold to_size_t, wrap_unsigned. apply Z.mod_pos_bound. lia. Qed.

Lemma to_size_t_small z : 0 <= z < 2 ^ 64 -> to_size_t z = z.
Proof. intros H. unfold to_size_t, wrap_unsigned. apply Z.mod_small. lia. Qed.

Lemma to_size_t_add_l a b : to_size_t (to_size_t a + b) = to_size_t (a + b).
Proof. unfold to_size_t, wrap_unsigned. apply Zplus_mod_idemp_l. Qed.

Lemma to_int64_small z : - 2 ^ 63 <= z < 2 ^ 63 -> to_int64 z = z.
Proof.
  intros H. unfold to_int64, wrap_signed.
  change (2 ^ (64 - 1)) with (2 ^ 63).
  rewrite Z.mod_small; lia.
Qed.

Lemma to_int64_to_size_t z : to_int64 (to_size_t z) = to_int64 z.
Proof.
  unfold to_int64, to_size_t, wrap_signed, wrap_unsigned.
  rewrite Zplus_mod_idemp_l. reflexivity.
Qed.

Lemma PTRDIFF_MAX_eq : PTRDIFF_MAX = 9223372036854775807.
Proof. reflexivity. Qed.

Lemma two_64_eq : 2 ^ 64 = 18446744073709551616.
Proof. reflexivity. Qed.

Lemma two_63_eq : 2 ^ 63 = 9223372036854775808.
Proof. reflexivity. Qed.

Ltac bounds := rewrite ?PTRDIFF_MAX_eq, ?two_64_eq, ?two_63_eq in *.

(** ** Stateful computations *)

Ltac unfold_monad :=
  unfold mbind, stateful_bind, gets, use, c_assert, on_file, seek, tell, read,
    modify, lift, throw, undefined, mret, stateful_ret.

Lemma bind_Ok {S A B} (m : stateful S A) (k : A -> stateful S B) s a s1 :
  m s = (Ok a, s1) -> (m ≫= k) s = k a s1.
Proof. intros H. unfold mbind, stateful_bind. rewrite H. reflexivity. Qed.

Lemma bind_Ok_inv {S A B} (m : stateful S A) (k : A -> stateful S B) s b s' :
  (m ≫= k) s = (Ok b, s') ->
  exists a s1, m s = (Ok a, s1) /\ k a s1 = (Ok b, s').
Proof.
  unfold mbind, stateful_bind. intros H.
  destruct (m s) as [[a|e| |] s1]; try discriminate. eauto.
Qed.

Ltac inv_bind H a s1 Hstep :=
  apply bind_Ok_inv in H; destruct H as (a & s1 & Hstep & H).

Lemma gets_Ok {S A} (proj : S -> A) s a s' :
  gets proj s = (Ok a, s') -> a = proj s /\ s' = s.
Proof. unfold gets. intros H. split; congruence. Qed.

Lemma modify_Ok {S} (upd : S -> S) s u s' :
  modify upd s = (Ok u, s') -> s' = upd s.
Proof. unfold modify. intros H. congruence. Qed.

Lemma use_Ok {S A} (v : option A) (s : S) a s' :
  use v s = (Ok a, s') -> v = Some a /\ s' = s.
Proof.
  destruct v as [x|]; unfold use, undefined, lift, mret, stateful_ret; intros H.
  - split; congruence.
  - discriminate.
Qed.

Lemma throw_not_Ok {S A} e (s : S) (a : A) s' : throw e s = (Ok a, s') -> False.
Proof. unfold throw, lift. discriminate. Qed.

Lemma on_file_Ok_inv {A} (op : stateful FILE A) s a s' :
  on_file op s = (Ok a, s') ->
  exists f f', m_file s = Some f /\ op f = (Ok a, f') /\ s' = set_file (Some f') s.
Proof.
  unfold on_file. intros H. destruct (m_file s) as [f|]; [|discriminate].
  destruct (op f) as [r f'] eqn:Hop. inversion H; subst. eauto.
Qed.

Section Preserves.

Context {S : Type} (R : S -> S -> Prop).
Hypothesis R_refl : forall s, R s s.
Hypothesis R_trans : forall a b c, R a b -> R b c -> R a c.

Lemma preserves_ret {A} (a : A) : preserves R (mret a).
Proof. intros s r s' H. inversion H. apply R_refl. Qed.

Lemma preserves_lift {A} (x : result A) : preserves R (lift x).
Proof. intros s r s' H. inversion H. apply R_refl. Qed.

Lemma preserves_throw {A} e : preserves R (throw e : stateful S A).
Proof. apply preserves_lift. Qed.

Lemma preserves_undefined {A} : preserves R (undefined : stateful S A).
Proof. apply preserves_lift. Qed.

Lemma preserves_gets {A} (proj : S -> A) : preserves R (gets proj).
Proof. intros s r s' H. inversion H. apply R_refl. Qed.

Lemma preserves_use {A} (v : option A) : preserves R (use v : stateful S A).
Proof. destruct v; [apply preserves_ret | apply preserves_undefined]. Qed.

Lemma preserves_bind {A B} (m : stateful S A) (k : A -> stateful S B) :
  preserves R m -> (forall a, preserves R (k a)) -> preserves R (m ≫= k).
Proof.
  intros Hm Hk s r s' H. unfold mbind, stateful_bind in H.
  destruct (m s) as [[a|e| |] s1] eqn:E;
    try solve [inversion H; subst; eapply Hm; eauto].
  eapply R_trans; [eapply Hm; eauto | eapply Hk; eauto].
Qed.

Lemma preserves_modify (upd : S -> S) :
  (forall s, R s (upd s)) -> preserves R (modify upd).
Proof. intros Hupd s r s' H. inversion H. apply Hupd. Qed.

End Preserves.

Ltac preserves_step refl trans :=
  first
    [ apply (preserves_bind _ trans); [|intros ?]
    | apply (preserves_ret _ refl)
    | apply (preserves_lift _ refl)
    | apply (preserves_throw _ refl)
    | apply (preserves_undefined _ refl)
    | apply (preserves_gets _ refl)
    | apply (preserves_use _ refl)
    | assumption
    | match goal with
      | |- preserves _ (if ?c then _ else _) => destruct c
      | |- preserves _ (match ?x with _ => _ end) => destruct x
      end ].

Lemma ensures_bind {S A B} (m : stateful S A) (k : A -> stateful S B) Q :
  (forall a, ensures (k a) Q) -> ensures (m ≫= k) Q.
Proof.
  intros Hk s b s' H. apply bind_Ok_inv in H as (a & s1 & _ & H). eapply Hk, H.
Qed.

Lemma ensures_fails {S A} (r : result A) (Q : S -> Prop) :
  (forall a, r <> Ok a) -> ensures (lift r) Q.
Proof. intros Hr s a s' H. unfold lift in H. inversion H; subst. exfalso. eapply Hr; eauto. Qed.

(** ** Reading from a file *)

Lemma fread_exact size count f :
  0 < size -> 0 <= count -> 0 <= f_pos f ->
  size * count <= Z.of_nat (length (remaining f)) ->
  fread size count f
  = (take (Z.to_nat (size * count)) (remaining f),
     mkFILE (f_bytes f) (f_pos f + size * count)).
Proof.
  intros Hs Hc Hp Hlen. unfold fread. fold (remaining f).
  rewrite Z.min_l by lia.
  assert (Hgot : length (take (Z.to_nat (size * count)) (remaining f))
                 = Z.to_nat (size * count)).
  { rewrite length_take. lia. }
  rewrite Hgot. rewrite Z2Nat.id by nia.
  destruct (Z.eqb_spec size 0) as [->|_]; [lia|].
  replace (size * count / size) with count
    by (rewrite (Z.mul_comm size count), Z.div_mul; lia).
  rewrite (Z.mul_comm count size), take_take, Nat.min_id. reflexivity.
Qed.

Lemma fread_bytes count f :
  0 <= count ->
  fread 1 count f
  = (take (Z.to_nat count) (remaining f),
     mkFILE (f_bytes f)
       (f_pos f + Z.of_nat (length (take (Z.to_nat count) (remaining f))))).
Proof.
  intros Hc. unfold fread. fold (remaining f).
  assert (Hgot : take (Z.to_nat (Z.min (1 * count) (Z.of_nat (length (remaining f)))))
                   (remaining f)
                 = take (Z.to_nat count) (remaining f)).
  { destruct (Z.le_gt_cases count (Z.of_nat (length (remaining f)))).
    - rewrite Z.min_l by lia. f_equal. lia.
    - rewrite Z.min_r by lia. rewrite Nat2Z.id.
      rewrite !take_ge by lia. reflexivity. }
  rewrite Hgot. cbn [Z.eqb]. rewrite Z.div_1_r, Z.mul_1_r, Nat2Z.id.
  rewrite take_ge by lia. reflexivity.
Qed.

(** A scalar that was read completely moves the position by its size. *)
Lemma fread_complete size f bs f' :
  0 < size ->
  fread size 1 f = (bs, f') ->
  length bs = Z.to_nat size ->
  f' = mkFILE (f_bytes f) (f_pos f + size).
Proof.
  intros Hsize H Hlen. unfold fread in H. fold (remaining f) in H.
  destruct (Z.eqb_spec size 0) as [->|_]; [lia|].
  inversion H as [[Hbs Hf']]. clear H. f_equal.
  set (got := take (Z.to_nat (Z.min (size * 1) (Z.of_nat (length (remaining f)))))
                (remaining f)) in *.
  assert (Hgot : Z.of_nat (length got) <= size).
  { unfold got. rewrite length_take. lia. }
  rewrite <- Hbs in Hlen. rewrite length_take in Hlen.
  assert (Hitems : 1 <= Z.of_nat (length got) / size).
  { destruct (Z.le_gt_cases 1 (Z.of_nat (length got) / size)) as [|Hlt]; [assumption|].
    assert (Z.of_nat (length got) / size <= 0) by lia.
    assert (0 <= Z.of_nat (length got) / size) by (apply Z.div_pos; lia).
    replace (Z.of_nat (length got) / size) with 0 in Hlen by lia.
    rewrite Z.mul_0_l in Hlen. cbn in Hlen. lia. }
  assert (size <= Z.of_nat (length got)).
  { pose proof (Z.mul_div_le (Z.of_nat (length got)) size Hsize). nia. }
  lia.
Qed.

Lemma fseek_bytes f off w : f_bytes (_fseeki64 f off w) = f_bytes f.
Proof. unfold _fseeki64. destruct w; case_match; reflexivity. Qed.

Lemma advances_refl f : advances f f.
Proof. split; [reflexivity | lia]. Qed.

Lemma advances_trans a b c : advances a b -> advances b c -> advances a c.
Proof. intros [H1 H2] [H3 H4]. split; [congruence | lia]. Qed.

Lemma fread_advances size count f : advances f (snd (fread size count f)).
Proof. unfold fread, advances. simpl. split; [reflexivity | lia]. Qed.

Ltac advances_auto :=
  repeat preserves_step advances_refl advances_trans.

Lemma header_int32_advances : preserves advances header_int32.
Proof.
  intros f r f' H. unfold header_int32, fread_int32 in H.
  pose proof (fread_advances 4 1 f) as Hadv.
  destruct (fread 4 1 f) as [bs f1]. cbn [snd] in Hadv.
  destruct (decide (length bs = 4%nat)); inversion H; subst; exact Hadv.
Qed.

Lemma read_stream_name_advances len : preserves advances (read_stream_name len).
Proof.
  intros f r f' H. unfold read_stream_name in H.
  destruct ((len <? 0) || (len =? 2 ^ 31 - 1)); [inversion H; apply advances_refl|].
  pose proof (fread_advances 1 len f) as Hadv.
  destruct (fread 1 len f) as [got f1]. cbn [snd] in Hadv.
  destruct (decide _); inversion H; subst; exact Hadv.
Qed.

Lemma DenseBinaryDataDeserializer_new_advances :
  preserves advances DenseBinaryDataDeserializer_new.
Proof.
  pose proof header_int32_advances.
  unfold DenseBinaryDataDeserializer_new. advances_auto.
Qed.

Lemma SparseBinaryDataDeserializer_new_advances :
  preserves advances SparseBinaryDataDeserializer_new.
Proof.
  pose proof header_int32_advances.
  unfold SparseBinaryDataDeserializer_new. advances_auto.
Qed.

Lemma header_int64_Ok f v f' :
  header_int64 f = (Ok v, f') -> f' = mkFILE (f_bytes f) (f_pos f + 8).
Proof.
  unfold header_int64, fread_int64. intros H.
  destruct (fread 8 1 f) as [bs f1] eqn:Hread.
  destruct (decide (length bs = 8%nat)) as [Hlen|]; inversion H; subst.
  apply (fread_complete 8 f bs); [lia | exact Hread | exact Hlen].
Qed.

Lemma read_int64_Some f v f' :
  read_int64 f = (Ok (Some v), f') -> f' = mkFILE (f_bytes f) (f_pos f + 8).
Proof.
  unfold read_int64, fread_int64. intros H.
  destruct (fread 8 1 f) as [bs f1] eqn:Hread.
  destruct (decide (length bs = 8%nat)) as [Hlen|]; inversion H; subst.
  apply (fread_complete 8 f bs); [lia | exact Hread | exact Hlen].
Qed.

Lemma read_int32_Some f v f' :
  read_int32 f = (Ok (Some v), f') -> f' = mkFILE (f_bytes f) (f_pos f + 4).
Proof.
  unfold read_int32, fread_int32. intros H.
  destruct (fread 4 1 f) as [bs f1] eqn:Hread.
  destruct (decide (length bs = 4%nat)) as [Hlen|]; inversion H; subst.
  apply (fread_complete 4 f bs); [lia | exact Hread | exact Hlen].
Qed.

Lemma decode_records_take n (bs : list byte) :
  decode_records n (take (16 * n) bs) = decode_records n bs.
Proof.
  revert bs. induction n as [|n IH]; intros bs; [reflexivity|].
  cbn [decode_records]. f_equal.
  - rewrite take_take. replace (16 `min` (16 * S n))%nat with 16%nat by lia.
    reflexivity.
  - replace (16 * S n)%nat with (16 + 16 * n)%nat by lia.
    rewrite <- take_drop_commute. apply IH.
Qed.

Lemma decode_records_length n (bs : list byte) : length (decode_records n bs) = n.
Proof. revert bs. induction n as [|n IH]; intros bs; simpl; [|rewrite IH]; reflexivity. Qed.

(** ** The start indices that [OffsetsTable::Initialize] derives *)

Lemma sum_numSequences_snoc rs r :
  sum_numSequences (rs ++ [r]) = sum_numSequences rs + numSequences r.
Proof. induction rs as [|x rs IH]; simpl; lia. Qed.

Lemma sum_numSequences_take_S rs k r :
  rs !! k = Some r ->
  sum_numSequences (take (S k) rs) = sum_numSequences (take k rs) + numSequences r.
Proof.
  intros H. rewrite (take_S_r _ _ _ H). apply sum_numSequences_snoc.
Qed.

Lemma sum_numSequences_cons r rs :
  sum_numSequences (r :: rs) = numSequences r + sum_numSequences rs.
Proof. reflexivity. Qed.

(** The loop writes, at [c + k], the sequences seen so far plus the counts of
    the [k] records from [c] on.  The count of the record at [c + k] itself
    is added only after the store to [c + k]. *)
Lemma Initialize_loop_spec (tbl : disk_array) (rs : list DiskOffsetsTable) :
  forall (c : Z) (pre mid post : list Z) (seen : Z),
    0 <= c ->
    length pre = Z.to_nat c ->
    length mid = length rs ->
    to_size_t seen = seen ->
    (forall k r, rs !! k = Some r -> tbl !! (Z.to_nat c + k)%nat = Some (Some r)) ->
    OffsetsTable.Initialize_loop (length rs) c tbl (pre ++ mid ++ post) seen
    = Ok (pre
          ++ ((fun k => to_size_t (seen + sum_numSequences (take k rs))) <$> seq 0 (length rs))
          ++ post).
Proof.
  induction rs as [|r rs IH]; intros c pre mid post seen Hc Hpre Hmid Hseen Htbl.
  - destruct mid; [reflexivity | discriminate].
  - destruct mid as [|m mid]; [discriminate|].
    simpl length. cbn [OffsetsTable.Initialize_loop].
    unfold array_get.
    pose proof (Htbl 0%nat r eq_refl) as H0. rewrite Nat.add_0_r in H0. rewrite H0.
    cbn [mbind result_bind].
    replace (<[Z.to_nat c:=seen]> (pre ++ (m :: mid) ++ post))
      with ((pre ++ [seen]) ++ mid ++ post).
    2:{ rewrite <- Hpre. rewrite insert_app_r_alt by lia.
        rewrite Nat.sub_diag. simpl. rewrite <- app_assoc. reflexivity. }
    rewrite (IH (c + 1) (pre ++ [seen]) mid post).
    + rewrite <- app_assoc. do 2 f_equal.
      cbn [seq fmap list_fmap app take sum_numSequences foldr].
      rewrite Z.add_0_r, Hseen. do 2 f_equal.
      rewrite <- fmap_S_seq, <- list_fmap_compose.
      apply list_fmap_ext. intros i k Hk. cbn.
      rewrite to_size_t_add_l. f_equal. unfold sum_numSequences. lia.
    + lia.
    + rewrite length_app. simpl. lia.
    + simpl in Hmid. lia.
    + unfold to_size_t, wrap_unsigned. apply Z.mod_mod. lia.
    + intros k r' Hk. replace (Z.to_nat (c + 1) + k)%nat with (Z.to_nat c + S k)%nat by lia.
      apply Htbl. exact Hk.
Qed.

Lemma loaded_array_lookup records e k r :
  records !! k = Some r -> loaded_array records e !! k = Some (Some r).
Proof.
  intros H. unfold loaded_array.
  rewrite lookup_app_l.
  - rewrite list_lookup_fmap, H. reflexivity.
  - rewrite length_fmap. eapply lookup_lt_Some; eauto.
Qed.

Lemma loaded_array_last records e :
  loaded_array records e !! length records = Some (Some (mkDisk e 0 0)).
Proof.
  unfold loaded_array. rewrite lookup_app_r; rewrite length_fmap; [|lia].
  rewrite Nat.sub_diag. reflexivity.
Qed.

Lemma loaded_array_length records e :
  length (loaded_array records e) = S (length records).
Proof. unfold loaded_array. rewrite length_app, length_fmap. simpl. lia. Qed.

(** The constructor, run on a table that holds [records] and a closing
    entry, derives [derived_startIndex records]. *)
Lemma OffsetsTable_new_loaded records e :
  (Z.of_nat (length records) + 1) * sizeof_DiskOffsetsTable <= PTRDIFF_MAX ->
  OffsetsTable.new (Z.of_nat (length records)) (loaded_array records e)
  = Ok (loaded_table records e).
Proof.
  intros Hsize. unfold sizeof_DiskOffsetsTable in Hsize.
  assert (HN : 0 <= Z.of_nat (length records) < 2 ^ 59) by (bounds; lia).
  unfold OffsetsTable.new, OffsetsTable.Initialize.
  rewrite to_int64_small by (bounds; lia).
  rewrite to_size_t_small by (bounds; lia).
  destruct (Z.gtb_spec (Z.of_nat (length records) * 8) PTRDIFF_MAX) as [Hgt|_];
    [bounds; lia|].
  destruct records as [|r0 rest].
  - reflexivity.
  - replace (Z.to_nat (Z.of_nat (length (r0 :: rest)) - 1)) with (length rest)
      by (simpl length; lia).
    rewrite Nat2Z.id. simpl length.
    change (replicate (S (length rest)) 0) with ([0] ++ replicate (length rest) 0).
    rewrite <- (app_nil_r (replicate (length rest) 0)).
    rewrite (Initialize_loop_spec (loaded_array (r0 :: rest) e) rest 1 [0]
               (replicate (length rest) 0) [] 0).
    + cbn [mbind result_bind mret result_ret]. unfold loaded_table.
      simpl length. do 2 f_equal. unfold derived_startIndex.
      rewrite app_nil_r. reflexivity.
    + lia.
    + reflexivity.
    + apply length_replicate.
    + reflexivity.
    + intros k r Hk. apply loaded_array_lookup.
      change (Z.to_nat 1) with 1%nat. exact Hk.
Qed.

Lemma derived_startIndex_length records :
  length (derived_startIndex records) = length records.
Proof.
  unfold derived_startIndex. destruct records as [|r0 rest]; [reflexivity|].
  simpl. rewrite length_fmap, length_seq. reflexivity.
Qed.

Lemma derived_startIndex_S r0 rest k :
  (k < length rest)%nat ->
  derived_startIndex (r0 :: rest) !! S k
  = Some (to_size_t (sum_numSequences (take k rest))).
Proof.
  intros Hk.
  transitivity (((fun k => to_size_t (sum_numSequences (take k rest)))
                   <$> seq 0 (length rest)) !! k); [reflexivity|].
  rewrite list_lookup_fmap, lookup_seq_lt by exact Hk. reflexivity.
Qed.

(** From slot 2 on, every slot is the slot before it plus the count of the
    chunk before it, modulo 2^64. *)
Lemma derived_startIndex_step r0 rest k r :
  rest !! k = Some r ->
  (S k < length rest)%nat ->
  exists raw,
    derived_startIndex (r0 :: rest) !! S k = Some raw
    /\ derived_startIndex (r0 :: rest) !! S (S k) = Some (to_size_t (raw + numSequences r)).
Proof.
  intros Hr Hk. eexists. split.
  - apply derived_startIndex_S. lia.
  - rewrite derived_startIndex_S by exact Hk.
    rewrite (sum_numSequences_take_S _ _ _ Hr), to_size_t_add_l. reflexivity.
Qed.

(** With two chunks or more, slot 1 holds 0 whatever the first record
    says. *)
Lemma derived_startIndex_second r0 r1 rest :
  derived_startIndex (r0 :: r1 :: rest) !! 1%nat = Some 0.
Proof. reflexivity. Qed.

(** ** Looking into a loaded table *)

Section LoadedTable.

Variable records : list DiskOffsetsTable.
Variable endOffset : Z.

Let ot := loaded_table records endOffset.
Let N := Z.of_nat (length records).

Lemma array_get_record i r :
  0 <= i -> records !! Z.to_nat i = Some r ->
  array_get (loaded_array records endOffset) i = Ok r.
Proof.
  intros Hi H. unfold array_get. rewrite (loaded_array_lookup _ _ _ _ H). reflexivity.
Qed.

Lemma array_get_end :
  array_get (loaded_array records endOffset) N = Ok (mkDisk endOffset 0 0).
Proof.
  unfold array_get, N. rewrite Nat2Z.id, loaded_array_last. reflexivity.
Qed.

Lemma array_get_past i :
  N < i -> array_get (loaded_array records endOffset) i = Undefined.
Proof.
  intros Hi. unfold array_get.
  rewrite lookup_ge_None_2; [reflexivity|].
  rewrite loaded_array_length. unfold N in Hi. lia.
Qed.

Lemma record_at i : 0 <= i < N -> exists r, records !! Z.to_nat i = Some r.
Proof.
  intros Hi. apply lookup_lt_is_Some_2. unfold N in Hi. lia.
Qed.

Lemma GetOffset_record i r :
  0 <= i -> records !! Z.to_nat i = Some r ->
  OffsetsTable.GetOffset ot i = Ok (offset r).
Proof.
  intros Hi H. unfold OffsetsTable.GetOffset, ot. cbn [loaded_table OffsetsTable.m_diskOffsetsTable].
  rewrite (array_get_record _ _ Hi H). reflexivity.
Qed.

Lemma GetOffset_end : OffsetsTable.GetOffset ot N = Ok endOffset.
Proof.
  unfold OffsetsTable.GetOffset, ot. cbn [loaded_table OffsetsTable.m_diskOffsetsTable].
  rewrite array_get_end. reflexivity.
Qed.

Lemma GetOffset_past i : N < i -> OffsetsTable.GetOffset ot i = Undefined.
Proof.
  intros Hi. unfold OffsetsTable.GetOffset, ot. cbn [loaded_table OffsetsTable.m_diskOffsetsTable].
  rewrite (array_get_past _ Hi). reflexivity.
Qed.

Lemma GetNumSequences_record i r :
  0 <= i -> records !! Z.to_nat i = Some r ->
  OffsetsTable.GetNumSequences ot i = Ok (numSequences r).
Proof.
  intros Hi H. unfold OffsetsTable.GetNumSequences, ot.
  cbn [loaded_table OffsetsTable.m_diskOffsetsTable].
  rewrite (array_get_record _ _ Hi H). reflexivity.
Qed.

Lemma GetNumSamples_record i r :
  0 <= i -> records !! Z.to_nat i = Some r ->
  OffsetsTable.GetNumSamples ot i = Ok (numSamples r).
Proof.
  intros Hi H. unfold OffsetsTable.GetNumSamples, ot.
  cbn [loaded_table OffsetsTable.m_diskOffsetsTable].
  rewrite (array_get_record _ _ Hi H). reflexivity.
Qed.

(** The size of a chunk is taken from the entry after it: the next record,
    or the closing entry for the last chunk. *)
Lemma GetChunkSize_inner i r r' :
  0 <= i -> i + 1 < 2 ^ 64 ->
  records !! Z.to_nat i = Some r -> records !! S (Z.to_nat i) = Some r' ->
  OffsetsTable.GetChunkSize ot i = Ok (to_size_t (offset r' - offset r)).
Proof.
  intros Hi Hmax H H'. unfold OffsetsTable.GetChunkSize, ot.
  cbn [loaded_table OffsetsTable.m_diskOffsetsTable].
  rewrite to_size_t_small by lia.
  rewrite (array_get_record (i + 1) r') by (try lia; rewrite Z2Nat.inj_add by lia; rewrite Nat.add_1_r; exact H').
  rewrite (array_get_record _ _ Hi H). reflexivity.
Qed.

Lemma GetChunkSize_last r :
  N < 2 ^ 64 ->
  records !! Z.to_nat (N - 1) = Some r -> 0 < N ->
  OffsetsTable.GetChunkSize ot (N - 1) = Ok (to_size_t (endOffset - offset r)).
Proof.
  intros Hmax H HN. unfold OffsetsTable.GetChunkSize, ot.
  cbn [loaded_table OffsetsTable.m_diskOffsetsTable].
  replace (N - 1 + 1) with N by lia.
  rewrite to_size_t_small by (unfold N in *; lia).
  rewrite array_get_end.
  rewrite (array_get_record (N - 1) r) by (try lia; exact H). reflexivity.
Qed.

Lemma GetChunkSize_end :
  N + 1 < 2 ^ 64 -> OffsetsTable.GetChunkSize ot N = Undefined.
Proof.
  intros Hmax. unfold OffsetsTable.GetChunkSize, ot.
  cbn [loaded_table OffsetsTable.m_diskOffsetsTable].
  rewrite to_size_t_small by (unfold N in *; lia).
  rewrite (array_get_past (N + 1)) by lia. reflexivity.
Qed.

Lemma GetStartIndex_valid i :
  0 <= i < N -> exists raw,
    derived_startIndex records !! Z.to_nat i = Some raw
    /\ OffsetsTable.GetStartIndex ot i = Ok (to_int64 raw).
Proof.
  intros Hi.
  destruct (lookup_lt_is_Some_2 (derived_startIndex records) (Z.to_nat i)) as [raw Hraw].
  { rewrite derived_startIndex_length. unfold N in Hi. lia. }
  exists raw. split; [exact Hraw|].
  unfold OffsetsTable.GetStartIndex, ot. cbn [loaded_table OffsetsTable.m_startIndex].
  rewrite Hraw. reflexivity.
Qed.

Lemma GetStartIndex_past i :
  N <= i -> OffsetsTable.GetStartIndex ot i = Undefined.
Proof.
  intros Hi. unfold OffsetsTable.GetStartIndex, ot. cbn [loaded_table OffsetsTable.m_startIndex].
  rewrite lookup_ge_None_2; [reflexivity|].
  rewrite derived_startIndex_length. unfold N in Hi. lia.
Qed.

End LoadedTable.

Lemma GetChunkSize_valid records endOffset i :
  0 <= i < Z.of_nat (length records) ->
  Z.of_nat (length records) + 1 < 2 ^ 64 ->
  exists size,
    OffsetsTable.GetChunkSize (loaded_table records endOffset) i = Ok size
    /\ 0 <= size < 2 ^ 64.
Proof.
  intros Hi Hmax.
  destruct (record_at records i Hi) as [r Hr].
  destruct (Z.eq_dec (i + 1) (Z.of_nat (length records))) as [Hlast|Hinner].
  - replace i with (Z.of_nat (length records) - 1) in * by lia.
    eexists. split; [apply (GetChunkSize_last records endOffset r); [lia|exact Hr|lia]|].
    apply to_size_t_range.
  - destruct (record_at records (i + 1)) as [r' Hr']; [lia|].
    replace (Z.to_nat (i + 1)) with (S (Z.to_nat i)) in Hr' by lia.
    eexists. split; [apply (GetChunkSize_inner records endOffset i r r'); [lia|lia|exact Hr|exact Hr']|].
    apply to_size_t_range.
Qed.

(** ** Monotone tables *)

Lemma offsets_increasing_lookup rs i r r' :
  offsets_increasing rs = true ->
  rs !! i = Some r -> rs !! S i = Some r' -> offset r <= offset r'.
Proof.
  revert i. induction rs as [|x rs IH]; intros i Hinc Hr Hr'; [discriminate|].
  destruct rs as [|y rs]; [destruct i; discriminate|].
  cbn [offsets_increasing] in Hinc. apply andb_true_iff in Hinc as [Hxy Hrest].
  destruct i as [|i].
  - cbn in Hr, Hr'. inversion Hr; inversion Hr'; subst. apply Z.leb_le, Hxy.
  - apply (IH i Hrest); assumption.
Qed.

Lemma counts_nonnegative_elem rs r :
  counts_nonnegative rs = true -> r ∈ rs -> 0 <= numSequences r.
Proof.
  unfold counts_nonnegative. intros H Hr.
  rewrite forallb_forall in H. apply Z.leb_le, H, list_elem_of_In, Hr.
Qed.

Lemma counts_nonnegative_tail r rs :
  counts_nonnegative (r :: rs) = true -> counts_nonnegative rs = true.
Proof. unfold counts_nonnegative. cbn. intros H. apply andb_true_iff in H. tauto. Qed.

(** The running sum of counts that are not negative grows with the number of
    records added, up to the sum of all of them. *)
Lemma sum_numSequences_take_mono rs :
  counts_nonnegative rs = true ->
  forall k k', (k <= k')%nat ->
    0 <= sum_numSequences (take k rs) <= sum_numSequences (take k' rs)
    /\ sum_numSequences (take k' rs) <= sum_numSequences rs.
Proof.
  induction rs as [|r rs IH]; intros Hnn k k' Hk.
  - rewrite !take_nil. cbn. lia.
  - pose proof (counts_nonnegative_elem _ r Hnn (list_elem_of_here _ _)) as Hr.
    specialize (IH (counts_nonnegative_tail _ _ Hnn)).
    rewrite sum_numSequences_cons.
    destruct (IH 0%nat 0%nat (Nat.le_refl _)) as [_ H0]. rewrite take_0 in H0.
    change (sum_numSequences []) with 0 in H0.
    destruct k' as [|k'].
    + replace k with 0%nat by lia. rewrite take_0.
      change (sum_numSequences []) with 0. lia.
    + change (take (S k') (r :: rs)) with (r :: take k' rs).
      rewrite sum_numSequences_cons.
      destruct k as [|k].
      * rewrite take_0. change (sum_numSequences []) with 0.
        destruct (IH 0%nat k' (Nat.le_0_l _)) as [H1 H2].
        rewrite take_0 in H1. change (sum_numSequences []) with 0 in H1. lia.
      * change (take (S k) (r :: rs)) with (r :: take k rs).
        rewrite sum_numSequences_cons.
        destruct (IH k k') as [H1 H2]; [lia|]. lia.
Qed.

(** With counts that are not negative and whose sum fits, [GetStartIndex]
    is the plain sum of the counts of the records 1 to [i - 1]. *)
Lemma GetStartIndex_sum records endOffset i :
  counts_nonnegative records = true ->
  sum_numSequences records < 2 ^ 63 ->
  0 <= i < Z.of_nat (length records) ->
  OffsetsTable.GetStartIndex (loaded_table records endOffset) i
  = Ok (sum_numSequences (take (Z.to_nat i - 1) (tail records))).
Proof.
  intros Hnn Hsum Hi.
  unfold OffsetsTable.GetStartIndex. cbn [loaded_table OffsetsTable.m_startIndex].
  destruct records as [|r0 rest]; [cbn in Hi; lia|].
  cbn [tail].
  pose proof (counts_nonnegative_elem _ r0 Hnn (list_elem_of_here _ _)) as Hr0.
  pose proof (counts_nonnegative_tail _ _ Hnn) as Hnn'.
  destruct (Z.to_nat i) as [|k] eqn:Hk.
  - cbn. reflexivity.
  - rewrite derived_startIndex_S by (cbn [length] in Hi; lia).
    replace (S k - 1)%nat with k by lia.
    destruct (sum_numSequences_take_mono rest Hnn' k k (Nat.le_refl _)) as [H1 H2].
    rewrite sum_numSequences_cons in Hsum.
    rewrite to_size_t_small by (bounds; lia).
    rewrite to_int64_small by (bounds; lia). reflexivity.
Qed.

Lemma loaded_table_offsets_monotone records endOffset :
  (Z.of_nat (length records) + 1) * sizeof_DiskOffsetsTable <= PTRDIFF_MAX ->
  offsets_increasing records = true ->
  last_offset_within records endOffset = true ->
  offsets_monotone (loaded_table records endOffset) (Z.of_nat (length records)).
Proof.
  intros Hsize Hinc Hlast i Hi. unfold sizeof_DiskOffsetsTable in Hsize.
  destruct (record_at records i Hi) as [r Hr].
  destruct (GetChunkSize_valid records endOffset i Hi) as (size & Hcs & Hrange);
    [bounds; lia|].
  destruct (Z.eq_dec (i + 1) (Z.of_nat (length records))) as [Hend|Hinner].
  - exists (offset r), endOffset, size.
    split; [apply GetOffset_record; [lia|exact Hr]|].
    split; [rewrite Hend; apply GetOffset_end|].
    split; [|split; [exact Hcs|lia]].
    unfold last_offset_within in Hlast. rewrite last_lookup in Hlast.
    replace (pred (length records)) with (Z.to_nat i) in Hlast by lia.
    rewrite Hr in Hlast. apply Z.leb_le, Hlast.
  - destruct (record_at records (i + 1)) as [r' Hr']; [lia|].
    exists (offset r), (offset r'), size.
    split; [apply GetOffset_record; [lia|exact Hr]|].
    split; [apply GetOffset_record; [lia|exact Hr']|].
    split; [|split; [exact Hcs|lia]].
    replace (Z.to_nat (i + 1)) with (S (Z.to_nat i)) in Hr' by lia.
    apply (offsets_increasing_lookup records (Z.to_nat i)); assumption.
Qed.

Lemma loaded_table_startIndex_monotone records endOffset :
  counts_nonnegative records = true ->
  sum_numSequences records < 2 ^ 63 ->
  startIndex_monotone (loaded_table records endOffset) (Z.of_nat (length records)).
Proof.
  intros Hnn Hsum i j Hij Hj.
  eexists. eexists.
  split; [apply GetStartIndex_sum; [assumption|assumption|lia]|].
  split; [apply GetStartIndex_sum; [assumption|assumption|lia]|].
  destruct records as [|r0 rest]; [cbn in Hj; lia|].
  cbn [tail].
  apply (sum_numSequences_take_mono rest (counts_nonnegative_tail _ _ Hnn)). lia.
Qed.

(** A count that is negative makes the start indices decrease. *)
Lemma negative_count_startIndex_decreases :
  exists ot,
    OffsetsTable.new 4 (loaded_array [mkDisk 0 0 0; mkDisk 0 5 5; mkDisk 0 (-1) 0; mkDisk 0 0 0] 0)
    = Ok ot
    /\ OffsetsTable.GetStartIndex ot 2 = Ok 5
    /\ OffsetsTable.GetStartIndex ot 3 = Ok 4.
Proof. eexists. split; [vm_compute; reflexivity|]. split; vm_compute; reflexivity. Qed.

(** ** Loading the offsets table *)

Ltac load_step :=
  cbv beta iota zeta delta [m_numBatches m_file m_offsetStart set_file set_offsetsTable
                              _ftelli64 f_pos].

(** A load through the end of a file that holds all [n] records leaves the
    records, closed by an entry whose offset is the size of the file. *)
Lemma ReadOffsetsTable_all_loads NDEBUG s f n :
  m_file s = Some f ->
  m_numBatches s = Some (Z.of_nat n) ->
  0 <= m_offsetStart s ->
  m_offsetStart s + 16 * Z.of_nat n <= Z.of_nat (length (f_bytes f)) ->
  Z.of_nat (length (f_bytes f)) < 2 ^ 63 ->
  (Z.of_nat n + 1) * sizeof_DiskOffsetsTable <= PTRDIFF_MAX ->
  ReadOffsetsTable_all NDEBUG s
  = (Ok tt,
     set_offsetsTable
       (Some (loaded_table
                (decode_records n (drop (Z.to_nat (m_offsetStart s)) (f_bytes f)))
                (Z.of_nat (length (f_bytes f)))))
       (set_file (Some (mkFILE (f_bytes f) (Z.of_nat (length (f_bytes f))))) s)).
Proof.
  intros Hfile Hnb Hos Hfit Hlen Hsize.
  unfold sizeof_DiskOffsetsTable in *.
  assert (Hn : to_size_t (Z.of_nat n) = Z.of_nat n) by (apply to_size_t_small; bounds; lia).
  assert (Hn1 : to_size_t (Z.of_nat n + 1) = Z.of_nat n + 1) by (apply to_size_t_small; bounds; lia).
  destruct s as [fn fl os ds sts des otb ver nb ni tl]. cbn in Hfile, Hnb, Hos, Hfit |- *.
  subst fl nb. destruct f as [bytes pos]. cbn in Hfit, Hlen |- *.
  assert (Hcond : to_int64 (to_size_t (0 + to_size_t (Z.of_nat n))) = Z.of_nat n).
  { rewrite Z.add_0_l, Hn, Hn. apply to_int64_small. bounds. lia. }
  assert (Hslots : to_size_t (to_size_t (Z.of_nat n) + 1) = Z.of_nat n + 1)
    by (rewrite Hn; exact Hn1).
  assert (Hseek : _fseeki64 (mkFILE bytes pos) (to_int64 (to_size_t (0 * 16 + os))) SEEK_SET
                  = mkFILE bytes os).
  { rewrite Z.mul_0_l, Z.add_0_l.
    rewrite (to_size_t_small os) by (bounds; lia).
    rewrite (to_int64_small os) by (bounds; lia).
    unfold _fseeki64. destruct (Z.ltb_spec os 0); [lia|reflexivity]. }
  assert (Hread : fread 16 (to_size_t (Z.of_nat n)) (mkFILE bytes os)
                  = (take (16 * n) (drop (Z.to_nat os) bytes),
                     mkFILE bytes (os + 16 * Z.of_nat n))).
  { rewrite Hn. rewrite fread_exact; unfold remaining; cbn [f_pos f_bytes]; try lia.
    - do 2 f_equal. lia.
    - rewrite length_drop. lia. }
  assert (Hend : _fseeki64 (mkFILE bytes (os + 16 * Z.of_nat n)) 0 SEEK_END
                 = mkFILE bytes (Z.of_nat (length bytes))).
  { unfold _fseeki64. cbn [f_bytes]. rewrite Z.add_0_r.
    destruct (Z.ltb_spec (Z.of_nat (length bytes)) 0); [lia|reflexivity]. }
  set (records := decode_records n (drop (Z.to_nat os) bytes)).
  assert (Hrecords : decode_records
            (length (take (16 * n) (drop (Z.to_nat os) bytes)) `div` 16)
            (take (16 * n) (drop (Z.to_nat os) bytes)) = records).
  { rewrite length_take, length_drop.
    replace ((16 * n) `min` (length bytes - Z.to_nat os))%nat with (n * 16)%nat by lia.
    rewrite Nat.div_mul by lia. apply decode_records_take. }
  assert (Hlenr : length records = n) by apply decode_records_length.
  assert (Hset : array_set ((Some <$> records)
                            ++ replicate (Z.to_nat (Z.of_nat n + 1) - length records) None)
                   (to_size_t (Z.of_nat n)) (mkDisk (Z.of_nat (length bytes)) 0 0)
                 = Ok (loaded_array records (Z.of_nat (length bytes)))).
  { unfold array_set. rewrite Hn, Nat2Z.id.
    replace (Z.to_nat (Z.of_nat n + 1) - length records)%nat with 1%nat by lia.
    rewrite length_app, length_fmap. cbn [replicate length].
    destruct (decide (n < length records + 1)%nat) as [_|Hno]; [|lia].
    rewrite insert_app_r_alt; rewrite length_fmap; [|lia].
    rewrite Hlenr, Nat.sub_diag. reflexivity. }
  pose proof (OffsetsTable_new_loaded records (Z.of_nat (length bytes))) as Hnew.
  rewrite Hlenr, <- Hn in Hnew. rewrite Hn in Hnew at 1. specialize (Hnew Hsize).
  unfold ReadOffsetsTable_all, ReadOffsetsTable, c_assert.
  unfold_monad. unfold sizeof_DiskOffsetsTable.
  destruct NDEBUG; load_step;
    rewrite ?Hcond, ?Z.leb_refl; load_step;
    rewrite Hseek; load_step;
    rewrite Hslots;
    (destruct (Z.gtb_spec ((Z.of_nat n + 1) * 16) PTRDIFF_MAX) as [Hgt|_]; [lia|]);
    load_step; rewrite Hread; load_step; rewrite Hrecords;
    (destruct (decide (Z.to_nat (Z.of_nat n + 1) < length records)%nat) as [Hbad|_]; [lia|]);
    load_step; rewrite ?Hcond, ?Z.eqb_refl; load_step;
    rewrite Hend; load_step;
    rewrite Hset, Hnew; reflexivity.
Qed.

Lemma table_and_file_refl s : table_and_file s s.
Proof. destruct s. reflexivity. Qed.

Lemma table_and_file_trans a b c :
  table_and_file a b -> table_and_file b c -> table_and_file a c.
Proof. unfold table_and_file. intros -> ->. destruct a. reflexivity. Qed.

Lemma table_and_file_on_file {A} (op : stateful FILE A) :
  preserves table_and_file (on_file op).
Proof.
  intros s r s' H. unfold on_file in H.
  destruct (m_file s) as [f|]; [destruct (op f) as [r' f']|]; inversion H; subst.
  - destruct s. reflexivity.
  - apply table_and_file_refl.
Qed.

Ltac table_and_file_auto :=
  repeat first
    [ apply table_and_file_on_file
    | apply preserves_modify; intros s; destruct s; reflexivity
    | preserves_step table_and_file_refl table_and_file_trans ].

Lemma ReadOffsetsTable_all_table_and_file NDEBUG :
  preserves table_and_file (ReadOffsetsTable_all NDEBUG).
Proof.
  unfold ReadOffsetsTable_all, ReadOffsetsTable, c_assert. table_and_file_auto.
Qed.

Lemma ReadOffsetsTable_all_builds_table NDEBUG :
  ensures (ReadOffsetsTable_all NDEBUG) (fun s => is_Some (m_offsetsTable s)).
Proof.
  unfold ReadOffsetsTable_all, ReadOffsetsTable, throw, undefined.
  repeat first
    [ apply ensures_bind; intros ?
    | match goal with
      | |- ensures (if ?c then _ else _) _ => destruct c
      end
    | apply ensures_fails; discriminate ].
  intros s u s' H. apply modify_Ok in H as ->. destruct s. cbn. eauto.
Qed.

(** ** What [Initialize] establishes *)

Lemma Initialize_rejects_version NDEBUG fs rename s bytes :
  fs (m_filename s) = Some bytes ->
  (8 <= length bytes)%nat ->
  decode_int64 (take 8 bytes) <> m_versionNumber s ->
  Initialize NDEBUG fs rename s
  = (Throw FormatVersionMismatch, set_file (Some (mkFILE bytes 8)) s).
Proof.
  intros Hfs Hlen Hver.
  assert (Hread : fread 8 1 (mkFILE bytes 0) = (take 8 bytes, mkFILE bytes 8)).
  { rewrite fread_exact; unfold remaining; cbn [f_pos f_bytes drop Z.to_nat]; try lia.
    - reflexivity.
    - rewrite drop_0. lia. }
  unfold Initialize, fopenOrDie, header_int64, fread_int64. unfold_monad.
  destruct s as [fn fl os ds sts des otb ver nb ni tl].
  cbn in Hfs, Hver.
  cbv beta iota zeta delta [m_filename m_file m_versionNumber set_file].
  rewrite Hfs.
  cbv beta iota zeta delta [m_filename m_file m_versionNumber set_file _fseeki64 f_bytes f_pos].
  change (0 <? 0) with false. cbv beta iota.
  rewrite Hread.
  destruct (decide (length (take 8 bytes) = 8%nat)) as [_|Hno];
    [|rewrite length_take in Hno; lia].
  cbv beta iota zeta delta [m_filename m_file m_versionNumber set_file].
  destruct (Z.eqb_spec (decode_int64 (take 8 bytes)) ver) as [Heq|_]; [contradiction|].
  reflexivity.
Qed.

Lemma reads_on_refl s : reads_on s s.
Proof. split; [reflexivity|]. intros f Hf. exists f. split; [exact Hf | apply advances_refl]. Qed.

Lemma reads_on_trans a b c : reads_on a b -> reads_on b c -> reads_on a c.
Proof.
  intros [H1 H2] [H3 H4]. split; [congruence|].
  intros f Hf. destruct (H2 f Hf) as (f1 & Hf1 & Ha1).
  destruct (H4 f1 Hf1) as (f2 & Hf2 & Ha2).
  exists f2. split; [exact Hf2 | eapply advances_trans; eauto].
Qed.

Lemma reads_on_on_file {A} (op : stateful FILE A) :
  preserves advances op -> preserves reads_on (on_file op).
Proof.
  intros Hop s r s' H. unfold on_file in H.
  destruct (m_file s) as [f|] eqn:Hf.
  - destruct (op f) as [r' f'] eqn:Hopf. inversion H; subst.
    split; [destruct s; reflexivity|].
    intros f0 Hf0. exists f'. split; [destruct s; reflexivity|].
    rewrite Hf in Hf0. inversion Hf0; subst f0. eapply Hop. exact Hopf.
  - inversion H; subst. apply reads_on_refl.
Qed.

Ltac reads_on_auto :=
  repeat first
    [ apply reads_on_on_file;
      first [ exact header_int32_advances
            | apply read_stream_name_advances
            | exact DenseBinaryDataDeserializer_new_advances
            | exact SparseBinaryDataDeserializer_new_advances ]
    | apply preserves_modify; intros s; destruct s; split;
      [reflexivity | intros f Hf; exists f; split; [exact Hf | apply advances_refl]]
    | preserves_step reads_on_refl reads_on_trans ].

Lemma Initialize_streams_reads_on n c rename :
  preserves reads_on (Initialize_streams n c rename).
Proof.
  revert c. induction n as [|n IH]; intros c; cbn [Initialize_streams].
  - reads_on_auto.
  - reads_on_auto. apply IH.
Qed.

Ltac proj_step H :=
  cbn [set_file set_numBatches set_numInputs set_streams set_deserializers
       set_offsetStart set_dataStart set_offsetsTable
       m_filename m_file m_offsetStart m_dataStart m_streams m_deserializers
       m_offsetsTable m_versionNumber m_numBatches m_numInputs m_traceLevel] in H.

Lemma Initialize_Ok_inv NDEBUG fs rename s0 s bytes :
  fs (m_filename s0) = Some bytes ->
  Initialize NDEBUG fs rename s0 = (Ok tt, s) ->
  exists s1 os nb,
    20 <= os
    /\ m_file s1 = Some (mkFILE bytes os)
    /\ m_offsetStart s1 = os
    /\ m_numBatches s1 = Some nb
    /\ ReadOffsetsTable_all NDEBUG s1 = (Ok tt, s).
Proof.
  intros Hfs H. unfold Initialize in H.
  inv_bind H filename q1 Ha. apply gets_Ok in Ha as [-> ->].
  inv_bind H f q2 Hb. unfold lift, fopenOrDie in Hb. rewrite Hfs in Hb.
  assert (f = mkFILE bytes 0 /\ q2 = s0) as [-> ->] by (split; congruence). clear Hb.
  inv_bind H u q3 Hc. apply modify_Ok in Hc as ->.
  inv_bind H u1 q4 Hd. apply on_file_Ok_inv in Hd as (f & f' & Hf & Hop & ->).
  assert (f = mkFILE bytes 0) as -> by (destruct s0; cbn in Hf; inversion Hf; reflexivity). clear Hf.
  assert (f' = mkFILE bytes 0) as -> by (unfold seek in Hop; cbn in Hop; congruence).
  clear Hop.
  inv_bind H v q5 He. apply on_file_Ok_inv in He as (f & f' & Hf & Hop & ->).
  assert (f = mkFILE bytes 0) as -> by (destruct s0; cbn in Hf; inversion Hf; reflexivity). clear Hf.
  apply header_int64_Ok in Hop. cbn in Hop. subst f'.
  inv_bind H rv q6 Hf. apply gets_Ok in Hf as [-> ->].
  destruct (negb _); [exfalso; exact (throw_not_Ok _ _ _ _ H)|].
  inv_bind H nb q7 Hg. apply on_file_Ok_inv in Hg as (f & f' & Hf & Hop & ->).
  assert (f = mkFILE bytes 8) as -> by (destruct s0; cbn in Hf; inversion Hf; reflexivity). clear Hf.
  inv_bind H u2 q8 Hh. apply modify_Ok in Hh as ->.
  inv_bind H ni q9 Hi. apply on_file_Ok_inv in Hi as (f & f'' & Hf & Hop2 & ->).
  assert (f = f') as -> by (destruct s0; cbn in Hf; inversion Hf; reflexivity). clear Hf.
  inv_bind H u3 q10 Hj. apply modify_Ok in Hj as ->.
  inv_bind H numInputs q11 Hk. apply use_Ok in Hk as [-> ->].
  destruct (numInputs <? 0); [exfalso; exact (throw_not_Ok _ _ _ _ H)|].
  inv_bind H u4 q12 Hl. apply modify_Ok in Hl as ->.
  inv_bind H u5 q13 Hm. apply modify_Ok in Hm as ->.
  inv_bind H u6 q14 Hloop.
  inv_bind H offsetStart q15 Htell.
  inv_bind H u7 q16 Hn. apply modify_Ok in Hn as ->.
  inv_bind H numBatches q17 Ho. apply use_Ok in Ho as [-> ->].
  inv_bind H u8 q18 Hp. apply modify_Ok in Hp as ->.
  apply read_int64_Some in Hop. cbn in Hop. subst f'.
  apply read_int32_Some in Hop2. cbn in Hop2. subst f''.
  apply Initialize_streams_reads_on in Hloop as [Hnb Hfile].
  destruct (Hfile (mkFILE bytes (8 + 8 + 4))) as (f1 & Hf1 & Hbytes & Hpos);
    [destruct s0; reflexivity|].
  cbn in Hbytes, Hpos.
  apply on_file_Ok_inv in Htell as (f & f' & Hf & Hop & ->).
  rewrite Hf1 in Hf. assert (f = f1) as -> by congruence. clear Hf.
  unfold tell, _ftelli64 in Hop.
  assert (offsetStart = f_pos f1 /\ f' = f1) as [-> ->] by (split; congruence). clear Hop.
  eexists. exists (f_pos f1), numBatches.
  split; [lia|]. split; [|split; [|split; [|exact H]]].
  - destruct q14, f1. cbn in *. subst. reflexivity.
  - destruct q14. reflexivity.
  - destruct q14, s0. cbn in *. exact Hnb.
Qed.

Lemma Initialize_builds_table NDEBUG fs rename :
  ensures (Initialize NDEBUG fs rename) (fun s => is_Some (m_offsetsTable s)).
Proof.
  unfold Initialize, throw, undefined.
  repeat first
    [ apply ReadOffsetsTable_all_builds_table
    | apply ensures_bind; intros ?
    | match goal with
      | |- ensures (if ?c then _ else _) _ => destruct c
      end
    | apply ensures_fails; discriminate ].
Qed.

(** The store that the public constructor returns has its offsets table. *)
Lemma create_builds_table NDEBUG fs helper s :
  create NDEBUG fs helper = Ok s -> is_Some (m_offsetsTable s).
Proof.
  unfold create. intros H.
  destruct ((SetTraceLevel (GetTraceLevel helper);; Initialize NDEBUG fs (GetRename helper))
              (new (GetFilePath helper))) as [[[]|e| |] s1] eqn:E; inversion H; subst s1.
  apply bind_Ok_inv in E as (u & q & _ & E).
  exact (Initialize_builds_table NDEBUG fs (GetRename helper) q tt s E).
Qed.

(** A store that [Initialize] built from a file shorter than 2^63 bytes that
    holds all its offset records is [Initialized], with the records of the
    file and the size of the file as the closing offset. *)
Lemma Initialize_Initialized NDEBUG fs rename s0 s bytes n :
  fs (m_filename s0) = Some bytes ->
  Z.of_nat (length bytes) < 2 ^ 63 ->
  Initialize NDEBUG fs rename s0 = (Ok tt, s) ->
  m_numBatches s = Some (Z.of_nat n) ->
  m_offsetStart s + 16 * Z.of_nat n <= Z.of_nat (length bytes) ->
  Initialized s (decode_records n (drop (Z.to_nat (m_offsetStart s)) bytes))
    (Z.of_nat (length bytes)).
Proof.
  intros Hfs Hlen Hinit Hn Hfit.
  destruct (Initialize_Ok_inv _ _ _ _ _ _ Hfs Hinit) as (s1 & os & nb & Hos & Hfile & Hoff & Hnb & Hload).
  pose proof (ReadOffsetsTable_all_table_and_file NDEBUG s1 _ s Hload) as Hframe.
  assert (Hnb' : m_numBatches s = m_numBatches s1) by (rewrite Hframe; destruct s1; reflexivity).
  assert (Hoff' : m_offsetStart s = m_offsetStart s1) by (rewrite Hframe; destruct s1; reflexivity).
  rewrite Hnb' in Hn. rewrite Hoff' in Hfit |- *. rewrite Hoff in Hfit |- *.
  assert (Hsize : (Z.of_nat n + 1) * sizeof_DiskOffsetsTable <= PTRDIFF_MAX).
  { unfold sizeof_DiskOffsetsTable. bounds. lia. }
  pose proof (ReadOffsetsTable_all_loads NDEBUG s1 (mkFILE bytes os) n Hfile Hn) as Hrun.
  rewrite Hoff in Hrun. cbn [f_bytes] in Hrun.
  specialize (Hrun ltac:(lia) Hfit Hlen Hsize).
  rewrite Hrun in Hload. inversion Hload as [Hs]. clear Hload.
  unfold Initialized. cbn [loaded_table]. rewrite decode_records_length.
  destruct s1. cbn in *. repeat split; try assumption; eauto.
Qed.

(** ** Reading a chunk *)

Lemma GetChunk_run s ot f chunkId off size startIndex sequences :
  m_offsetsTable s = Some ot ->
  m_file s = Some f ->
  OffsetsTable.GetOffset ot chunkId = Ok off ->
  OffsetsTable.GetChunkSize ot chunkId = Ok size ->
  0 <= size <= PTRDIFF_MAX ->
  OffsetsTable.GetStartIndex ot chunkId = Ok startIndex ->
  OffsetsTable.GetNumSequences ot chunkId = Ok sequences ->
  let got := chunk_bytes s f off size in
  GetChunk chunkId s
  = (Ok (mkChunk chunkId startIndex sequences
           (got ++ replicate (Z.to_nat size - length got) zero_byte)
           (m_deserializers s)),
     set_file (Some (mkFILE (f_bytes f)
                       (f_pos (chunk_seek s f off) + Z.of_nat (length got)))) s).
Proof.
  intros Hot Hfile Hoff Hsize Hbound Hsi Hns got.
  unfold GetChunk, ReadChunk, offsetsTable. unfold_monad.
  destruct s as [fn fl os ds sts des otb ver nb ni tl].
  cbn in Hot, Hfile. subst otb fl.
  cbv beta iota zeta delta [m_offsetsTable m_file m_dataStart m_deserializers set_file].
  rewrite Hoff.
  cbv beta iota zeta delta [m_offsetsTable m_file m_dataStart m_deserializers set_file].
  rewrite Hsize.
  destruct (Z.gtb_spec size PTRDIFF_MAX) as [Hgt|_]; [lia|].
  cbv beta iota zeta delta [m_offsetsTable m_file m_dataStart m_deserializers set_file].
  rewrite fread_bytes by lia.
  cbv beta iota zeta delta [m_offsetsTable m_file m_dataStart m_deserializers set_file].
  rewrite Hsi, Hns.
  unfold got, chunk_bytes, chunk_seek.
  cbv beta iota zeta delta [m_offsetsTable m_file m_dataStart m_deserializers set_file].
  rewrite fseek_bytes. reflexivity.
Qed.

Lemma only_file_refl s : only_file s s.
Proof. destruct s. reflexivity. Qed.

Lemma only_file_trans a b c : only_file a b -> only_file b c -> only_file a c.
Proof. unfold only_file. intros -> ->. destruct a. reflexivity. Qed.

Lemma only_file_on_file {A} (op : stateful FILE A) : preserves only_file (on_file op).
Proof.
  intros s r s' H. unfold on_file in H.
  destruct (m_file s) as [f|]; [destruct (op f) as [r' f']|]; inversion H; subst.
  - destruct s. reflexivity.
  - apply only_file_refl.
Qed.

Ltac only_file_auto :=
  repeat first [ apply only_file_on_file
               | preserves_step only_file_refl only_file_trans ].

(** The operations leave every member but the file handle as it was. *)
Lemma ReadChunk_only_file chunkId : preserves only_file (ReadChunk chunkId).
Proof. unfold ReadChunk, offsetsTable. only_file_auto. Qed.

Lemma GetChunk_only_file chunkId : preserves only_file (GetChunk chunkId).
Proof.
  unfold GetChunk, offsetsTable.
  pose proof (ReadChunk_only_file chunkId).
  only_file_auto. 
Qed.

Lemma offsetsTable_run s ot : m_offsetsTable s = Some ot -> offsetsTable s = (Ok ot, s).
Proof. intros H. unfold offsetsTable. unfold_monad. rewrite H. reflexivity. Qed.

(** On a store whose offsets table has not been built, [GetChunk] and
    [GetSequencesForChunk] go through the null pointer. *)
Lemma null_table_dereferenced (s : t) :
  m_offsetsTable s = None ->
  (forall chunkId, fst (GetChunk chunkId s) = Undefined)
  /\ (forall SequenceData (m_numberOfSamples : SequenceData -> Z) GetSequence chunkId result,
         fst (GetSequencesForChunk SequenceData m_numberOfSamples GetSequence
                chunkId result s) = Undefined).
Proof.
  intros Hnull. destruct s as [fn fl os ds sts des otb ver nb ni tl].
  cbn in Hnull. subst otb.
  split; intros; reflexivity.
Qed.

(** ** The chunk descriptions *)

Lemma GetChunkDescriptions_loop_run s records endOffset :
  m_offsetsTable s = Some (loaded_table records endOffset) ->
  forall (rs : list DiskOffsetsTable) (c : nat) (result : list ChunkDescription),
    (forall k r, rs !! k = Some r -> records !! (c + k)%nat = Some r) ->
    GetChunkDescriptions_loop (length rs) (Z.of_nat c) result s
    = (Ok (result ++ imap (fun k => description_of (c + k)) rs), s).
Proof.
  intros Hot rs. induction rs as [|r rs IH]; intros c result Hrs.
  - cbn. rewrite app_nil_r. reflexivity.
  - cbn [length GetChunkDescriptions_loop]. unfold offsetsTable. unfold_monad.
    rewrite Hot.
    pose proof (Hrs 0%nat r eq_refl) as H0. rewrite Nat.add_0_r in H0.
    rewrite (GetNumSamples_record records endOffset (Z.of_nat c) r)
      by (try lia; rewrite Nat2Z.id; exact H0).
    rewrite (GetNumSequences_record records endOffset (Z.of_nat c) r)
      by (try lia; rewrite Nat2Z.id; exact H0).
    replace (Z.of_nat c + 1) with (Z.of_nat (S c)) by lia.
    fold (@mbind _ (@stateful_bind t)) in IH.
    unfold mbind, stateful_bind, offsetsTable, gets, use in IH.
    rewrite (IH (S c)).
    + rewrite <- app_assoc. cbn [app imap]. unfold description_of at 2.
      rewrite Nat.add_0_r. do 4 f_equal.
      apply imap_ext. intros k x Hk. cbn. f_equal. lia.
    + intros k r' Hk. replace (S c + k)%nat with (c + S k)%nat by lia.
      apply Hrs. exact Hk.
Qed.

Lemma chunk_descriptions_lookup records i r :
  records !! i = Some r ->
  chunk_descriptions records !! i = Some (description_of i r).
Proof.
  intros H. unfold chunk_descriptions. rewrite list_lookup_imap, H. reflexivity.
Qed.

Lemma GetChunkDescriptions_only_file NDEBUG : preserves only_file (GetChunkDescriptions NDEBUG).
Proof.
  assert (Hloop : forall n c result, preserves only_file (GetChunkDescriptions_loop n c result)).
  { induction n as [|n IH]; intros c result; cbn [GetChunkDescriptions_loop];
      unfold offsetsTable; only_file_auto. apply IH. }
  unfold GetChunkDescriptions, c_assert. only_file_auto.
  all: apply Hloop.
Qed.

(** ** The sequences of a chunk *)

Section Sequences.

Variable SequenceData : Type.
Variable m_numberOfSamples : SequenceData -> Z.
Variable GetSequence :
  Z -> list SequenceData -> stateful BinaryDataChunk (list SequenceData).

Local Abbreviation loop := (GetSequencesForChunk_loop SequenceData m_numberOfSamples GetSequence).
Local Abbreviation describe := (sequence_description m_numberOfSamples).

Lemma GetSequencesForChunk_only_file chunkId result :
  preserves only_file
    (GetSequencesForChunk SequenceData m_numberOfSamples GetSequence chunkId result).
Proof.
  assert (Hloop : forall n c startId chunk res,
             preserves only_file (loop n c chunkId startId chunk res)).
  { induction n as [|n IH]; intros c startId chunk res;
      cbn [GetSequencesForChunk_loop]; unfold offsetsTable; only_file_auto.
    apply IH. }
  pose proof (GetChunk_only_file chunkId).
  unfold GetSequencesForChunk, offsetsTable. only_file_auto. apply Hloop.
Qed.

(** The loop, when every call of [GetSequence] returns. *)
Lemma GetSequencesForChunk_loop_run s ot chunkId startIndex startId :
  m_offsetsTable s = Some ot ->
  OffsetsTable.GetStartIndex ot chunkId = Ok startIndex ->
  forall (n : nat) (c : Z) chunk result temps,
    decode_sequences GetSequence n c startIndex chunk = Ok temps ->
    loop n c chunkId startId chunk result s
    = (Ok (result
           ++ imap (fun k => describe chunkId (to_size_t (startId + (c + Z.of_nat k)))) temps),
       s).
Proof.
  intros Hot Hsi. induction n as [|n IH]; intros c chunk result temps Hdec.
  - cbn in Hdec. inversion Hdec. cbn. rewrite app_nil_r. reflexivity.
  - cbn [decode_sequences] in Hdec. cbn [GetSequencesForChunk_loop].
    unfold offsetsTable. unfold_monad. rewrite Hot, Hsi.
    destruct (GetSequence (to_size_t (startIndex + c)) [] chunk) as [temp chunk'].
    destruct temp as [temp|e| |]; try discriminate.
    cbn [mbind result_bind] in Hdec.
    destruct (decode_sequences GetSequence n (c + 1) startIndex chunk') as [rest|e| |] eqn:Hrest;
      try discriminate.
    cbn [mbind result_bind mret result_ret] in Hdec. inversion Hdec; subst temps.
    rewrite (IH (c + 1) chunk' _ rest Hrest).
    rewrite <- app_assoc. cbn [app imap]. unfold sequence_description at 2.
    rewrite Z.add_0_r. do 4 f_equal.
    apply imap_ext. intros k x Hk. cbn. do 3 f_equal; lia.
Qed.

(** [GetSequencesForChunk], when the chunk can be read and every sequence
    of it decoded. *)
Lemma GetSequencesForChunk_run s ot chunkId chunk s' sequences startIndex temps result :
  m_offsetsTable s = Some ot ->
  OffsetsTable.GetNumSequences ot chunkId = Ok sequences ->
  0 <= sequences < 2 ^ 64 ->
  OffsetsTable.GetStartIndex ot chunkId = Ok startIndex ->
  GetChunk chunkId s = (Ok chunk, s') ->
  decode_sequences GetSequence (Z.to_nat sequences) 0 startIndex chunk = Ok temps ->
  GetSequencesForChunk SequenceData m_numberOfSamples GetSequence chunkId result s
  = (Ok (result
         ++ imap (fun k => describe chunkId (to_size_t (to_size_t startIndex + Z.of_nat k)))
              temps),
     s').
Proof.
  intros Hot Hns Hrange Hsi Hchunk Hdec.
  assert (Hot' : m_offsetsTable s' = Some ot).
  { rewrite (GetChunk_only_file chunkId s _ s' Hchunk). destruct s. exact Hot. }
  pose proof (GetSequencesForChunk_loop_run s' ot chunkId startIndex (to_size_t startIndex)
                Hot' Hsi (Z.to_nat sequences) 0 chunk result temps Hdec) as Hloop.
  unfold GetSequencesForChunk.
  rewrite (bind_Ok _ _ _ _ _ (offsetsTable_run s ot Hot)).
  rewrite (bind_Ok _ _ s sequences s) by (unfold lift; rewrite Hns; reflexivity).
  destruct (Z.ltb_spec sequences 0) as [Hneg|_]; [lia|].
  rewrite (bind_Ok _ _ _ _ _ Hchunk).
  rewrite (bind_Ok _ _ _ _ _ (offsetsTable_run s' ot Hot')).
  rewrite (bind_Ok _ _ s' startIndex s') by (unfold lift; rewrite Hsi; reflexivity).
  rewrite (bind_Ok _ _ s' sequences s') by (unfold lift; rewrite Hns; reflexivity).
  rewrite (to_size_t_small sequences) by lia.
  rewrite Hloop. reflexivity.
Qed.

End Sequences.

Lemma decode_sequences_length {SequenceData : Type}
    (GetSequence : Z -> list SequenceData -> stateful BinaryDataChunk (list SequenceData))
    n c startIndex chunk temps :
  decode_sequences GetSequence n c startIndex chunk = Ok temps -> length temps = n.
Proof.
  revert c chunk temps. induction n as [|n IH]; intros c chunk temps H.
  - inversion H. reflexivity.
  - cbn [decode_sequences] in H.
    destruct (GetSequence (to_size_t (startIndex + c)) [] chunk) as [temp chunk'].
    destruct temp as [temp|e| |]; try discriminate.
    cbn [mbind result_bind] in H.
    destruct (decode_sequences GetSequence n (c + 1) startIndex chunk') as [rest|e| |] eqn:Hrest;
      try discriminate.
    inversion H. simpl. f_equal. eapply IH. exact Hrest.
Qed.

(** [max_numberOfSamples temp] bounds the sample count of every stream's
    sequence, and is one of them unless it is the initial 0. *)
Lemma max_numberOfSamples_spec {SequenceData : Type} (ns : SequenceData -> Z)
    (temp : list SequenceData) :
  (forall x, x ∈ temp -> ns x <= max_numberOfSamples SequenceData ns temp)
  /\ (max_numberOfSamples SequenceData ns temp = 0
      \/ exists x, x ∈ temp /\ max_numberOfSamples SequenceData ns temp = ns x).
Proof.
  unfold max_numberOfSamples.
  assert (H : forall acc,
             (acc <= foldl (fun n s => Z.max n (ns s)) acc temp)
             /\ (forall x, x ∈ temp -> ns x <= foldl (fun n s => Z.max n (ns s)) acc temp)
             /\ (foldl (fun n s => Z.max n (ns s)) acc temp = acc
                 \/ exists x, x ∈ temp /\ foldl (fun n s => Z.max n (ns s)) acc temp = ns x)).
  { induction temp as [|y temp IH]; intros acc; cbn [foldl].
    - split; [lia|]. split; [intros x Hx; inversion Hx | left; reflexivity].
    - destruct (IH (Z.max acc (ns y))) as (Hacc & Hall & Hone).
      split; [lia|]. split.
      + intros x Hx. apply elem_of_cons in Hx as [->|Hx]; [lia | apply Hall, Hx].
      + destruct Hone as [Heq | (x & Hx & Heq)].
        * destruct (Z.max_spec acc (ns y)) as [[_ Hm]|[_ Hm]].
          -- right. exists y. split; [apply list_elem_of_here | congruence].
          -- left. congruence.
        * right. exists x. split; [apply list_elem_of_further, Hx | exact Heq]. }
  destruct (H 0) as (_ & Hall & Hone). split; assumption.
Qed.

(** ** The example stores *)

Lemma sample_store_eq : sample_store = Ok sample_state.
Proof. vm_compute. reflexivity. Qed.

Lemma sample_state_Initialized : Initialized sample_state sample_records 89.
Proof.
  repeat split; try reflexivity; [eexists; reflexivity | vm_compute; discriminate].
Defined.

Lemma truncated_store_eq : truncated_store = Ok truncated_state.
Proof. vm_compute. reflexivity. Qed.

Lemma truncated_state_Initialized : Initialized truncated_state sample_records 75.
Proof.
  repeat split; try reflexivity; [eexists; reflexivity | vm_compute; discriminate].
Defined.

Lemma short_store_eq : short_store = Ok short_state.
Proof. vm_compute. reflexivity. Qed.

Lemma mixed_store_eq : create false (one_disk mixed_file) sample_helper = Ok mixed_state.
Proof. vm_compute. reflexivity. Qed.

Lemma max_numberOfSamples_nonneg {SequenceData : Type} (ns : SequenceData -> Z)
    (temp : list SequenceData) :
  0 <= max_numberOfSamples SequenceData ns temp.
Proof.
  unfold max_numberOfSamples.
  assert (H : forall acc, 0 <= acc -> 0 <= foldl (fun n s => Z.max n (ns s)) acc temp).
  { induction temp as [|y temp IH]; intros acc Hacc; cbn [foldl]; [exact Hacc|].
    apply IH. lia. }
  apply H. lia.
Qed.

(** In no build does [GetChunkDescriptions] throw [NotInitialized] on a
    store without offsets table. *)
Lemma GetChunkDescriptions_null_table NDEBUG (s : t) :
  m_offsetsTable s = None ->
  fst (GetChunkDescriptions NDEBUG s) <> Throw NotInitialized.
Proof.
  intros Hnull. destruct s as [fn fl os ds sts des otb ver nb ni tl].
  cbn in Hnull. subst otb.
  unfold GetChunkDescriptions, c_assert. unfold_monad.
  destruct NDEBUG; cbv beta iota zeta delta [m_offsetsTable m_numBatches];
    [|cbn; discriminate].
  destruct nb as [nb|]; [|cbn; discriminate].
  destruct (to_size_t nb * 16 >? PTRDIFF_MAX); [cbn; discriminate|].
  destruct (Z.to_nat nb) as [|n]; cbn; discriminate.
Qed.

(** * The claims *)

(** C1 (defect in the code).  For the table of the example file, whose
    chunks hold 3 and 2 sequences, the constructor of [OffsetsTable] derives
    [GetStartIndex(1) = 0]: the loop of [OffsetsTable::Initialize] starts at
    [c = 1] and adds the count of chunk [c] after storing, so the sequences of
    chunk 0 are never counted and
    [startIndex[1] = startIndex[0] + numSequences[0]] fails.  This is the
    table of the store that the constructor builds from the file. *)
Theorem startIndex_omits_first_chunk :
  exists ot,
    OffsetsTable.new 2 [Some (mkDisk 0 3 3); Some (mkDisk 12 2 2); Some (mkDisk 89 0 0)]
    = Ok ot
    /\ OffsetsTable.GetStartIndex ot 0 = Ok 0
    /\ OffsetsTable.GetNumSequences ot 0 = Ok 3
    /\ OffsetsTable.GetStartIndex ot 1 = Ok 0
    /\ exists s, sample_store = Ok s /\ m_offsetsTable s = Some ot.
Proof.
  eexists. split; [vm_compute; reflexivity|].
  split; [vm_compute; reflexivity|].
  split; [vm_compute; reflexivity|].
  split; [vm_compute; reflexivity|].
  exists sample_state. split; [exact sample_store_eq | reflexivity].
Qed.

(** C2, as it fails: the example file has two chunks, and [GetChunk(2)] does
    not end in [OutOfRange]; it reads the table behind its closing entry. *)
Lemma GetChunk_past_end_no_OutOfRange :
  exists s,
    sample_store = Ok s
    /\ m_numBatches s = Some 2
    /\ fst (GetChunk 2 s) = Undefined
    /\ fst (GetChunk 2 s) <> Throw OutOfRange.
Proof.
  unfold sample_store. eexists. split; [vm_compute; reflexivity|].
  split; [reflexivity|]. split; [vm_compute; reflexivity|].
  vm_compute. discriminate.
Qed.

(** C2, amended: [GetChunk] does not validate [chunkId].  On an initialized
    store of N chunks, every [chunkId >= N] makes it index the offsets table
    behind the N + 1 entries it has, which is undefined; no [OutOfRange] is
    raised. *)
Theorem GetChunk_past_end_undefined s records endOffset chunkId :
  Initialized s records endOffset ->
  Z.of_nat (length records) <= chunkId ->
  fst (GetChunk chunkId s) = Undefined
  /\ fst (GetChunk chunkId s) <> Throw OutOfRange.
Proof.
  intros (Hot & Hnb & [f Hfile] & Hsize) Hid.
  unfold sizeof_DiskOffsetsTable in Hsize.
  assert (H : fst (GetChunk chunkId s) = Undefined).
  { unfold GetChunk, ReadChunk, offsetsTable. unfold_monad.
    destruct s as [fn fl os ds sts des otb ver nb ni tl].
    cbn in Hot, Hfile. subst otb fl.
    cbv beta iota zeta delta [m_offsetsTable m_file m_dataStart m_deserializers set_file].
    destruct (Z.eq_dec chunkId (Z.of_nat (length records))) as [->|Hne].
    - rewrite GetOffset_end.
      cbv beta iota zeta delta [m_offsetsTable m_file m_dataStart m_deserializers set_file].
      rewrite GetChunkSize_end by (bounds; lia). reflexivity.
    - rewrite GetOffset_past by lia. reflexivity. }
  split; [exact H|]. rewrite H. discriminate.
Qed.

Lemma GetChunk_past_end_undefined_witness :
  exists s, sample_store = Ok s
    /\ Initialized s sample_records 89
    /\ fst (GetChunk 5 s) = Undefined
       /\ fst (GetChunk 5 s) <> Throw OutOfRange.
Proof.
  exists sample_state. split; [vm_compute; reflexivity|].
  split; [exact sample_state_Initialized|].
  apply (GetChunk_past_end_undefined sample_state sample_records 89 5
           sample_state_Initialized).
  simpl. lia.
Defined.

(** C3, as it fails: the example file cut off after 6 bytes of its first
    chunk.  The table gives the chunk 12 bytes, the file holds 6 at its
    start, and [GetChunk(0)] returns a buffer of those 6 bytes and 6 zero
    bytes; it does not end in [TruncatedRead]. *)
Lemma GetChunk_truncated_returns_buffer :
  exists s ot f chunk,
    truncated_store = Ok s
    /\ m_offsetsTable s = Some ot /\ m_file s = Some f
    /\ OffsetsTable.GetOffset ot 0 = Ok 0
    /\ OffsetsTable.GetChunkSize ot 0 = Ok 12
    /\ length (remaining (chunk_seek s f 0)) = 6%nat
    /\ fst (GetChunk 0 s) = Ok chunk
    /\ chunk_buffer chunk
       = take 6 (payload_values [1; 2; 3; 4; 5]) ++ replicate 6 zero_byte
    /\ fst (GetChunk 0 s) <> Throw TruncatedRead.
Proof.
  unfold truncated_store.
  eexists. eexists. eexists. eexists.
  split; [vm_compute; reflexivity|].
  split; [reflexivity|]. split; [reflexivity|].
  split; [vm_compute; reflexivity|]. split; [vm_compute; reflexivity|].
  split; [vm_compute; reflexivity|]. split; [vm_compute; reflexivity|].
  split; [vm_compute; reflexivity|]. vm_compute. discriminate.
Qed.

(** C3, amended: [GetChunk] never checks how much [fread] delivered.  For a
    valid [chunkId] whose chunk can be allocated, if the file holds fewer
    bytes than [GetChunkSize(chunkId)] from the position [ReadChunk] seeks to,
    [GetChunk] returns a chunk whose buffer has [GetChunkSize(chunkId)] bytes:
    the bytes the file holds there, followed by zero bytes. *)
Theorem GetChunk_short_read_zero_filled s records endOffset f chunkId off size :
  Initialized s records endOffset ->
  m_file s = Some f ->
  0 <= chunkId < Z.of_nat (length records) ->
  OffsetsTable.GetOffset (loaded_table records endOffset) chunkId = Ok off ->
  OffsetsTable.GetChunkSize (loaded_table records endOffset) chunkId = Ok size ->
  size <= PTRDIFF_MAX ->
  Z.of_nat (length (remaining (chunk_seek s f off))) < size ->
  exists chunk s',
    GetChunk chunkId s = (Ok chunk, s')
    /\ chunk_buffer chunk
       = remaining (chunk_seek s f off)
         ++ replicate (Z.to_nat size - length (remaining (chunk_seek s f off))) zero_byte
    /\ Z.of_nat (length (chunk_buffer chunk)) = size.
Proof.
  intros (Hot & Hnb & _ & Hsize) Hfile Hid Hoff Hcs Hmax Hshort.
  destruct (record_at records chunkId Hid) as [r Hr].
  destruct (GetStartIndex_valid records endOffset chunkId Hid) as (raw & _ & Hsi).
  eexists. eexists. split.
  - apply (GetChunk_run s _ f chunkId off size (to_int64 raw) (numSequences r)
             Hot Hfile Hoff Hcs).
    + lia.
    + exact Hsi.
    + apply GetNumSequences_record; [lia|exact Hr].
  - cbn [chunk_buffer]. unfold chunk_bytes.
    rewrite take_ge by lia. split; [reflexivity|].
    rewrite length_app, length_replicate. lia.
Qed.

Lemma GetChunk_short_read_zero_filled_witness :
  exists chunk s',
    GetChunk 0 truncated_state = (Ok chunk, s')
    /\ chunk_buffer chunk
       = remaining (chunk_seek truncated_state (mkFILE truncated_file 75) 0)
         ++ replicate (Z.to_nat 12
                       - length (remaining (chunk_seek truncated_state
                                              (mkFILE truncated_file 75) 0)))
              zero_byte
    /\ Z.of_nat (length (chunk_buffer chunk)) = 12.
Proof.
  apply (GetChunk_short_read_zero_filled truncated_state sample_records 75
           (mkFILE truncated_file 75) 0 0 12 truncated_state_Initialized).
  - reflexivity.
  - simpl. lia.
  - vm_compute. reflexivity.
  - vm_compute. reflexivity.
  - vm_compute. discriminate.
  - vm_compute. reflexivity.
Defined.

(** C4 (defect in the code).  On the example file the last chunk starts at
    [m_dataStart + 12 = 81] and the file ends at 89, so its payload is 8
    bytes.  The closing entry of the table is the absolute end-of-file
    position 89, while the offsets of the records count from [m_dataStart]:
    [GetChunkSize(1) = 89 - 12 = 77], and [GetChunk(1)] returns the 8 payload
    bytes followed by 69 zero bytes. *)
Theorem last_chunk_size_counts_header :
  exists s ot f chunk,
    sample_store = Ok s
    /\ m_offsetsTable s = Some ot /\ m_file s = Some f
    /\ m_dataStart s = 69
    /\ OffsetsTable.GetOffset ot 1 = Ok 12
    /\ length (f_bytes f) = 89%nat
    /\ remaining (chunk_seek s f 12) = payload_values [4; 5]
    /\ OffsetsTable.GetChunkSize ot 1 = Ok 77
    /\ fst (GetChunk 1 s) = Ok chunk
    /\ chunk_buffer chunk = payload_values [4; 5] ++ replicate 69 zero_byte.
Proof.
  exists sample_state, (loaded_table sample_records 89), (mkFILE sample_file 89).
  eexists.
  split; [exact sample_store_eq|].
  repeat split; vm_compute; reflexivity.
Qed.

(** C5.  If the first 8 bytes of the file encode a version other than 1,
    [Initialize] ends in [FormatVersionMismatch] with the file position at 8,
    so nothing behind the version was read; no other member has changed, the
    offsets table is still absent, and the public constructor throws instead
    of yielding a store. *)
Theorem Initialize_version_mismatch NDEBUG fs helper bytes :
  fs (GetFilePath helper) = Some bytes ->
  (8 <= length bytes)%nat ->
  decode_int64 (take 8 bytes) <> 1 ->
  let s0 := set_traceLevel (GetTraceLevel helper) (new (GetFilePath helper)) in
  let s1 := set_file (Some (mkFILE bytes 8)) s0 in
  Initialize NDEBUG fs (GetRename helper) s0 = (Throw FormatVersionMismatch, s1)
  /\ m_offsetsTable s1 = None
  /\ create NDEBUG fs helper = Throw FormatVersionMismatch.
Proof.
  intros Hfs Hlen Hver s0 s1.
  assert (H : Initialize NDEBUG fs (GetRename helper) s0 = (Throw FormatVersionMismatch, s1)).
  { apply Initialize_rejects_version; assumption. }
  split; [exact H|]. split; [reflexivity|].
  unfold create, SetTraceLevel. unfold_monad. fold s0. rewrite H. reflexivity.
Qed.

Lemma Initialize_version_mismatch_witness :
  let s0 := set_traceLevel 0 (new "sample.bin") in
  let s1 := set_file (Some (mkFILE version2_file 8)) s0 in
  Initialize false (one_disk version2_file) ∅ s0 = (Throw FormatVersionMismatch, s1)
  /\ m_offsetsTable s1 = None
  /\ create false (one_disk version2_file) sample_helper = Throw FormatVersionMismatch.
Proof.
  apply (Initialize_version_mismatch false (one_disk version2_file) sample_helper
           version2_file).
  - reflexivity.
  - vm_compute. lia.
  - vm_compute. discriminate.
Defined.

(** C6, as it fails: on the store that the private constructor leaves, which
    has not been initialized, no operation ends in [NotInitialized]:
    [GetChunkDescriptions] fails its assertion, and [GetChunk(0)] and
    [GetSequencesForChunk(0, _)] go through the null [m_offsetsTable]
    without any check. *)
Lemma uninitialized_no_NotInitialized :
  m_offsetsTable (new "sample.bin") = None
  /\ fst (GetChunkDescriptions false (new "sample.bin")) = AssertionFailed
  /\ fst (GetChunkDescriptions false (new "sample.bin")) <> Throw NotInitialized
  /\ fst (GetChunk 0 (new "sample.bin")) = Undefined
  /\ fst (GetChunk 0 (new "sample.bin")) <> Throw NotInitialized
  /\ fst (GetSequencesForChunk SpecChunk.SequenceData SpecChunk.m_numberOfSamples
            SpecChunk.GetSequence 0 [] (new "sample.bin")) = Undefined
  /\ fst (GetSequencesForChunk SpecChunk.SequenceData SpecChunk.m_numberOfSamples
            SpecChunk.GetSequence 0 [] (new "sample.bin")) <> Throw NotInitialized.
Proof.
  split; [reflexivity|]. split; [reflexivity|]. split; [vm_compute; discriminate|].
  split; [reflexivity|]. split; [vm_compute; discriminate|].
  split; [reflexivity|]. vm_compute. discriminate.
Qed.

(** C6, amended: no operation reports [NotInitialized].  On a store whose
    offsets table has not been built, [GetChunk] and [GetSequencesForChunk]
    go through the null [m_offsetsTable] for every chunk id, which is
    undefined; [GetChunkDescriptions] fails its [assert(m_offsetsTable)] in a
    build with assertions, and throws [NotInitialized] in no build.  Such a
    store is never what the public constructor returns, since the
    constructor runs [Initialize]. *)
Theorem uninitialized_store_guard (s : t) :
  m_offsetsTable s = None ->
  fst (GetChunkDescriptions false s) = AssertionFailed
  /\ (forall NDEBUG, fst (GetChunkDescriptions NDEBUG s) <> Throw NotInitialized)
  /\ (forall chunkId,
        fst (GetChunk chunkId s) = Undefined
        /\ fst (GetChunk chunkId s) <> Throw NotInitialized)
  /\ (forall SequenceData (m_numberOfSamples : SequenceData -> Z) GetSequence chunkId result,
        fst (GetSequencesForChunk SequenceData m_numberOfSamples GetSequence
               chunkId result s) = Undefined
        /\ fst (GetSequencesForChunk SequenceData m_numberOfSamples GetSequence
                  chunkId result s) <> Throw NotInitialized)
  /\ forall NDEBUG fs helper, create NDEBUG fs helper <> Ok s.
Proof.
  intros Hnull.
  destruct (null_table_dereferenced s Hnull) as [Hchunk Hseq].
  split.
  { destruct s as [fn fl os ds sts des otb ver nb ni tl].
    cbn in Hnull. subst otb. reflexivity. }
  split; [intros NDEBUG; apply GetChunkDescriptions_null_table, Hnull|].
  split; [intros chunkId; split; [apply Hchunk | rewrite Hchunk; discriminate]|].
  split.
  { intros SD ns GS chunkId result.
    split; [apply Hseq | rewrite Hseq; discriminate]. }
  intros NDEBUG fs helper Hcreate.
  destruct (create_builds_table NDEBUG fs helper s Hcreate) as [ot Hot].
  congruence.
Qed.

Lemma uninitialized_store_guard_witness :
  fst (GetChunkDescriptions false (new "sample.bin")) = AssertionFailed
  /\ (forall NDEBUG,
        fst (GetChunkDescriptions NDEBUG (new "sample.bin")) <> Throw NotInitialized)
  /\ (forall chunkId,
        fst (GetChunk chunkId (new "sample.bin")) = Undefined
        /\ fst (GetChunk chunkId (new "sample.bin")) <> Throw NotInitialized)
  /\ (forall SequenceData (m_numberOfSamples : SequenceData -> Z) GetSequence chunkId result,
        fst (GetSequencesForChunk SequenceData m_numberOfSamples GetSequence
               chunkId result (new "sample.bin")) = Undefined
        /\ fst (GetSequencesForChunk SequenceData m_numberOfSamples GetSequence
                  chunkId result (new "sample.bin")) <> Throw NotInitialized)
  /\ forall NDEBUG fs helper, create NDEBUG fs helper <> Ok (new "sample.bin").
Proof. apply (uninitialized_store_guard (new "sample.bin")). reflexivity. Defined.

(** C7.  On an initialized store of N chunks, [GetChunkDescriptions] returns
    N descriptions and leaves the store, its file handle included, as it was;
    description [i] is [(i, GetNumSamples(i), GetNumSequences(i))] of the
    offsets table in memory. *)
Theorem GetChunkDescriptions_from_table NDEBUG s records endOffset :
  Initialized s records endOffset ->
  GetChunkDescriptions NDEBUG s = (Ok (chunk_descriptions records), s)
  /\ length (chunk_descriptions records) = length records
  /\ forall i, 0 <= i < Z.of_nat (length records) ->
       exists samples sequences,
         OffsetsTable.GetNumSamples (loaded_table records endOffset) i = Ok samples
         /\ OffsetsTable.GetNumSequences (loaded_table records endOffset) i = Ok sequences
         /\ chunk_descriptions records !! Z.to_nat i
            = Some (mkChunkDescription i samples sequences).
Proof.
  intros (Hot & Hnb & _ & Hsize). unfold sizeof_DiskOffsetsTable in Hsize.
  split; [|split].
  - pose proof (GetChunkDescriptions_loop_run s records endOffset Hot records 0 []) as Hloop.
    specialize (Hloop (fun k r Hk => Hk)).
    assert (Hsome : bool_decide (is_Some (Some (loaded_table records endOffset))) = true)
      by (apply bool_decide_eq_true; eexists; reflexivity).
    unfold GetChunkDescriptions, c_assert. unfold_monad.
    destruct s as [fn fl os ds sts des otb ver nb ni tl].
    cbn in Hot, Hnb. subst otb nb.
    destruct NDEBUG;
      cbv beta iota zeta delta [m_offsetsTable m_numBatches];
      rewrite ?Hsome;
      cbv beta iota zeta delta [m_offsetsTable m_numBatches];
      rewrite to_size_t_small by (bounds; lia);
      (destruct (Z.gtb_spec (Z.of_nat (length records) * 16) PTRDIFF_MAX) as [Hgt|_]; [lia|]);
      rewrite Nat2Z.id; exact Hloop.
  - unfold chunk_descriptions. apply length_imap.
  - intros i Hi. destruct (record_at records i Hi) as [r Hr].
    exists (numSamples r), (numSequences r).
    split; [apply GetNumSamples_record; [lia|exact Hr]|].
    split; [apply GetNumSequences_record; [lia|exact Hr]|].
    rewrite (chunk_descriptions_lookup _ _ _ Hr). unfold description_of.
    rewrite Z2Nat.id by lia. reflexivity.
Qed.

Lemma GetChunkDescriptions_from_table_witness :
  GetChunkDescriptions false sample_state = (Ok (chunk_descriptions sample_records), sample_state)
  /\ length (chunk_descriptions sample_records) = length sample_records
  /\ forall i, 0 <= i < Z.of_nat (length sample_records) ->
       exists samples sequences,
         OffsetsTable.GetNumSamples (loaded_table sample_records 89) i = Ok samples
         /\ OffsetsTable.GetNumSequences (loaded_table sample_records 89) i = Ok sequences
         /\ chunk_descriptions sample_records !! Z.to_nat i
            = Some (mkChunkDescription i samples sequences).
Proof.
  exact (GetChunkDescriptions_from_table false sample_state sample_records 89
           sample_state_Initialized).
Defined.

(** C8.  For a chunk of an open file whose entries the offsets table holds
    and whose sequences all decode, [GetSequencesForChunk] reads the chunk
    with [GetChunk]: the chunk it decodes carries the chunk id, the start
    index, the sequence count, the codecs of the store and the
    [GetChunkSize(chunkId)] bytes read at [m_dataStart + GetOffset(chunkId)].
    It asks that chunk for every sequence and returns, in order of the local
    index [c] in [0, numSequences), the description with id
    [startIndex + c], the chunk id, the valid flag set, the key
    [(startIndex + c, 0)], and as sample count the maximum of the sample
    counts of the sequence's streams: a number that is not negative, is not
    below the count of any stream, and is the count of one of the streams
    unless it is 0. *)
Theorem GetSequencesForChunk_descriptions
    (SequenceData : Type) (m_numberOfSamples : SequenceData -> Z)
    (GetSequence : Z -> list SequenceData -> stateful BinaryDataChunk (list SequenceData))
    s ot f chunkId off csize sequences startIndex temps :
  m_offsetsTable s = Some ot ->
  m_file s = Some f ->
  OffsetsTable.GetOffset ot chunkId = Ok off ->
  OffsetsTable.GetChunkSize ot chunkId = Ok csize ->
  0 <= csize <= PTRDIFF_MAX ->
  OffsetsTable.GetNumSequences ot chunkId = Ok sequences ->
  0 <= sequences ->
  OffsetsTable.GetStartIndex ot chunkId = Ok startIndex ->
  0 <= startIndex ->
  startIndex + sequences < 2 ^ 64 ->
  let got := chunk_bytes s f off csize in
  let chunk :=
    mkChunk chunkId startIndex sequences
      (got ++ replicate (Z.to_nat csize - length got) zero_byte) (m_deserializers s) in
  decode_sequences GetSequence (Z.to_nat sequences) 0 startIndex chunk = Ok temps ->
  exists descriptions,
    GetSequencesForChunk SequenceData m_numberOfSamples GetSequence chunkId [] s
    = (Ok descriptions,
       set_file (Some (mkFILE (f_bytes f)
                         (f_pos (chunk_seek s f off) + Z.of_nat (length got)))) s)
    /\ Z.of_nat (length descriptions) = sequences
    /\ forall c, 0 <= c < sequences ->
         exists temp numSamples,
           temps !! Z.to_nat c = Some temp
           /\ descriptions !! Z.to_nat c
              = Some (mkSequenceDescription (startIndex + c) numSamples
                        chunkId true (startIndex + c, 0))
           /\ 0 <= numSamples
           /\ (forall x, x ∈ temp -> m_numberOfSamples x <= numSamples)
           /\ (numSamples = 0
               \/ exists x, x ∈ temp /\ numSamples = m_numberOfSamples x).
Proof.
  intros Hot Hfile Hoff Hcs Hbound Hns Hnonneg Hsi Hsi0 Hfit got chunk Hdec.
  pose proof (GetChunk_run s ot f chunkId off csize startIndex sequences
                Hot Hfile Hoff Hcs Hbound Hsi Hns) as Hchunk.
  cbv zeta in Hchunk. fold got in Hchunk. fold chunk in Hchunk.
  pose proof (decode_sequences_length _ _ _ _ _ _ Hdec) as Hlen.
  eexists. split; [|split].
  - apply (GetSequencesForChunk_run SequenceData m_numberOfSamples GetSequence
             s ot chunkId chunk _ sequences startIndex temps [] Hot Hns); try assumption.
    lia.
  - cbn [app]. rewrite length_imap. lia.
  - intros c Hc.
    destruct (lookup_lt_is_Some_2 temps (Z.to_nat c)) as [temp Htemp]; [lia|].
    exists temp, (max_numberOfSamples SequenceData m_numberOfSamples temp).
    split; [exact Htemp|]. split.
    + cbn [app]. rewrite list_lookup_imap, Htemp. cbn [fmap option_fmap option_map].
      unfold sequence_description.
      rewrite Z2Nat.id by lia.
      rewrite (to_size_t_small startIndex) by lia.
      rewrite to_size_t_small by lia. reflexivity.
    + split; [apply max_numberOfSamples_nonneg|].
      apply max_numberOfSamples_spec.
Qed.

Lemma GetSequencesForChunk_descriptions_witness :
  exists descriptions,
    GetSequencesForChunk SpecChunk.SequenceData SpecChunk.m_numberOfSamples
      SpecChunk.GetSequence 0 [] mixed_state
    = (Ok descriptions,
       set_file (Some (mkFILE (f_bytes (mkFILE mixed_file 138))
                         (f_pos (chunk_seek mixed_state (mkFILE mixed_file 138) 0)
                          + Z.of_nat (length (chunk_bytes mixed_state
                                                (mkFILE mixed_file 138) 0 48)))))
         mixed_state)
    /\ Z.of_nat (length descriptions) = 2
    /\ forall c, 0 <= c < 2 ->
         exists temp numSamples,
           [[SpecChunk.mkSequenceData 1 0; SpecChunk.mkSequenceData 2 12];
            [SpecChunk.mkSequenceData 1 4; SpecChunk.mkSequenceData 3 20]] !! Z.to_nat c
           = Some temp
           /\ descriptions !! Z.to_nat c
              = Some (mkSequenceDescription (0 + c) numSamples 0 true (0 + c, 0))
           /\ 0 <= numSamples
           /\ (forall x, x ∈ temp -> SpecChunk.m_numberOfSamples x <= numSamples)
           /\ (numSamples = 0
               \/ exists x, x ∈ temp /\ numSamples = SpecChunk.m_numberOfSamples x).
Proof.
  apply (GetSequencesForChunk_descriptions SpecChunk.SequenceData
           SpecChunk.m_numberOfSamples SpecChunk.GetSequence
           mixed_state (loaded_table mixed_records 138) (mkFILE mixed_file 138)
           0 0 48 2 0).
  - reflexivity.
  - reflexivity.
  - vm_compute. reflexivity.
  - vm_compute. reflexivity.
  - vm_compute. split; discriminate.
  - vm_compute. reflexivity.
  - lia.
  - vm_compute. reflexivity.
  - lia.
  - vm_compute. reflexivity.
  - vm_compute. reflexivity.
Defined.

(** C9, as it fails: the records of this file are written with increasing
    offsets, 0 and 1000, but the file ends at byte 89.  The closing entry of
    the loaded table is that end-of-file position, so for the loaded index 1
    [GetOffset(2) = 89] is smaller than [GetOffset(1) = 1000]. *)
Lemma short_file_offsets_not_monotone :
  exists s ot,
    short_store = Ok s
    /\ m_offsetsTable s = Some ot
    /\ decode_records 2 (drop (Z.to_nat (m_offsetStart s)) short_file)
       = [mkDisk 0 3 3; mkDisk 1000 2 2]
    /\ offsets_increasing [mkDisk 0 3 3; mkDisk 1000 2 2] = true
    /\ OffsetsTable.GetOffset ot 1 = Ok 1000
    /\ OffsetsTable.GetOffset ot 2 = Ok 89
    /\ ~ offsets_monotone ot 2.
Proof.
  exists short_state, (loaded_table [mkDisk 0 3 3; mkDisk 1000 2 2] 89).
  split; [exact short_store_eq|].
  split; [reflexivity|]. split; [vm_compute; reflexivity|].
  split; [reflexivity|]. split; [vm_compute; reflexivity|].
  split; [vm_compute; reflexivity|].
  intros H. destruct (H 1) as (lo & hi & size & Hlo & Hhi & Hle & _); [lia|].
  vm_compute in Hlo, Hhi. inversion Hlo; inversion Hhi; subst. lia.
Qed.

(** C9, amended: take a file shorter than 2^63 bytes that holds all N offset
    records behind its header, with offsets that do not decrease, a last
    chunk that does not start behind the end of the file, and sequence counts
    that are not negative and sum to less than 2^63.  Then the load succeeds,
    and in the loaded table [GetOffset(i + 1) >= GetOffset(i)] and
    [GetChunkSize(i) >= 0] for every loaded index [i], and [GetStartIndex]
    never decreases; [GetChunk], [GetChunkDescriptions] and
    [GetSequencesForChunk] leave the table as the load built it. *)
Theorem loaded_table_monotone NDEBUG s f n :
  let records := decode_records n (drop (Z.to_nat (m_offsetStart s)) (f_bytes f)) in
  let fileSize := Z.of_nat (length (f_bytes f)) in
  m_file s = Some f ->
  m_numBatches s = Some (Z.of_nat n) ->
  20 <= m_offsetStart s ->
  m_offsetStart s + 16 * Z.of_nat n <= fileSize ->
  fileSize < 2 ^ 63 ->
  offsets_increasing records = true ->
  last_offset_within records fileSize = true ->
  counts_nonnegative records = true ->
  sum_numSequences records < 2 ^ 63 ->
  exists s' ot,
    ReadOffsetsTable_all NDEBUG s = (Ok tt, s')
    /\ m_offsetsTable s' = Some ot
    /\ offsets_monotone ot (Z.of_nat n)
    /\ startIndex_monotone ot (Z.of_nat n)
    /\ (forall chunkId, m_offsetsTable (snd (GetChunk chunkId s')) = Some ot)
    /\ m_offsetsTable (snd (GetChunkDescriptions NDEBUG s')) = Some ot
    /\ (forall SequenceData (m_numberOfSamples : SequenceData -> Z) GetSequence chunkId result,
           m_offsetsTable
             (snd (GetSequencesForChunk SequenceData m_numberOfSamples GetSequence
                     chunkId result s')) = Some ot).
Proof.
  intros records fileSize Hfile Hnb Hos Hfit Hlen Hinc Hlast Hnn Hsum.
  assert (Hsize : (Z.of_nat n + 1) * sizeof_DiskOffsetsTable <= PTRDIFF_MAX).
  { unfold sizeof_DiskOffsetsTable, fileSize in *. bounds. lia. }
  assert (Hn : length records = n) by apply decode_records_length.
  assert (Hframe : forall A (m : stateful t A) s0,
             preserves only_file m ->
             m_offsetsTable (snd (m s0)) = m_offsetsTable s0).
  { intros A m s0 Hm. destruct (m s0) as [r s1] eqn:E.
    rewrite (Hm s0 r s1 E). destruct s0. reflexivity. }
  eexists. eexists.
  split; [apply (ReadOffsetsTable_all_loads NDEBUG s f n); try assumption; lia|].
  fold records. fold fileSize.
  set (s' := set_offsetsTable _ _).
  assert (Hot : m_offsetsTable s' = Some (loaded_table records fileSize))
    by (destruct s; reflexivity).
  split; [exact Hot|].
  split; [rewrite <- Hn; apply loaded_table_offsets_monotone; rewrite ?Hn; assumption|].
  split; [rewrite <- Hn; apply loaded_table_startIndex_monotone; assumption|].
  split; [intros chunkId; rewrite Hframe; [exact Hot | apply GetChunk_only_file]|].
  split; [rewrite Hframe; [exact Hot | apply GetChunkDescriptions_only_file]|].
  intros SD ns GS chunkId result.
  rewrite Hframe; [exact Hot | apply GetSequencesForChunk_only_file].
Qed.

Lemma loaded_table_monotone_witness :
  exists s' ot,
    ReadOffsetsTable_all false sample_state_before_load = (Ok tt, s')
    /\ m_offsetsTable s' = Some ot
    /\ offsets_monotone ot 2
    /\ startIndex_monotone ot 2
    /\ (forall chunkId, m_offsetsTable (snd (GetChunk chunkId s')) = Some ot)
    /\ m_offsetsTable (snd (GetChunkDescriptions false s')) = Some ot
    /\ (forall SequenceData (m_numberOfSamples : SequenceData -> Z) GetSequence chunkId result,
           m_offsetsTable
             (snd (GetSequencesForChunk SequenceData m_numberOfSamples GetSequence
                     chunkId result s')) = Some ot).
Proof.
  apply (loaded_table_monotone false sample_state_before_load (mkFILE sample_file 37) 2).
  - reflexivity.
  - reflexivity.
  - vm_compute. discriminate.
  - vm_compute. discriminate.
  - vm_compute. reflexivity.
  - vm_compute. reflexivity.
  - vm_compute. reflexivity.
  - vm_compute. reflexivity.
  - vm_compute. reflexivity.
Defined.

(** C10.  [GetSequencesForChunk] never clears the vector it is given: the
    entries that were in it stay, in place and unchanged, and the
    [numSequences] descriptions of the chunk, the same that an empty vector
    would receive, follow them. *)
Theorem GetSequencesForChunk_appends
    (SequenceData : Type) (m_numberOfSamples : SequenceData -> Z)
    (GetSequence : Z -> list SequenceData -> stateful BinaryDataChunk (list SequenceData))
    s ot chunkId chunk s' sequences startIndex temps :
  m_offsetsTable s = Some ot ->
  OffsetsTable.GetNumSequences ot chunkId = Ok sequences ->
  0 <= sequences < 2 ^ 64 ->
  OffsetsTable.GetStartIndex ot chunkId = Ok startIndex ->
  GetChunk chunkId s = (Ok chunk, s') ->
  decode_sequences GetSequence (Z.to_nat sequences) 0 startIndex chunk = Ok temps ->
  exists added,
    GetSequencesForChunk SequenceData m_numberOfSamples GetSequence chunkId [] s
    = (Ok added, s')
    /\ Z.of_nat (length added) = sequences
    /\ forall result,
         GetSequencesForChunk SequenceData m_numberOfSamples GetSequence chunkId result s
         = (Ok (result ++ added), s').
Proof.
  intros Hot Hns Hrange Hsi Hchunk Hdec.
  pose proof (decode_sequences_length _ _ _ _ _ _ Hdec) as Hlen.
  eexists. split; [|split].
  - apply (GetSequencesForChunk_run SequenceData m_numberOfSamples GetSequence
             s ot chunkId chunk s' sequences startIndex temps [] Hot Hns Hrange Hsi Hchunk Hdec).
  - cbn [app]. rewrite length_imap. lia.
  - intros result.
    apply (GetSequencesForChunk_run SequenceData m_numberOfSamples GetSequence
             s ot chunkId chunk s' sequences startIndex temps result
             Hot Hns Hrange Hsi Hchunk Hdec).
Qed.

Lemma GetSequencesForChunk_appends_witness :
  exists s' added,
    GetSequencesForChunk SpecChunk.SequenceData SpecChunk.m_numberOfSamples
      SpecChunk.GetSequence 1 [] sample_state
    = (Ok added, s')
    /\ Z.of_nat (length added) = 2
    /\ forall result,
         GetSequencesForChunk SpecChunk.SequenceData SpecChunk.m_numberOfSamples
           SpecChunk.GetSequence 1 result sample_state
         = (Ok (result ++ added), s').
Proof.
  eexists.
  eapply (GetSequencesForChunk_appends SpecChunk.SequenceData
            SpecChunk.m_numberOfSamples SpecChunk.GetSequence
            sample_state (loaded_table sample_records 89) 1 _ _ 2 0).
  - reflexivity.
  - vm_compute. reflexivity.
  - vm_compute. split; [discriminate | reflexivity].
  - vm_compute. reflexivity.
  - vm_compute. reflexivity.
  - vm_compute. reflexivity.
Defined.

(** * Further properties of the code *)

(** ** The offsets table in memory *)

Lemma to_int64_add_l a b : to_int64 (to_int64 a + b) = to_int64 (a + b).
Proof.
  unfold to_int64, wrap_signed. change (2 ^ (64 - 1)) with (2 ^ 63).
  replace ((a + 2 ^ 63) mod 2 ^ 64 - 2 ^ 63 + b + 2 ^ 63)
    with ((a + 2 ^ 63) mod 2 ^ 64 + b) by lia.
  rewrite Zplus_mod_idemp_l. do 2 f_equal. lia.
Qed.

(** X1.  The start indices that the constructor of [OffsetsTable] derives for
    a table of N chunks: [GetStartIndex(0)] and [GetStartIndex(1)] are 0, and
    from chunk 1 on every start index is the one before it plus the sequence
    count of the chunk before it, in 64-bit arithmetic:
    [GetStartIndex(i + 1) = GetStartIndex(i) + GetNumSequences(i)] for
    [1 <= i < N - 1]. *)
Theorem startIndex_recurrence records endOffset :
  (Z.of_nat (length records) + 1) * sizeof_DiskOffsetsTable <= PTRDIFF_MAX ->
  exists ot,
    OffsetsTable.new (Z.of_nat (length records)) (loaded_array records endOffset) = Ok ot
    /\ (0 < Z.of_nat (length records) -> OffsetsTable.GetStartIndex ot 0 = Ok 0)
    /\ (1 < Z.of_nat (length records) -> OffsetsTable.GetStartIndex ot 1 = Ok 0)
    /\ forall i, 1 <= i -> i + 1 < Z.of_nat (length records) ->
         exists a n,
           OffsetsTable.GetStartIndex ot i = Ok a
           /\ OffsetsTable.GetNumSequences ot i = Ok n
           /\ OffsetsTable.GetStartIndex ot (i + 1) = Ok (to_int64 (a + n)).
Proof.
  intros Hsize. exists (loaded_table records endOffset).
  split; [apply OffsetsTable_new_loaded, Hsize|].
  destruct records as [|r0 rest].
  - cbn [length]. repeat split; intros; lia.
  - split; [intros _; reflexivity|].
    split.
    + intros H1. destruct rest as [|r1 rest]; [cbn in H1; lia|]. reflexivity.
    + intros i Hi Hlt. cbn [length] in Hlt.
      set (k := (Z.to_nat i - 1)%nat).
      assert (Hk : Z.to_nat i = S k) by (unfold k; lia).
      destruct (lookup_lt_is_Some_2 rest k) as [r Hr]; [lia|].
      destruct (derived_startIndex_step r0 rest k r Hr) as (raw & Hraw & Hnext); [lia|].
      exists (to_int64 raw), (numSequences r).
      split; [|split].
      * unfold OffsetsTable.GetStartIndex. cbn [loaded_table OffsetsTable.m_startIndex].
        rewrite Hk, Hraw. reflexivity.
      * apply GetNumSequences_record; [lia|]. rewrite Hk. exact Hr.
      * unfold OffsetsTable.GetStartIndex. cbn [loaded_table OffsetsTable.m_startIndex].
        replace (Z.to_nat (i + 1)) with (S (S k)) by lia.
        rewrite Hnext, to_int64_to_size_t, to_int64_add_l. reflexivity.
Qed.

Lemma startIndex_recurrence_witness :
  exists ot,
    OffsetsTable.new 3 (loaded_array three_records 121) = Ok ot
    /\ (0 < 3 -> OffsetsTable.GetStartIndex ot 0 = Ok 0)
    /\ (1 < 3 -> OffsetsTable.GetStartIndex ot 1 = Ok 0)
    /\ forall i, 1 <= i -> i + 1 < 3 ->
         exists a n,
           OffsetsTable.GetStartIndex ot i = Ok a
           /\ OffsetsTable.GetNumSequences ot i = Ok n
           /\ OffsetsTable.GetStartIndex ot (i + 1) = Ok (to_int64 (a + n)).
Proof.
  apply (startIndex_recurrence three_records 121). vm_compute. discriminate.
Defined.

(** X2.  The bounds of the table that the constructor of [OffsetsTable]
    builds over N records and a closing entry.  For a chunk [i < N] all five
    accessors answer, with the fields of record [i] and a chunk size below
    2^64; at [i = N] the closing entry answers [GetOffset] with its offset
    and the two counts with 0, while [GetChunkSize] and [GetStartIndex] are
    out of bounds; behind N every accessor is out of bounds. *)
Theorem OffsetsTable_accessor_bounds records endOffset ot i :
  OffsetsTable.new (Z.of_nat (length records)) (loaded_array records endOffset) = Ok ot ->
  (Z.of_nat (length records) + 1) * sizeof_DiskOffsetsTable <= PTRDIFF_MAX ->
  0 <= i ->
  (i < Z.of_nat (length records) ->
     exists r size start,
       records !! Z.to_nat i = Some r
       /\ OffsetsTable.GetOffset ot i = Ok (offset r)
       /\ OffsetsTable.GetNumSequences ot i = Ok (numSequences r)
       /\ OffsetsTable.GetNumSamples ot i = Ok (numSamples r)
       /\ OffsetsTable.GetChunkSize ot i = Ok size /\ 0 <= size < 2 ^ 64
       /\ OffsetsTable.GetStartIndex ot i = Ok start)
  /\ (i = Z.of_nat (length records) ->
        OffsetsTable.GetOffset ot i = Ok endOffset
        /\ OffsetsTable.GetNumSequences ot i = Ok 0
        /\ OffsetsTable.GetNumSamples ot i = Ok 0
        /\ OffsetsTable.GetChunkSize ot i = Undefined
        /\ OffsetsTable.GetStartIndex ot i = Undefined)
  /\ (Z.of_nat (length records) < i ->
        OffsetsTable.GetOffset ot i = Undefined
        /\ OffsetsTable.GetNumSequences ot i = Undefined
        /\ OffsetsTable.GetNumSamples ot i = Undefined
        /\ OffsetsTable.GetChunkSize ot i = Undefined
        /\ OffsetsTable.GetStartIndex ot i = Undefined).
Proof.
  intros Hnew Hsize Hi.
  rewrite (OffsetsTable_new_loaded records endOffset Hsize) in Hnew.
  inversion Hnew; subst ot. clear Hnew.
  unfold sizeof_DiskOffsetsTable in Hsize.
  split; [|split].
  - intros Hlt.
    destruct (record_at records i) as [r Hr]; [lia|].
    destruct (GetChunkSize_valid records endOffset i) as (size & Hcs & Hrange);
      [lia | bounds; lia |].
    destruct (GetStartIndex_valid records endOffset i) as (raw & _ & Hsi); [lia|].
    exists r, size, (to_int64 raw).
    split; [exact Hr|].
    split; [apply GetOffset_record; [lia|exact Hr]|].
    split; [apply GetNumSequences_record; [lia|exact Hr]|].
    split; [apply GetNumSamples_record; [lia|exact Hr]|].
    split; [exact Hcs|]. split; [exact Hrange | exact Hsi].
  - intros ->.
    split; [apply GetOffset_end|].
    split; [unfold OffsetsTable.GetNumSequences; cbn [loaded_table OffsetsTable.m_diskOffsetsTable];
            rewrite array_get_end; reflexivity|].
    split; [unfold OffsetsTable.GetNumSamples; cbn [loaded_table OffsetsTable.m_diskOffsetsTable];
            rewrite array_get_end; reflexivity|].
    split; [apply GetChunkSize_end; bounds; lia|].
    apply GetStartIndex_past. lia.
  - intros Hgt.
    assert (Hpast : array_get (loaded_array records endOffset) i = Undefined)
      by (apply array_get_past; exact Hgt).
    split; [apply GetOffset_past; exact Hgt|].
    split; [unfold OffsetsTable.GetNumSequences; cbn [loaded_table OffsetsTable.m_diskOffsetsTable];
            rewrite Hpast; reflexivity|].
    split; [unfold OffsetsTable.GetNumSamples; cbn [loaded_table OffsetsTable.m_diskOffsetsTable];
            rewrite Hpast; reflexivity|].
    split; [|apply GetStartIndex_past; lia].
    unfold OffsetsTable.GetChunkSize. cbn [loaded_table OffsetsTable.m_diskOffsetsTable].
    rewrite Hpast.
    unfold array_get.
    destruct (loaded_array records endOffset !! Z.to_nat (to_size_t (i + 1))) as [[hi|]|];
      reflexivity.
Qed.

Lemma OffsetsTable_accessor_bounds_witness :
  (1 < Z.of_nat (length three_records) ->
     exists r size start,
       three_records !! Z.to_nat 1 = Some r
       /\ OffsetsTable.GetOffset (loaded_table three_records 121) 1 = Ok (offset r)
       /\ OffsetsTable.GetNumSequences (loaded_table three_records 121) 1 = Ok (numSequences r)
       /\ OffsetsTable.GetNumSamples (loaded_table three_records 121) 1 = Ok (numSamples r)
       /\ OffsetsTable.GetChunkSize (loaded_table three_records 121) 1 = Ok size
       /\ 0 <= size < 2 ^ 64
       /\ OffsetsTable.GetStartIndex (loaded_table three_records 121) 1 = Ok start)
  /\ (1 = Z.of_nat (length three_records) ->
        OffsetsTable.GetOffset (loaded_table three_records 121) 1 = Ok 121
        /\ OffsetsTable.GetNumSequences (loaded_table three_records 121) 1 = Ok 0
        /\ OffsetsTable.GetNumSamples (loaded_table three_records 121) 1 = Ok 0
        /\ OffsetsTable.GetChunkSize (loaded_table three_records 121) 1 = Undefined
        /\ OffsetsTable.GetStartIndex (loaded_table three_records 121) 1 = Undefined)
  /\ (Z.of_nat (length three_records) < 1 ->
        OffsetsTable.GetOffset (loaded_table three_records 121) 1 = Undefined
        /\ OffsetsTable.GetNumSequences (loaded_table three_records 121) 1 = Undefined
        /\ OffsetsTable.GetNumSamples (loaded_table three_records 121) 1 = Undefined
        /\ OffsetsTable.GetChunkSize (loaded_table three_records 121) 1 = Undefined
        /\ OffsetsTable.GetStartIndex (loaded_table three_records 121) 1 = Undefined).
Proof.
  apply (OffsetsTable_accessor_bounds three_records 121 (loaded_table three_records 121) 1).
  - vm_compute. reflexivity.
  - vm_compute. discriminate.
  - lia.
Defined.

(** ** Loading the offsets table from the file *)

Lemma decode_records_lookup n (bs : list byte) i :
  (i < n)%nat ->
  decode_records n bs !! i = Some (decode_DiskOffsetsTable (take 16 (drop (16 * i) bs))).
Proof.
  revert bs i. induction n as [|n IH]; intros bs i Hi; [lia|].
  destruct i as [|i]; cbn [decode_records lookup list_lookup].
  - reflexivity.
  - rewrite IH by lia. rewrite drop_drop.
    replace (16 + 16 * i)%nat with (16 * S i)%nat by lia. reflexivity.
Qed.

Lemma decode_records_snoc n (bs : list byte) :
  decode_records (S n) bs
  = decode_records n bs ++ [decode_DiskOffsetsTable (take 16 (drop (16 * n) bs))].
Proof.
  revert bs. induction n as [|n IH]; intros bs; [reflexivity|].
  change (decode_records (S (S n)) bs)
    with (decode_DiskOffsetsTable (take 16 bs) :: decode_records (S n) (drop 16 bs)).
  rewrite IH. cbn [decode_records app]. rewrite drop_drop.
  replace (16 + 16 * n)%nat with (16 * S n)%nat by lia. reflexivity.
Qed.

Lemma record_in_file_lookup n bytes os i :
  0 <= os -> 0 <= i < Z.of_nat n ->
  decode_records n (drop (Z.to_nat os) bytes) !! Z.to_nat i
  = Some (record_in_file bytes (os + 16 * i)).
Proof.
  intros Hos Hi. rewrite decode_records_lookup by lia.
  unfold record_in_file. rewrite drop_drop.
  replace (Z.to_nat os + 16 * Z.to_nat i)%nat with (Z.to_nat (os + 16 * i)) by lia.
  reflexivity.
Qed.

Lemma array_get_fmap (all : list DiskOffsetsTable) i r :
  all !! Z.to_nat i = Some r -> array_get (Some <$> all) i = Ok r.
Proof. intros H. unfold array_get. rewrite list_lookup_fmap, H. reflexivity. Qed.

(** X3.  [ReadOffsetsTable(infile)], the load through the end of the file.
    On a file shorter than 2^63 bytes that holds all N records behind its
    header, the load returns, changes the file handle and the offsets table
    only, and leaves the handle at the end of the file.  Entry [i < N] of the
    new table holds the three fields of the 16-byte record at byte
    [m_offsetStart + 16 * i] of the file, and the closing entry N holds the
    size of the file as its offset, and zero counts. *)
Theorem ReadOffsetsTable_all_reads_records NDEBUG s f n :
  m_file s = Some f ->
  m_numBatches s = Some (Z.of_nat n) ->
  20 <= m_offsetStart s ->
  m_offsetStart s + 16 * Z.of_nat n <= Z.of_nat (length (f_bytes f)) ->
  Z.of_nat (length (f_bytes f)) < 2 ^ 63 ->
  exists s' ot,
    ReadOffsetsTable_all NDEBUG s = (Ok tt, s')
    /\ table_and_file s s'
    /\ m_file s' = Some (mkFILE (f_bytes f) (Z.of_nat (length (f_bytes f))))
    /\ m_offsetsTable s' = Some ot
    /\ (forall i, 0 <= i < Z.of_nat n ->
          OffsetsTable.GetOffset ot i
          = Ok (offset (record_in_file (f_bytes f) (m_offsetStart s + 16 * i)))
          /\ OffsetsTable.GetNumSequences ot i
             = Ok (numSequences (record_in_file (f_bytes f) (m_offsetStart s + 16 * i)))
          /\ OffsetsTable.GetNumSamples ot i
             = Ok (numSamples (record_in_file (f_bytes f) (m_offsetStart s + 16 * i))))
    /\ OffsetsTable.GetOffset ot (Z.of_nat n) = Ok (Z.of_nat (length (f_bytes f)))
    /\ OffsetsTable.GetNumSequences ot (Z.of_nat n) = Ok 0
    /\ OffsetsTable.GetNumSamples ot (Z.of_nat n) = Ok 0.
Proof.
  intros Hfile Hnb Hos Hfit Hlen.
  assert (Hsize : (Z.of_nat n + 1) * sizeof_DiskOffsetsTable <= PTRDIFF_MAX).
  { unfold sizeof_DiskOffsetsTable. bounds. lia. }
  pose proof (ReadOffsetsTable_all_loads NDEBUG s f n Hfile Hnb ltac:(lia) Hfit Hlen Hsize)
    as Hrun.
  set (records := decode_records n (drop (Z.to_nat (m_offsetStart s)) (f_bytes f))) in *.
  assert (Hn : length records = n) by apply decode_records_length.
  eexists. exists (loaded_table records (Z.of_nat (length (f_bytes f)))).
  split; [exact Hrun|].
  split; [exact (ReadOffsetsTable_all_table_and_file NDEBUG s _ _ Hrun)|].
  split; [destruct s; reflexivity|].
  split; [destruct s; reflexivity|].
  split; [|rewrite <- Hn; split; [apply GetOffset_end|];
           unfold OffsetsTable.GetNumSequences, OffsetsTable.GetNumSamples;
           cbn [loaded_table OffsetsTable.m_diskOffsetsTable];
           rewrite array_get_end; split; reflexivity].
  intros i Hi.
  assert (Hr : records !! Z.to_nat i
               = Some (record_in_file (f_bytes f) (m_offsetStart s + 16 * i)))
    by (apply record_in_file_lookup; lia).
  split; [apply GetOffset_record; [lia|exact Hr]|].
  split; [apply GetNumSequences_record; [lia|exact Hr]|].
  apply GetNumSamples_record; [lia|exact Hr].
Qed.

Lemma ReadOffsetsTable_all_reads_records_witness :
  exists s' ot,
    ReadOffsetsTable_all false three_chunk_state_before_load = (Ok tt, s')
    /\ table_and_file three_chunk_state_before_load s'
    /\ m_file s' = Some (mkFILE three_chunk_file (Z.of_nat (length three_chunk_file)))
    /\ m_offsetsTable s' = Some ot
    /\ (forall i, 0 <= i < Z.of_nat 3 ->
          OffsetsTable.GetOffset ot i
          = Ok (offset (record_in_file three_chunk_file (37 + 16 * i)))
          /\ OffsetsTable.GetNumSequences ot i
             = Ok (numSequences (record_in_file three_chunk_file (37 + 16 * i)))
          /\ OffsetsTable.GetNumSamples ot i
             = Ok (numSamples (record_in_file three_chunk_file (37 + 16 * i))))
    /\ OffsetsTable.GetOffset ot (Z.of_nat 3) = Ok (Z.of_nat (length three_chunk_file))
    /\ OffsetsTable.GetNumSequences ot (Z.of_nat 3) = Ok 0
    /\ OffsetsTable.GetNumSamples ot (Z.of_nat 3) = Ok 0.
Proof.
  apply (ReadOffsetsTable_all_reads_records false three_chunk_state_before_load
           (mkFILE three_chunk_file 37) 3).
  - reflexivity.
  - reflexivity.
  - vm_compute. discriminate.
  - vm_compute. discriminate.
  - vm_compute. reflexivity.
Defined.

(** The constructor of [OffsetsTable] on an array of [length records + 1]
    entries that are all written, whatever the closing entry is. *)
Lemma OffsetsTable_new_closed records closing :
  (Z.of_nat (length records) + 1) * sizeof_DiskOffsetsTable <= PTRDIFF_MAX ->
  OffsetsTable.new (Z.of_nat (length records)) (Some <$> (records ++ [closing]))
  = Ok (OffsetsTable.mk (Z.of_nat (length records)) (Some <$> (records ++ [closing]))
          (derived_startIndex records)).
Proof.
  intros Hsize. unfold sizeof_DiskOffsetsTable in Hsize.
  assert (HN : 0 <= Z.of_nat (length records) < 2 ^ 59) by (bounds; lia).
  unfold OffsetsTable.new, OffsetsTable.Initialize.
  rewrite to_int64_small by (bounds; lia).
  rewrite to_size_t_small by (bounds; lia).
  destruct (Z.gtb_spec (Z.of_nat (length records) * 8) PTRDIFF_MAX) as [Hgt|_];
    [bounds; lia|].
  destruct records as [|r0 rest].
  - reflexivity.
  - replace (Z.to_nat (Z.of_nat (length (r0 :: rest)) - 1)) with (length rest)
      by (simpl length; lia).
    rewrite Nat2Z.id. simpl length.
    change (replicate (S (length rest)) 0) with ([0] ++ replicate (length rest) 0).
    rewrite <- (app_nil_r (replicate (length rest) 0)).
    rewrite (Initialize_loop_spec (Some <$> ((r0 :: rest) ++ [closing])) rest 1 [0]
               (replicate (length rest) 0) [] 0).
    + cbn [mbind result_bind mret result_ret]. do 2 f_equal.
      unfold derived_startIndex. rewrite app_nil_r. reflexivity.
    + lia.
    + reflexivity.
    + apply length_replicate.
    + reflexivity.
    + intros k r Hk. change (Z.to_nat 1) with 1%nat.
      rewrite list_lookup_fmap.
      change (((r0 :: rest) ++ [closing]) !! (1 + k)%nat) with ((rest ++ [closing]) !! k).
      rewrite lookup_app_l by (eapply lookup_lt_Some; eauto).
      rewrite Hk. reflexivity.
Qed.

(** The start indices of a table whose constructor derived them from the
    records [recs]: slot 0 and slot 1 hold 0, and from slot 1 on every slot
    adds the count of the record before it. *)
Lemma derived_startIndex_recurrence n tbl recs i r :
  1 <= i -> i + 1 < Z.of_nat (length recs) ->
  recs !! Z.to_nat i = Some r ->
  exists a,
    OffsetsTable.GetStartIndex (OffsetsTable.mk n tbl (derived_startIndex recs)) i = Ok a
    /\ OffsetsTable.GetStartIndex (OffsetsTable.mk n tbl (derived_startIndex recs)) (i + 1)
       = Ok (to_int64 (a + numSequences r)).
Proof.
  intros Hi Hlt Hr. destruct recs as [|r0 rest]; [cbn in Hlt; lia|].
  cbn [length] in Hlt.
  set (k := (Z.to_nat i - 1)%nat).
  assert (Hk : Z.to_nat i = S k) by (unfold k; lia).
  rewrite Hk in Hr. cbn [lookup list_lookup] in Hr.
  destruct (derived_startIndex_step r0 rest k r Hr) as (raw & Hraw & Hnext); [lia|].
  exists (to_int64 raw). unfold OffsetsTable.GetStartIndex. cbn [OffsetsTable.m_startIndex].
  split.
  - rewrite Hk, Hraw. reflexivity.
  - replace (Z.to_nat (i + 1)) with (S (S k)) by lia.
    rewrite Hnext, to_int64_to_size_t, to_int64_add_l. reflexivity.
Qed.

(** X4.  [ReadOffsetsTable(infile, startOffset, numBatches)] for a range that
    ends before the last chunk of the file.  The closing entry of the table
    is then read from the file: it is the record of the chunk behind the
    range.  Entry [i] of the table, for [0 <= i <= numBatches], holds the
    fields of the record at byte [m_offsetStart + 16 * (startOffset + i)],
    and the size of every chunk of the range, the last one included, is the
    difference of two offsets of the file.  The start indices are those the
    constructor of [OffsetsTable] derives within the range: 0 for its first
    and for its second chunk, and from the second chunk on the start index
    of a chunk plus its sequence count, in 64-bit arithmetic, for the chunk
    behind it; the count of the first chunk of the range is not added. *)
Theorem ReadOffsetsTable_subrange NDEBUG s f nb startOffset n :
  m_file s = Some f ->
  m_numBatches s = Some nb ->
  0 <= startOffset ->
  startOffset + Z.of_nat n < nb ->
  0 <= m_offsetStart s ->
  m_offsetStart s + 16 * (startOffset + Z.of_nat n + 1) <= Z.of_nat (length (f_bytes f)) ->
  Z.of_nat (length (f_bytes f)) < 2 ^ 63 ->
  exists s' ot,
    ReadOffsetsTable NDEBUG startOffset (Z.of_nat n) s = (Ok tt, s')
    /\ m_offsetsTable s' = Some ot
    /\ m_file s'
       = Some (mkFILE (f_bytes f) (m_offsetStart s + 16 * (startOffset + Z.of_nat n + 1)))
    /\ (forall i, 0 <= i <= Z.of_nat n ->
          let r := record_in_file (f_bytes f) (m_offsetStart s + 16 * (startOffset + i)) in
          OffsetsTable.GetOffset ot i = Ok (offset r)
          /\ OffsetsTable.GetNumSequences ot i = Ok (numSequences r)
          /\ OffsetsTable.GetNumSamples ot i = Ok (numSamples r))
    /\ (forall i, 0 <= i < Z.of_nat n ->
          OffsetsTable.GetChunkSize ot i
          = Ok (to_size_t
                  (offset (record_in_file (f_bytes f)
                             (m_offsetStart s + 16 * (startOffset + i + 1)))
                   - offset (record_in_file (f_bytes f)
                               (m_offsetStart s + 16 * (startOffset + i)))))
          /\ exists start, OffsetsTable.GetStartIndex ot i = Ok start)
    /\ (0 < Z.of_nat n -> OffsetsTable.GetStartIndex ot 0 = Ok 0)
    /\ (1 < Z.of_nat n -> OffsetsTable.GetStartIndex ot 1 = Ok 0)
    /\ (forall i, 1 <= i -> i + 1 < Z.of_nat n ->
          exists a,
            OffsetsTable.GetStartIndex ot i = Ok a
            /\ OffsetsTable.GetStartIndex ot (i + 1)
               = Ok (to_int64
                       (a + numSequences
                              (record_in_file (f_bytes f)
                                 (m_offsetStart s + 16 * (startOffset + i)))))).
Proof.
  intros Hfile Hnb Hso Hlt Hos Hfit Hlen.
  destruct s as [fn fl os ds sts des otb ver nbo ni tl]. cbn in Hfile, Hnb, Hos, Hfit |- *.
  subst fl nbo. destruct f as [bytes pos]. cbn in Hfit, Hlen |- *.
  set (start := startOffset * 16 + os).
  set (base := drop (Z.to_nat start) bytes).
  assert (Hsum : to_int64 (to_size_t (startOffset + Z.of_nat n)) = startOffset + Z.of_nat n).
  { rewrite to_size_t_small by (bounds; lia). apply to_int64_small. bounds. lia. }
  assert (Hseek : _fseeki64 (mkFILE bytes pos) (to_int64 (to_size_t start)) SEEK_SET
                  = mkFILE bytes start).
  { rewrite (to_size_t_small start) by (unfold start; bounds; lia).
    rewrite (to_int64_small start) by (unfold start; bounds; lia).
    unfold _fseeki64. destruct (Z.ltb_spec start 0); [unfold start in *; lia|reflexivity]. }
  assert (Hslots : to_size_t (Z.of_nat n + 1) = Z.of_nat n + 1)
    by (apply to_size_t_small; bounds; lia).
  assert (Hread : fread 16 (Z.of_nat n) (mkFILE bytes start)
                  = (take (16 * n) base, mkFILE bytes (start + 16 * Z.of_nat n))).
  { rewrite fread_exact; unfold remaining; cbn [f_pos f_bytes]; try (unfold start; lia).
    - do 2 f_equal. lia.
    - rewrite length_drop. unfold start. lia. }
  assert (Hlast : fread 16 1 (mkFILE bytes (start + 16 * Z.of_nat n))
                  = (take 16 (drop (16 * n) base),
                     mkFILE bytes (start + 16 * Z.of_nat n + 16))).
  { rewrite fread_exact; unfold remaining; cbn [f_pos f_bytes]; try (unfold start; lia).
    - do 2 f_equal. unfold base. rewrite drop_drop. f_equal. unfold start. lia.
    - rewrite length_drop. unfold start. lia. }
  set (records := decode_records n base).
  assert (Hrecords : decode_records (length (take (16 * n) base) `div` 16) (take (16 * n) base)
                     = records).
  { rewrite length_take. unfold base at 1. rewrite length_drop.
    replace ((16 * n) `min` (length bytes - Z.to_nat start))%nat with (n * 16)%nat
      by (unfold start; lia).
    rewrite Nat.div_mul by lia. apply decode_records_take. }
  assert (Hlenr : length records = n) by apply decode_records_length.
  set (next := decode_DiskOffsetsTable (take 16 (drop (16 * n) base))).
  assert (Hall : records ++ [next] = decode_records (S n) base)
    by (symmetry; apply decode_records_snoc).
  assert (Hlen16 : length (take 16 (drop (16 * n) base)) = 16%nat).
  { rewrite length_take, length_drop. unfold base. rewrite length_drop. unfold start. lia. }
  assert (Hset : array_set ((Some <$> records)
                            ++ replicate (Z.to_nat (Z.of_nat n + 1) - length records) None)
                   (Z.of_nat n) next
                 = Ok (Some <$> (records ++ [next]))).
  { unfold array_set. rewrite Nat2Z.id.
    replace (Z.to_nat (Z.of_nat n + 1) - length records)%nat with 1%nat by lia.
    rewrite length_app, length_fmap. cbn [replicate length].
    destruct (decide (n < length records + 1)%nat) as [_|Hno]; [|lia].
    rewrite insert_app_r_alt; rewrite length_fmap; [|lia].
    rewrite Hlenr, Nat.sub_diag, fmap_app. reflexivity. }
  pose proof (OffsetsTable_new_closed records next) as Hnew.
  rewrite Hlenr in Hnew.
  specialize (Hnew ltac:(unfold sizeof_DiskOffsetsTable; bounds; lia)).
  set (ot := OffsetsTable.mk (Z.of_nat n) (Some <$> (records ++ [next]))
               (derived_startIndex records)) in *.
  assert (Hrun : ReadOffsetsTable NDEBUG startOffset (Z.of_nat n)
                   (mk fn (Some (mkFILE bytes pos)) os ds sts des otb ver (Some nb) ni tl)
                 = (Ok tt,
                    mk fn (Some (mkFILE bytes (start + 16 * Z.of_nat n + 16))) os ds sts des
                      (Some ot) ver (Some nb) ni tl)).
  { unfold ReadOffsetsTable, c_assert.
    unfold_monad. unfold sizeof_DiskOffsetsTable.
    destruct NDEBUG; load_step;
      rewrite ?Hsum; load_step;
      (destruct (Z.leb_spec (startOffset + Z.of_nat n) nb) as [_|Hbad]; [|lia]);
      load_step; fold start; rewrite Hseek; load_step;
      rewrite Hslots;
      (destruct (Z.gtb_spec ((Z.of_nat n + 1) * 16) PTRDIFF_MAX) as [Hgt|_];
         [bounds; lia|]);
      load_step; rewrite Hread; load_step; rewrite Hrecords;
      (destruct (decide (Z.to_nat (Z.of_nat n + 1) < length records)%nat) as [Hbad|_]; [lia|]);
      load_step; rewrite ?Hsum;
      (destruct (Z.eqb_spec (startOffset + Z.of_nat n) nb) as [Hbad|_]; [lia|]);
      load_step; rewrite Hlast; load_step;
      (destruct (decide (length (take 16 (drop (16 * n) base)) = 16%nat)) as [_|Hbad];
         [|contradiction]);
      fold next; rewrite Hset, Hnew; reflexivity. }
  assert (Hrec : forall i, 0 <= i <= Z.of_nat n ->
             (records ++ [next]) !! Z.to_nat i
             = Some (record_in_file bytes (os + 16 * (startOffset + i)))).
  { intros i Hi. rewrite Hall. unfold base.
    rewrite (record_in_file_lookup (S n) bytes start i) by (unfold start; lia).
    do 2 f_equal. unfold start. lia. }
  eexists. exists ot. split; [exact Hrun|].
  split; [reflexivity|].
  split; [cbn; do 2 f_equal; unfold start; lia|].
  split; [|split; [|split; [|split]]].
  - intros i Hi. pose proof (Hrec i Hi) as Hr.
    unfold OffsetsTable.GetOffset, OffsetsTable.GetNumSequences, OffsetsTable.GetNumSamples.
    cbn [ot OffsetsTable.m_diskOffsetsTable].
    rewrite (array_get_fmap _ _ _ Hr). repeat split; reflexivity.
  - intros i Hi. split.
    + unfold OffsetsTable.GetChunkSize. cbn [ot OffsetsTable.m_diskOffsetsTable].
      rewrite (to_size_t_small (i + 1)) by (bounds; lia).
      rewrite (array_get_fmap _ _ _ (Hrec (i + 1) ltac:(lia))).
      rewrite (array_get_fmap _ _ _ (Hrec i ltac:(lia))).
      cbn [mbind result_bind mret result_ret].
      replace (startOffset + (i + 1)) with (startOffset + i + 1) by lia. reflexivity.
    + destruct (lookup_lt_is_Some_2 (derived_startIndex records) (Z.to_nat i)) as [raw Hraw].
      { rewrite derived_startIndex_length. lia. }
      exists (to_int64 raw). unfold OffsetsTable.GetStartIndex.
      cbn [ot OffsetsTable.m_startIndex]. rewrite Hraw. reflexivity.
  - intros Hpos. unfold OffsetsTable.GetStartIndex. cbn [ot OffsetsTable.m_startIndex].
    destruct records as [|r0 rest]; [cbn in Hlenr; lia|]. reflexivity.
  - intros Hpos. unfold OffsetsTable.GetStartIndex. cbn [ot OffsetsTable.m_startIndex].
    destruct records as [|r0 [|r1 rest]]; [cbn in Hlenr; lia | cbn in Hlenr; lia |].
    reflexivity.
  - intros i Hi Hnext.
    pose proof (Hrec i ltac:(lia)) as Hr.
    rewrite lookup_app_l in Hr by (rewrite Hlenr; lia).
    destruct (derived_startIndex_recurrence (Z.of_nat n) (Some <$> (records ++ [next]))
                records i _ ltac:(lia) ltac:(rewrite Hlenr; lia) Hr) as (a & Ha & Hb).
    exists a. split; [exact Ha | exact Hb].
Qed.

Lemma ReadOffsetsTable_subrange_witness :
  let s := five_chunk_state_before_load in
  let bytes := five_chunk_file in
  exists s' ot,
    ReadOffsetsTable false 1 (Z.of_nat 3) s = (Ok tt, s')
    /\ m_offsetsTable s' = Some ot
    /\ m_file s' = Some (mkFILE bytes (m_offsetStart s + 16 * (1 + Z.of_nat 3 + 1)))
    /\ (forall i, 0 <= i <= Z.of_nat 3 ->
          let r := record_in_file bytes (m_offsetStart s + 16 * (1 + i)) in
          OffsetsTable.GetOffset ot i = Ok (offset r)
          /\ OffsetsTable.GetNumSequences ot i = Ok (numSequences r)
          /\ OffsetsTable.GetNumSamples ot i = Ok (numSamples r))
    /\ (forall i, 0 <= i < Z.of_nat 3 ->
          OffsetsTable.GetChunkSize ot i
          = Ok (to_size_t
                  (offset (record_in_file bytes (m_offsetStart s + 16 * (1 + i + 1)))
                   - offset (record_in_file bytes (m_offsetStart s + 16 * (1 + i)))))
          /\ exists start, OffsetsTable.GetStartIndex ot i = Ok start)
    /\ (0 < Z.of_nat 3 -> OffsetsTable.GetStartIndex ot 0 = Ok 0)
    /\ (1 < Z.of_nat 3 -> OffsetsTable.GetStartIndex ot 1 = Ok 0)
    /\ (forall i, 1 <= i -> i + 1 < Z.of_nat 3 ->
          exists a,
            OffsetsTable.GetStartIndex ot i = Ok a
            /\ OffsetsTable.GetStartIndex ot (i + 1)
               = Ok (to_int64
                       (a + numSequences
                              (record_in_file bytes (m_offsetStart s + 16 * (1 + i)))))).
Proof.
  apply (ReadOffsetsTable_subrange false five_chunk_state_before_load
           (mkFILE five_chunk_file 37) 5 1 3).
  - reflexivity.
  - reflexivity.
  - lia.
  - simpl. lia.
  - vm_compute. discriminate.
  - vm_compute. discriminate.
  - vm_compute. reflexivity.
Defined.

(** X5.  A chunk count between -2^63 and -2 in [m_numBatches], as a damaged
    header gives it, converts to a [size_t] of 2^63 or more:
    [ReadOffsetsTable(infile)] then fails in
    [new DiskOffsetsTable[numBatches + 1]] with [std::bad_alloc], after the
    seek to the table, and the store is left without a new offsets table. *)
Theorem ReadOffsetsTable_negative_count NDEBUG s f nb :
  m_file s = Some f ->
  m_numBatches s = Some nb ->
  - 2 ^ 63 <= nb <= -2 ->
  fst (ReadOffsetsTable_all NDEBUG s) = Throw StdBadAlloc
  /\ only_file s (snd (ReadOffsetsTable_all NDEBUG s)).
Proof.
  intros Hfile Hnb Hrange.
  destruct s as [fn fl os ds sts des otb ver nbo ni tl]. cbn in Hfile, Hnb.
  subst fl nbo.
  assert (Hcond : to_int64 (to_size_t (0 + to_size_t nb)) = nb).
  { rewrite Z.add_0_l, to_int64_to_size_t, to_int64_to_size_t.
    apply to_int64_small. bounds. lia. }
  assert (Hslots : to_size_t (to_size_t nb + 1) = 2 ^ 64 + nb + 1).
  { rewrite to_size_t_add_l. unfold to_size_t, wrap_unsigned.
    replace (nb + 1) with (2 ^ 64 + nb + 1 + (-1) * 2 ^ 64) by lia.
    rewrite Z_mod_plus_full. apply Z.mod_small. bounds. lia. }
  unfold ReadOffsetsTable_all, ReadOffsetsTable, c_assert.
  unfold_monad. unfold sizeof_DiskOffsetsTable.
  destruct NDEBUG; load_step;
    rewrite ?Hcond, ?Z.leb_refl; load_step;
    rewrite Hslots;
    (destruct (Z.gtb_spec ((2 ^ 64 + nb + 1) * 16) PTRDIFF_MAX) as [_|Hno];
       [|bounds; lia]);
    split; reflexivity.
Qed.

Lemma ReadOffsetsTable_negative_count_witness :
  let s := set_numBatches (Some (-5)) sample_state_before_load in
  fst (ReadOffsetsTable_all false s) = Throw StdBadAlloc
  /\ only_file s (snd (ReadOffsetsTable_all false s)).
Proof.
  apply (ReadOffsetsTable_negative_count false
           (set_numBatches (Some (-5)) sample_state_before_load)
           (mkFILE sample_file 37) (-5)).
  - reflexivity.
  - reflexivity.
  - vm_compute. split; discriminate.
Defined.

(** ** What [Initialize] reads from the header *)

Lemma fread_complete_bytes size f bs f' :
  0 < size ->
  fread size 1 f = (bs, f') ->
  length bs = Z.to_nat size ->
  bs = take (Z.to_nat size) (remaining f).
Proof.
  intros Hsize H Hlen. unfold fread in H. fold (remaining f) in H.
  destruct (Z.eqb_spec size 0) as [->|_]; [lia|].
  inversion H as [[Hbs Hf']]. clear H Hf'.
  set (got := take (Z.to_nat (Z.min (size * 1) (Z.of_nat (length (remaining f)))))
                (remaining f)) in *.
  assert (Hgot : Z.of_nat (length got) <= size).
  { unfold got. rewrite length_take. lia. }
  assert (Hbs_len : (length bs <= length got)%nat).
  { rewrite <- Hbs, length_take. lia. }
  assert (Hfull : Z.of_nat (length got) = size) by lia.
  assert (Hgot_eq : got = take (Z.to_nat size) (remaining f)).
  { unfold got in *. rewrite length_take in Hfull.
    f_equal. lia. }
  rewrite Hfull, Z.div_same by lia.
  rewrite Z.mul_1_l, Hgot_eq, take_take, Nat.min_id. reflexivity.
Qed.

Lemma header_int64_value f v f' :
  header_int64 f = (Ok v, f') -> v = decode_int64 (take 8 (remaining f)).
Proof.
  unfold header_int64, fread_int64. intros H.
  destruct (fread 8 1 f) as [bs f1] eqn:Hread.
  destruct (decide (length bs = 8%nat)) as [Hlen|]; inversion H; subst.
  f_equal. apply (fread_complete_bytes 8 f bs f'); [lia | exact Hread | exact Hlen].
Qed.

Lemma read_int64_value f v f' :
  read_int64 f = (Ok (Some v), f') -> v = decode_int64 (take 8 (remaining f)).
Proof.
  unfold read_int64, fread_int64. intros H.
  destruct (fread 8 1 f) as [bs f1] eqn:Hread.
  destruct (decide (length bs = 8%nat)) as [Hlen|]; inversion H; subst.
  f_equal. apply (fread_complete_bytes 8 f bs f'); [lia | exact Hread | exact Hlen].
Qed.

Lemma read_int32_value f v f' :
  read_int32 f = (Ok (Some v), f') -> v = decode_int32 (take 4 (remaining f)).
Proof.
  unfold read_int32, fread_int32. intros H.
  destruct (fread 4 1 f) as [bs f1] eqn:Hread.
  destruct (decide (length bs = 4%nat)) as [Hlen|]; inversion H; subst.
  f_equal. apply (fread_complete_bytes 4 f bs f'); [lia | exact Hread | exact Hlen].
Qed.

(** The steps of a run of [Initialize] that returns: the header matched the
    reader's version, the stream loop ran from the store [after_header] and
    left the handle at some byte [os], and the load of the table ran from
    there. *)
Lemma Initialize_Ok_parts NDEBUG fs rename s0 s bytes :
  fs (m_filename s0) = Some bytes ->
  Initialize NDEBUG fs rename s0 = (Ok tt, s) ->
  exists q os,
    header_version bytes = m_versionNumber s0
    /\ 0 <= header_numInputs bytes
    /\ Initialize_streams (Z.to_nat (header_numInputs bytes)) 0 rename (after_header bytes s0)
       = (Ok tt, q)
    /\ m_file q = Some (mkFILE bytes os)
    /\ 20 <= os
    /\ ReadOffsetsTable_all NDEBUG
         (set_dataStart
            (to_int64 (to_size_t (os + to_size_t (to_size_t (header_numBatches bytes)
                                                   * sizeof_DiskOffsetsTable))))
            (set_offsetStart os q))
       = (Ok tt, s).
Proof.
  intros Hfs H. unfold Initialize in H.
  inv_bind H filename q1 Ha. apply gets_Ok in Ha as [-> ->].
  inv_bind H f q2 Hb. unfold lift, fopenOrDie in Hb. rewrite Hfs in Hb.
  assert (f = mkFILE bytes 0 /\ q2 = s0) as [-> ->] by (split; congruence). clear Hb.
  inv_bind H u q3 Hc. apply modify_Ok in Hc as ->.
  inv_bind H u1 q4 Hd. apply on_file_Ok_inv in Hd as (f & f' & Hf & Hop & ->).
  assert (f = mkFILE bytes 0) as -> by (destruct s0; cbn in Hf; inversion Hf; reflexivity). clear Hf.
  assert (f' = mkFILE bytes 0) as -> by (unfold seek in Hop; cbn in Hop; congruence).
  clear Hop.
  inv_bind H v q5 He. apply on_file_Ok_inv in He as (f & f' & Hf & Hop & ->).
  assert (f = mkFILE bytes 0) as -> by (destruct s0; cbn in Hf; inversion Hf; reflexivity). clear Hf.
  pose proof (header_int64_value _ _ _ Hop) as Hv.
  apply header_int64_Ok in Hop. cbn in Hop. subst f'.
  inv_bind H rv q6 Hf. apply gets_Ok in Hf as [-> ->].
  match type of H with
  | context [negb (?a =? ?b)] =>
      destruct (Z.eqb_spec a b) as [Hver|_]; [|exfalso; exact (throw_not_Ok _ _ _ _ H)]
  end.
  cbn [negb] in H.
  inv_bind H nb q7 Hg. apply on_file_Ok_inv in Hg as (f & f' & Hf & Hop & ->).
  assert (f = mkFILE bytes 8) as -> by (destruct s0; cbn in Hf; inversion Hf; reflexivity). clear Hf.
  inv_bind H u2 q8 Hh. apply modify_Ok in Hh as ->.
  inv_bind H ni q9 Hi. apply on_file_Ok_inv in Hi as (f & f'' & Hf & Hop2 & ->).
  assert (f = f') as -> by (destruct s0; cbn in Hf; inversion Hf; reflexivity). clear Hf.
  inv_bind H u3 q10 Hj. apply modify_Ok in Hj as ->.
  inv_bind H numInputs q11 Hk. apply use_Ok in Hk as [-> ->].
  destruct (Z.ltb_spec numInputs 0) as [_|Hni]; [exfalso; exact (throw_not_Ok _ _ _ _ H)|].
  inv_bind H u4 q12 Hl. apply modify_Ok in Hl as ->.
  inv_bind H u5 q13 Hm. apply modify_Ok in Hm as ->.
  inv_bind H u6 q14 Hloop.
  inv_bind H offsetStart q15 Htell.
  inv_bind H u7 q16 Hn. apply modify_Ok in Hn as ->.
  inv_bind H numBatches q17 Ho. apply use_Ok in Ho as [-> ->].
  inv_bind H u8 q18 Hp. apply modify_Ok in Hp as ->.
  pose proof (read_int64_value _ _ _ Hop) as Hnbv.
  apply read_int64_Some in Hop. cbn in Hop. subst f'.
  pose proof (read_int32_value _ _ _ Hop2) as Hniv.
  apply read_int32_Some in Hop2. cbn in Hop2. subst f''.
  change (remaining (mkFILE bytes 0)) with (drop 0 bytes) in Hv. rewrite drop_0 in Hv.
  change (remaining (mkFILE bytes 8)) with (drop 8 bytes) in Hnbv.
  change (remaining (mkFILE bytes (8 + 8))) with (drop 16 bytes) in Hniv.
  fold (header_version bytes) in Hv. fold (header_numBatches bytes) in Hnbv.
  fold (header_numInputs bytes) in Hniv.
  destruct u6.
  match type of Hloop with
  | Initialize_streams _ _ _ ?st = _ =>
      assert (Hstart : st = after_header bytes s0)
        by (subst numInputs numBatches; destruct s0; reflexivity)
  end.
  rewrite Hstart in Hloop.
  pose proof (Initialize_streams_reads_on _ _ _ _ _ _ Hloop) as [_ Hfile].
  destruct (Hfile (mkFILE bytes 20)) as (f1 & Hf1 & Hbytes & Hpos); [reflexivity|].
  cbn in Hbytes, Hpos.
  apply on_file_Ok_inv in Htell as (f & f' & Hf & Hop & ->).
  rewrite Hf1 in Hf. assert (f = f1) as -> by congruence. clear Hf.
  unfold tell, _ftelli64 in Hop.
  assert (offsetStart = f_pos f1 /\ f' = f1) as [-> ->] by (split; congruence). clear Hop.
  exists q14, (f_pos f1).
  split; [rewrite Hv in Hver; rewrite Hver; destruct s0; reflexivity|].
  split; [subst numInputs; exact Hni|].
  split; [subst numInputs; exact Hloop|].
  split; [rewrite Hf1; destruct f1; cbn in Hbytes |- *; subst; reflexivity|].
  split; [exact Hpos|].
  subst numBatches. rewrite <- H. f_equal.
  destruct q14. cbn in Hf1 |- *. rewrite Hf1. reflexivity.
Qed.

Lemma fills_streams_refl s : fills_streams s s.
Proof. destruct s. repeat split. Qed.

Lemma fills_streams_trans a b c :
  fills_streams a b -> fills_streams b c -> fills_streams a c.
Proof.
  unfold fills_streams. intros (Hb & Hb1 & Hb2) (Hc & Hc1 & Hc2).
  split; [|split; congruence].
  rewrite Hc. rewrite Hb. destruct a. reflexivity.
Qed.

Lemma fills_streams_on_file {A} (op : stateful FILE A) :
  preserves fills_streams (on_file op).
Proof.
  intros s r s' H. unfold on_file in H.
  destruct (m_file s) as [f|]; [destruct (op f) as [r' f']|]; inversion H; subst.
  - destruct s. repeat split.
  - apply fills_streams_refl.
Qed.

Ltac fills_streams_auto :=
  repeat first
    [ apply fills_streams_on_file
    | apply preserves_modify; intros s; destruct s;
      split; [reflexivity | split; cbn; rewrite ?length_insert; reflexivity]
    | preserves_step fills_streams_refl fills_streams_trans ].

(** The stream loop touches the file handle and the entries of the two
    vectors only. *)
Lemma Initialize_streams_fills_streams n c rename :
  preserves fills_streams (Initialize_streams n c rename).
Proof.
  revert c. induction n as [|n IH]; intros c; cbn [Initialize_streams].
  - fills_streams_auto.
  - fills_streams_auto. apply IH.
Qed.

(** [n] iterations of the stream loop from [c], when they all return, fill
    the slots [c] to [c + n - 1] and leave the slots before [c] alone. *)
Lemma Initialize_streams_fill rename n :
  forall (c : nat) s s',
    Initialize_streams n (Z.of_nat c) rename s = (Ok tt, s') ->
    (c + n <= length (m_deserializers s))%nat ->
    (c + n <= length (m_streams s))%nat ->
    (forall k, (k < c)%nat ->
       m_deserializers s' !! k = m_deserializers s !! k
       /\ m_streams s' !! k = m_streams s !! k)
    /\ (forall k, (c <= k < c + n)%nat -> stream_filled s' k).
Proof.
  induction n as [|n IH]; intros c s s' H Hd Hs.
  - cbn in H. inversion H; subst. split; [auto | intros; lia].
  - cbn [Initialize_streams] in H.
    inv_bind H len q1 H1. apply on_file_Ok_inv in H1 as (f1 & f1' & _ & _ & ->).
    inv_bind H wname q2 H2. apply on_file_Ok_inv in H2 as (f2 & f2' & _ & _ & ->).
    inv_bind H matType q3 H3. apply on_file_Ok_inv in H3 as (f3 & f3' & _ & _ & ->).
    inv_bind H d q4 H4.
    assert (Hq4 : exists f4, q4 = set_file f4 (set_file (Some f3') (set_file (Some f2')
                                  (set_file (Some f1') s)))).
    { destruct (matType =? 0).
      - apply on_file_Ok_inv in H4 as (f4 & f4' & _ & _ & ->). eauto.
      - destruct (matType =? 1).
        + apply on_file_Ok_inv in H4 as (f4 & f4' & _ & _ & ->). eauto.
        + exfalso. exact (throw_not_Ok _ _ _ _ H4). }
    destruct Hq4 as (f4 & ->). clear H4.
    inv_bind H u1 q5 H5. apply modify_Ok in H5 as ->.
    inv_bind H u2 q6 H6. apply modify_Ok in H6 as ->.
    replace (Z.of_nat c + 1) with (Z.of_nat (S c)) in H by lia.
    rewrite Nat2Z.id in H.
    set (sd := mkStream (default wname (rename !! wname)) (Z.of_nat c)
                 (GetElementType d) (GetStorageType d) (GetSampleLayout d)) in *.
    match type of H with
    | Initialize_streams _ _ _ ?st = _ =>
        assert (Hq : m_deserializers st = <[c := Some d]> (m_deserializers s)
                     /\ m_streams st = <[c := Some sd]> (m_streams s))
          by (destruct s; split; reflexivity)
    end.
    destruct Hq as [Hqd Hqs].
    apply IH in H; rewrite ?Hqd, ?Hqs, ?length_insert; try lia.
    rewrite Hqd, Hqs in H. destruct H as [Hbefore Hfilled].
    split.
    + intros k Hk. destruct (Hbefore k ltac:(lia)) as [Hkd Hks].
      rewrite Hkd, Hks. rewrite !list_lookup_insert_ne by lia. split; reflexivity.
    + intros k Hk. destruct (Nat.eq_dec k c) as [->|Hne].
      * destruct (Hbefore c ltac:(lia)) as [Hkd Hks].
        exists d, sd. rewrite Hkd, Hks.
        split; [apply list_lookup_insert_eq; lia|].
        split; [apply list_lookup_insert_eq; lia|].
        repeat split.
      * apply Hfilled. lia.
Qed.

Lemma to_size_t_add_r a b : to_size_t (a + to_size_t b) = to_size_t (a + b).
Proof. unfold to_size_t, wrap_unsigned. apply Zplus_mod_idemp_r. Qed.

Lemma to_size_t_mul_l a b : to_size_t (to_size_t a * b) = to_size_t (a * b).
Proof. unfold to_size_t, wrap_unsigned. apply Zmult_mod_idemp_l. Qed.

Lemma dataStart_eq os nb :
  to_int64 (to_size_t (os + to_size_t (to_size_t nb * sizeof_DiskOffsetsTable)))
  = to_int64 (os + 16 * nb).
Proof.
  unfold sizeof_DiskOffsetsTable.
  rewrite to_size_t_mul_l, to_size_t_add_r, to_int64_to_size_t.
  f_equal. lia.
Qed.

(** What a run of [Initialize] that returns has established. *)
Lemma Initialize_Ok_facts NDEBUG fs rename s0 s bytes :
  fs (m_filename s0) = Some bytes ->
  Initialize NDEBUG fs rename s0 = (Ok tt, s) ->
  header_version bytes = m_versionNumber s0
  /\ m_numBatches s = Some (header_numBatches bytes)
  /\ m_numInputs s = Some (header_numInputs bytes)
  /\ 0 <= header_numInputs bytes
  /\ length (m_streams s) = Z.to_nat (header_numInputs bytes)
  /\ length (m_deserializers s) = Z.to_nat (header_numInputs bytes)
  /\ (forall k, (k < Z.to_nat (header_numInputs bytes))%nat -> stream_filled s k)
  /\ 20 <= m_offsetStart s
  /\ m_dataStart s = to_int64 (m_offsetStart s + 16 * header_numBatches bytes)
  /\ m_filename s = m_filename s0
  /\ m_traceLevel s = m_traceLevel s0
  /\ m_versionNumber s = m_versionNumber s0.
Proof.
  intros Hfs H.
  destruct (Initialize_Ok_parts _ _ _ _ _ _ Hfs H)
    as (q & os & Hver & Hni & Hloop & Hfile & Hos & Hload).
  pose proof (Initialize_streams_fills_streams _ _ _ _ _ _ Hloop) as (Hq & Hls & Hld).
  destruct (Initialize_streams_fill rename _ 0%nat _ _ Hloop) as [_ Hfilled].
  { cbn. rewrite length_resize. lia. }
  { cbn. rewrite length_resize. lia. }
  pose proof (ReadOffsetsTable_all_table_and_file NDEBUG _ _ _ Hload) as Hs.
  cbn [after_header m_streams m_deserializers] in Hls, Hld.
  rewrite length_resize in Hls. rewrite length_resize in Hld.
  rewrite dataStart_eq in Hs.
  assert (Hstreams : m_streams s = m_streams q) by (rewrite Hs; destruct q; reflexivity).
  assert (Hdes : m_deserializers s = m_deserializers q)
    by (rewrite Hs; destruct q; reflexivity).
  split; [exact Hver|].
  split; [rewrite Hs, Hq; reflexivity|].
  split; [rewrite Hs, Hq; reflexivity|].
  split; [exact Hni|].
  split; [rewrite Hstreams; exact Hls|].
  split; [rewrite Hdes; exact Hld|].
  split.
  { intros k Hk. destruct (Hfilled k ltac:(lia)) as (d & sd & Hd & Hsd & Hrest).
    exists d, sd. rewrite Hstreams, Hdes. auto. }
  split; [rewrite Hs; destruct q; exact Hos|].
  split; [rewrite Hs; destruct q; reflexivity|].
  split; [rewrite Hs, Hq; reflexivity|].
  split; [rewrite Hs, Hq; reflexivity|].
  rewrite Hs, Hq; reflexivity.
Qed.

Lemma create_Ok_inv NDEBUG fs helper s :
  create NDEBUG fs helper = Ok s ->
  Initialize NDEBUG fs (GetRename helper)
    (set_traceLevel (GetTraceLevel helper) (new (GetFilePath helper)))
  = (Ok tt, s).
Proof.
  unfold create. intros H.
  destruct ((SetTraceLevel (GetTraceLevel helper);; Initialize NDEBUG fs (GetRename helper))
              (new (GetFilePath helper))) as [[[]|e| |] s1] eqn:E; inversion H; subst s1.
  apply bind_Ok_inv in E as (u & q & Hset & E).
  unfold SetTraceLevel in Hset. apply modify_Ok in Hset as ->. exact E.
Qed.

Lemma Initialize_Ok_file NDEBUG fs rename s0 s :
  Initialize NDEBUG fs rename s0 = (Ok tt, s) ->
  exists bytes, fs (m_filename s0) = Some bytes.
Proof.
  intros H. unfold Initialize in H.
  inv_bind H filename q1 Ha. apply gets_Ok in Ha as [-> ->].
  inv_bind H f q2 Hb. unfold lift, fopenOrDie in Hb.
  destruct (fs (m_filename s0)) as [bytes|]; [eauto | discriminate].
Qed.

(** X6.  What the public constructor has read when it returns a store for
    the file [bytes]: the first 8 bytes of the file are the version 1;
    [m_numBatches] is the 64-bit integer at bytes 8 to 15 and [m_numInputs],
    which is not negative, the 32-bit integer at bytes 16 to 19; the vectors
    [m_streams] and [m_deserializers] have [m_numInputs] entries each; the
    offsets table starts behind the 20 bytes of these scalars and
    [m_dataStart] is [m_offsetStart + 16 * m_numBatches] as a 64-bit integer;
    the file name and the trace level are those of the configuration. *)
Theorem create_reads_header NDEBUG fs helper s bytes :
  create NDEBUG fs helper = Ok s ->
  fs (GetFilePath helper) = Some bytes ->
  header_version bytes = 1
  /\ m_numBatches s = Some (header_numBatches bytes)
  /\ m_numInputs s = Some (header_numInputs bytes)
  /\ 0 <= header_numInputs bytes
  /\ length (m_streams s) = Z.to_nat (header_numInputs bytes)
  /\ length (m_deserializers s) = Z.to_nat (header_numInputs bytes)
  /\ 20 <= m_offsetStart s
  /\ m_dataStart s = to_int64 (m_offsetStart s + 16 * header_numBatches bytes)
  /\ m_filename s = GetFilePath helper
  /\ m_traceLevel s = GetTraceLevel helper.
Proof.
  intros Hcreate Hfs. apply create_Ok_inv in Hcreate.
  destruct (Initialize_Ok_facts _ _ _ _ _ bytes Hfs Hcreate)
    as (Hver & Hnb & Hni & Hni0 & Hls & Hld & _ & Hos & Hds & Hfn & Htl & _).
  repeat split; assumption.
Qed.

Lemma create_reads_header_witness :
  header_version sample_file = 1
  /\ m_numBatches sample_state = Some (header_numBatches sample_file)
  /\ m_numInputs sample_state = Some (header_numInputs sample_file)
  /\ 0 <= header_numInputs sample_file
  /\ length (m_streams sample_state) = Z.to_nat (header_numInputs sample_file)
  /\ length (m_deserializers sample_state) = Z.to_nat (header_numInputs sample_file)
  /\ 20 <= m_offsetStart sample_state
  /\ m_dataStart sample_state
     = to_int64 (m_offsetStart sample_state + 16 * header_numBatches sample_file)
  /\ m_filename sample_state = GetFilePath sample_helper
  /\ m_traceLevel sample_state = GetTraceLevel sample_helper.
Proof.
  apply (create_reads_header false (one_disk sample_file) sample_helper sample_state
           sample_file).
  - vm_compute. reflexivity.
  - reflexivity.
Defined.

(** X7.  In every store that the public constructor returns, each of the
    [m_numInputs] slots of [m_deserializers] and of [m_streams] is filled:
    slot [c] holds a codec and a stream description whose id is [c] and whose
    element type, storage type and sample layout are the ones the codec
    reports.  No slot is left null. *)
Theorem create_fills_streams NDEBUG fs helper s :
  create NDEBUG fs helper = Ok s ->
  exists numInputs,
    m_numInputs s = Some numInputs
    /\ 0 <= numInputs
    /\ Z.of_nat (length (m_deserializers s)) = numInputs
    /\ Z.of_nat (length (m_streams s)) = numInputs
    /\ forall c, 0 <= c < numInputs -> stream_filled s (Z.to_nat c).
Proof.
  intros Hcreate. apply create_Ok_inv in Hcreate.
  destruct (Initialize_Ok_file _ _ _ _ _ Hcreate) as [bytes Hfs].
  destruct (Initialize_Ok_facts _ _ _ _ _ bytes Hfs Hcreate)
    as (_ & _ & Hni & Hni0 & Hls & Hld & Hfilled & _).
  exists (header_numInputs bytes).
  split; [exact Hni|]. split; [exact Hni0|].
  split; [lia|]. split; [lia|].
  intros c Hc. apply Hfilled. lia.
Qed.

Lemma create_fills_streams_witness :
  exists numInputs,
    m_numInputs sample_state = Some numInputs
    /\ 0 <= numInputs
    /\ Z.of_nat (length (m_deserializers sample_state)) = numInputs
    /\ Z.of_nat (length (m_streams sample_state)) = numInputs
    /\ forall c, 0 <= c < numInputs -> stream_filled sample_state (Z.to_nat c).
Proof.
  apply (create_fills_streams false (one_disk sample_file) sample_helper sample_state).
  vm_compute. reflexivity.
Defined.

(** X8.  An iteration of the stream loop of [Initialize] that reads a matrix
    type other than 0 (dense) and 1 (sparse) throws the runtime error for an
    unknown matrix type.  The handle is left behind the matrix type; no slot
    of [m_deserializers] or [m_streams] is assigned, and the streams that
    follow are not read. *)
Theorem Initialize_streams_unknown_type n c rename s f len f1 wname f2 matType f3 :
  m_file s = Some f ->
  header_int32 f = (Ok len, f1) ->
  read_stream_name len f1 = (Ok wname, f2) ->
  header_int32 f2 = (Ok matType, f3) ->
  matType <> 0 -> matType <> 1 ->
  Initialize_streams (S n) c rename s = (Throw UnsupportedEncoding, set_file (Some f3) s).
Proof.
  intros Hfile H1 H2 H3 Hdense Hsparse.
  cbn [Initialize_streams]. unfold_monad.
  destruct s as [fn fl os ds sts des otb ver nb ni tl]. cbn in Hfile. subst fl.
  cbv beta iota zeta delta [m_file set_file m_filename m_offsetStart m_dataStart m_streams
                              m_deserializers m_offsetsTable m_versionNumber m_numBatches
                              m_numInputs m_traceLevel].
  rewrite H1. cbv beta iota. rewrite H2. cbv beta iota. rewrite H3. cbv beta iota.
  destruct (Z.eqb_spec matType 0) as [|_]; [contradiction|].
  destruct (Z.eqb_spec matType 1) as [|_]; [contradiction|].
  reflexivity.
Qed.

Lemma Initialize_streams_unknown_type_witness :
  Initialize_streams (S 0) 0 ∅ (after_header bad_type_file (new "bad.bin"))
  = (Throw UnsupportedEncoding,
     set_file (Some (mkFILE bad_type_file 29)) (after_header bad_type_file (new "bad.bin"))).
Proof.
  apply (Initialize_streams_unknown_type 0 0 ∅ (after_header bad_type_file (new "bad.bin"))
           (mkFILE bad_type_file 20) 1 (mkFILE bad_type_file 24) "x"
           (mkFILE bad_type_file 25) 7 (mkFILE bad_type_file 29)).
  - reflexivity.
  - vm_compute. reflexivity.
  - vm_compute. reflexivity.
  - vm_compute. reflexivity.
  - discriminate.
  - discriminate.
Defined.

(** X9.  A header whose stream count is negative: [Initialize] has read the
    version, which matches, the chunk count and the stream count, and
    [m_streams.resize(m_numInputs)] throws [std::length_error], since the
    negative count converts to a size above [max_size()].  The handle is left
    behind the 20 bytes of the three scalars, no stream is read, the offsets
    table is not built, and the public constructor throws. *)
Theorem Initialize_negative_inputs NDEBUG fs helper bytes :
  fs (GetFilePath helper) = Some bytes ->
  (20 <= length bytes)%nat ->
  header_version bytes = 1 ->
  header_numInputs bytes < 0 ->
  let s0 := set_traceLevel (GetTraceLevel helper) (new (GetFilePath helper)) in
  let s1 := set_numInputs (Some (header_numInputs bytes))
              (set_numBatches (Some (header_numBatches bytes))
                 (set_file (Some (mkFILE bytes 20)) s0)) in
  Initialize NDEBUG fs (GetRename helper) s0 = (Throw StdLengthError, s1)
  /\ m_offsetsTable s1 = None
  /\ m_streams s1 = []
  /\ create NDEBUG fs helper = Throw StdLengthError.
Proof.
  intros Hfs Hlen Hver Hneg s0 s1.
  assert (Hread1 : fread 8 1 (mkFILE bytes 0) = (take 8 bytes, mkFILE bytes 8)).
  { rewrite fread_exact; unfold remaining; cbn [f_pos f_bytes drop Z.to_nat]; try lia.
    - reflexivity.
    - rewrite drop_0. lia. }
  assert (Hread2 : fread 8 1 (mkFILE bytes 8) = (take 8 (drop 8 bytes), mkFILE bytes 16)).
  { rewrite fread_exact; unfold remaining; cbn [f_pos f_bytes]; try lia.
    - reflexivity.
    - rewrite length_drop. lia. }
  assert (Hread3 : fread 4 1 (mkFILE bytes 16) = (take 4 (drop 16 bytes), mkFILE bytes 20)).
  { rewrite fread_exact; unfold remaining; cbn [f_pos f_bytes]; try lia.
    - reflexivity.
    - rewrite length_drop. lia. }
  assert (H : Initialize NDEBUG fs (GetRename helper) s0 = (Throw StdLengthError, s1)).
  { unfold Initialize, fopenOrDie, header_int64, read_int64, read_int32,
      fread_int64, fread_int32.
    unfold_monad. unfold s1, s0, new, header_version, header_numInputs, header_numBatches in *.
    cbv beta iota zeta delta [m_filename m_file m_versionNumber set_file set_traceLevel
                                set_numBatches set_numInputs
                                m_offsetStart m_dataStart m_streams m_deserializers
                                m_offsetsTable m_numBatches m_numInputs m_traceLevel].
    rewrite Hfs.
    cbv beta iota zeta delta [_fseeki64 f_bytes f_pos].
    change (0 <? 0) with false. cbv beta iota.
    rewrite Hread1.
    destruct (decide (length (take 8 bytes) = 8%nat)) as [_|Hno];
      [|rewrite length_take in Hno; lia].
    rewrite Hver. change (negb (1 =? 1)) with false. cbv beta iota.
    rewrite Hread2.
    destruct (decide (length (take 8 (drop 8 bytes)) = 8%nat)) as [_|Hno];
      [|rewrite length_take, length_drop in Hno; lia].
    cbv beta iota. rewrite Hread3.
    destruct (decide (length (take 4 (drop 16 bytes)) = 4%nat)) as [_|Hno];
      [|rewrite length_take, length_drop in Hno; lia].
    cbv beta iota.
    destruct (Z.ltb_spec (decode_int32 (take 4 (drop 16 bytes))) 0) as [_|Hge]; [|lia].
    reflexivity. }
  split; [exact H|]. split; [reflexivity|]. split; [reflexivity|].
  unfold create, SetTraceLevel. unfold_monad. fold s0. rewrite H. reflexivity.
Qed.

Lemma Initialize_negative_inputs_witness :
  let s0 := set_traceLevel 0 (new "sample.bin") in
  let s1 := set_numInputs (Some (header_numInputs negative_inputs_file))
              (set_numBatches (Some (header_numBatches negative_inputs_file))
                 (set_file (Some (mkFILE negative_inputs_file 20)) s0)) in
  Initialize false (one_disk negative_inputs_file) ∅ s0 = (Throw StdLengthError, s1)
  /\ m_offsetsTable s1 = None
  /\ m_streams s1 = []
  /\ create false (one_disk negative_inputs_file) sample_helper = Throw StdLengthError.
Proof.
  apply (Initialize_negative_inputs false (one_disk negative_inputs_file) sample_helper
           negative_inputs_file).
  - reflexivity.
  - vm_compute. lia.
  - vm_compute. reflexivity.
  - vm_compute. reflexivity.
Defined.

(** Under the conditions of [Initialize_Initialized], the load leaves the
    handle at the end of the file. *)
Lemma Initialize_handle_at_end NDEBUG fs rename s0 s bytes n :
  fs (m_filename s0) = Some bytes ->
  Z.of_nat (length bytes) < 2 ^ 63 ->
  Initialize NDEBUG fs rename s0 = (Ok tt, s) ->
  m_numBatches s = Some (Z.of_nat n) ->
  m_offsetStart s + 16 * Z.of_nat n <= Z.of_nat (length bytes) ->
  m_file s = Some (mkFILE bytes (Z.of_nat (length bytes))).
Proof.
  intros Hfs Hlen Hinit Hn Hfit.
  destruct (Initialize_Ok_inv _ _ _ _ _ _ Hfs Hinit)
    as (s1 & os & nb & Hos & Hfile & Hoff & Hnb & Hload).
  pose proof (ReadOffsetsTable_all_table_and_file NDEBUG s1 _ s Hload) as Hframe.
  assert (Hnb' : m_numBatches s = m_numBatches s1) by (rewrite Hframe; destruct s1; reflexivity).
  assert (Hoff' : m_offsetStart s = m_offsetStart s1) by (rewrite Hframe; destruct s1; reflexivity).
  rewrite Hnb' in Hn. rewrite Hoff' in Hfit. rewrite Hoff in Hfit.
  assert (Hsize : (Z.of_nat n + 1) * sizeof_DiskOffsetsTable <= PTRDIFF_MAX).
  { unfold sizeof_DiskOffsetsTable. bounds. lia. }
  pose proof (ReadOffsetsTable_all_loads NDEBUG s1 (mkFILE bytes os) n Hfile Hn) as Hrun.
  rewrite Hoff in Hrun. cbn [f_bytes] in Hrun.
  specialize (Hrun ltac:(lia) Hfit Hlen Hsize).
  rewrite Hrun in Hload. inversion Hload as [Hs]. destruct s1. reflexivity.
Qed.

(** X10.  The store that the public constructor returns for a file shorter
    than 2^63 bytes whose header gives a chunk count N that is not negative,
    and which holds all N offset records: its offsets table has the N records
    of the file from [m_offsetStart] on and the closing entry with the size
    of the file, [m_numBatches] is N, the open handle is on this file and
    stands at its end, and [m_dataStart] is [m_offsetStart + 16 * N], the
    byte behind the table. *)
Theorem create_Initialized NDEBUG fs helper s bytes :
  create NDEBUG fs helper = Ok s ->
  fs (GetFilePath helper) = Some bytes ->
  Z.of_nat (length bytes) < 2 ^ 63 ->
  0 <= header_numBatches bytes ->
  m_offsetStart s + 16 * header_numBatches bytes <= Z.of_nat (length bytes) ->
  Initialized s
    (decode_records (Z.to_nat (header_numBatches bytes))
       (drop (Z.to_nat (m_offsetStart s)) bytes))
    (Z.of_nat (length bytes))
  /\ m_file s = Some (mkFILE bytes (Z.of_nat (length bytes)))
  /\ m_dataStart s = m_offsetStart s + 16 * header_numBatches bytes.
Proof.
  intros Hcreate Hfs Hlen Hnb0 Hfit. apply create_Ok_inv in Hcreate.
  destruct (Initialize_Ok_facts _ _ _ _ _ bytes Hfs Hcreate)
    as (_ & Hnb & _ & _ & _ & _ & _ & Hos & Hds & _).
  rewrite <- (Z2Nat.id (header_numBatches bytes)) in Hnb, Hfit by exact Hnb0.
  split; [|split].
  - exact (Initialize_Initialized NDEBUG fs (GetRename helper)
             (set_traceLevel (GetTraceLevel helper) (new (GetFilePath helper))) s bytes
             (Z.to_nat (header_numBatches bytes)) Hfs Hlen Hcreate Hnb Hfit).
  - exact (Initialize_handle_at_end NDEBUG fs (GetRename helper)
             (set_traceLevel (GetTraceLevel helper) (new (GetFilePath helper))) s bytes
             (Z.to_nat (header_numBatches bytes)) Hfs Hlen Hcreate Hnb Hfit).
  - rewrite Hds. apply to_int64_small. bounds. lia.
Qed.

Lemma create_Initialized_witness :
  Initialized sample_state
    (decode_records (Z.to_nat (header_numBatches sample_file))
       (drop (Z.to_nat (m_offsetStart sample_state)) sample_file))
    (Z.of_nat (length sample_file))
  /\ m_file sample_state = Some (mkFILE sample_file (Z.of_nat (length sample_file)))
  /\ m_dataStart sample_state
     = m_offsetStart sample_state + 16 * header_numBatches sample_file.
Proof.
  apply (create_Initialized false (one_disk sample_file) sample_helper sample_state
           sample_file).
  - vm_compute. reflexivity.
  - reflexivity.
  - vm_compute. reflexivity.
  - vm_compute. discriminate.
  - vm_compute. discriminate.
Defined.

(** ** Reading chunks *)

Lemma lift_Ok {S A} (r : result A) (s : S) a s' :
  lift r s = (Ok a, s') -> r = Ok a /\ s' = s.
Proof. unfold lift. intros H. split; congruence. Qed.

Lemma offsetsTable_Ok s ot s' :
  offsetsTable s = (Ok ot, s') -> m_offsetsTable s = Some ot /\ s' = s.
Proof.
  unfold offsetsTable. intros H.
  inv_bind H v q Hg. apply gets_Ok in Hg as [-> ->].
  apply use_Ok in H as [Hv ->]. split; [exact Hv | reflexivity].
Qed.

Lemma GetChunkSize_range ot i size :
  OffsetsTable.GetChunkSize ot i = Ok size -> 0 <= size < 2 ^ 64.
Proof.
  unfold OffsetsTable.GetChunkSize. intros H.
  destruct (array_get _ (to_size_t (i + 1))) as [hi|e| |]; try discriminate.
  cbn [mbind result_bind] in H.
  destruct (array_get _ i) as [lo|e| |]; try discriminate.
  inversion H. apply to_size_t_range.
Qed.

(** What a call of [GetChunk] that returns has gone through. *)
Lemma GetChunk_Ok_inv s ot chunkId chunk s1 :
  m_offsetsTable s = Some ot ->
  GetChunk chunkId s = (Ok chunk, s1) ->
  exists f off size startIndex sequences,
    m_file s = Some f
    /\ OffsetsTable.GetOffset ot chunkId = Ok off
    /\ OffsetsTable.GetChunkSize ot chunkId = Ok size
    /\ 0 <= size <= PTRDIFF_MAX
    /\ OffsetsTable.GetStartIndex ot chunkId = Ok startIndex
    /\ OffsetsTable.GetNumSequences ot chunkId = Ok sequences.
Proof.
  intros Hot H. unfold GetChunk in H.
  inv_bind H buffer q1 Hread. unfold ReadChunk in Hread.
  inv_bind Hread ot1 p1 Ha. apply offsetsTable_Ok in Ha as [Ha ->].
  assert (ot1 = ot) as -> by congruence. clear Ha.
  inv_bind Hread off p2 Hb. apply lift_Ok in Hb as [Hoff ->].
  inv_bind Hread dataStart p3 Hc. apply gets_Ok in Hc as [-> ->].
  inv_bind Hread u p4 Hd. apply on_file_Ok_inv in Hd as (f & f' & Hfile & _ & ->).
  inv_bind Hread csize p5 He. apply lift_Ok in He as [Hsize ->].
  destruct (Z.gtb_spec csize PTRDIFF_MAX) as [_|Hmax];
    [exfalso; exact (throw_not_Ok _ _ _ _ Hread)|].
  inv_bind Hread got p6 Hf. apply on_file_Ok_inv in Hf as (g & g' & _ & _ & ->).
  apply (preserves_ret only_file only_file_refl) in Hread.
  inv_bind H ot2 q2 Hg. apply offsetsTable_Ok in Hg as [Hg ->].
  assert (ot2 = ot) as ->.
  { rewrite Hread in Hg. destruct s. cbn in Hg, Hot. congruence. }
  inv_bind H startIndex q3 Hh. apply lift_Ok in Hh as [Hsi ->].
  inv_bind H sequences q4 Hi. apply lift_Ok in Hi as [Hns ->].
  exists f, off, csize, startIndex, sequences.
  pose proof (GetChunkSize_range _ _ _ Hsize).
  repeat split; try assumption; lia.
Qed.

Lemma chunk_seek_nonneg s f off :
  0 <= to_int64 (m_dataStart s + off) ->
  chunk_seek s f off = mkFILE (f_bytes f) (to_int64 (m_dataStart s + off)).
Proof.
  intros H. unfold chunk_seek, _fseeki64.
  destruct (Z.ltb_spec (to_int64 (m_dataStart s + off)) 0); [lia | reflexivity].
Qed.

(** X11.  [GetChunk] on a chunk that the file holds completely.  On an
    initialized store, for a valid [chunkId] whose offsets [lo] and [hi]
    ([GetOffset] of the chunk and of the entry behind it) do not decrease and
    whose bytes [m_dataStart + lo] to [m_dataStart + hi] lie within the file,
    [GetChunk] returns a chunk whose buffer is exactly these [hi - lo] bytes
    of the file, with the chunk id, the start index and sequence count of the
    table and the codec list of the store, and it leaves the handle at byte
    [m_dataStart + hi], where the next chunk begins. *)
Theorem GetChunk_reads_chunk_bytes s records endOffset f chunkId lo hi :
  Initialized s records endOffset ->
  m_file s = Some f ->
  0 <= chunkId < Z.of_nat (length records) ->
  OffsetsTable.GetOffset (loaded_table records endOffset) chunkId = Ok lo ->
  OffsetsTable.GetOffset (loaded_table records endOffset) (chunkId + 1) = Ok hi ->
  lo <= hi ->
  0 <= m_dataStart s + lo ->
  m_dataStart s + hi <= Z.of_nat (length (f_bytes f)) ->
  Z.of_nat (length (f_bytes f)) < 2 ^ 63 ->
  exists chunk,
    GetChunk chunkId s
    = (Ok chunk, set_file (Some (mkFILE (f_bytes f) (m_dataStart s + hi))) s)
    /\ chunk_buffer chunk
       = take (Z.to_nat (hi - lo)) (drop (Z.to_nat (m_dataStart s + lo)) (f_bytes f))
    /\ Z.of_nat (length (chunk_buffer chunk)) = hi - lo
    /\ chunk_id chunk = chunkId
    /\ chunk_deserializers chunk = m_deserializers s
    /\ OffsetsTable.GetStartIndex (loaded_table records endOffset) chunkId
       = Ok (chunk_startSequence chunk)
    /\ OffsetsTable.GetNumSequences (loaded_table records endOffset) chunkId
       = Ok (chunk_numSequences chunk).
Proof.
  intros (Hot & Hnb & _ & Hsize) Hfile Hid Hlo Hhi Hle Hstart Hend Hlen.
  unfold sizeof_DiskOffsetsTable in Hsize.
  destruct (record_at records chunkId Hid) as [r Hr].
  destruct (GetStartIndex_valid records endOffset chunkId Hid) as (raw & _ & Hsi).
  pose proof (GetNumSequences_record records endOffset chunkId r ltac:(lia) Hr) as Hns.
  assert (Hcs : OffsetsTable.GetChunkSize (loaded_table records endOffset) chunkId
                = Ok (hi - lo)).
  { unfold OffsetsTable.GetChunkSize.
    unfold OffsetsTable.GetOffset in Hlo, Hhi.
    rewrite (to_size_t_small (chunkId + 1)) by (bounds; lia).
    destruct (array_get _ (chunkId + 1)) as [rhi|e| |]; try discriminate.
    destruct (array_get _ chunkId) as [rlo|e| |]; try discriminate.
    cbn [mbind result_bind mret result_ret] in *.
    inversion Hlo; inversion Hhi; subst.
    rewrite to_size_t_small by (bounds; lia). reflexivity. }
  pose proof (GetChunk_run s _ f chunkId lo (hi - lo) (to_int64 raw) (numSequences r)
                Hot Hfile Hlo Hcs ltac:(bounds; lia) Hsi Hns) as Hrun.
  cbv zeta in Hrun.
  assert (Hseek : chunk_seek s f lo = mkFILE (f_bytes f) (m_dataStart s + lo)).
  { rewrite chunk_seek_nonneg; rewrite to_int64_small by (bounds; lia);
      [reflexivity | lia]. }
  assert (Hgot : chunk_bytes s f lo (hi - lo)
                 = take (Z.to_nat (hi - lo)) (drop (Z.to_nat (m_dataStart s + lo)) (f_bytes f))).
  { unfold chunk_bytes. rewrite Hseek. reflexivity. }
  assert (Hgotlen : length (chunk_bytes s f lo (hi - lo)) = Z.to_nat (hi - lo)).
  { rewrite Hgot, length_take, length_drop. lia. }
  rewrite Hgotlen, Nat.sub_diag in Hrun. cbn [replicate] in Hrun.
  rewrite app_nil_r, Hseek in Hrun. cbn [f_pos] in Hrun.
  replace (m_dataStart s + lo + Z.of_nat (Z.to_nat (hi - lo))) with (m_dataStart s + hi)
    in Hrun by lia.
  eexists. split; [exact Hrun|]. cbn [chunk_buffer chunk_id chunk_deserializers
                                      chunk_startSequence chunk_numSequences].
  split; [exact Hgot|]. split; [rewrite Hgotlen; lia|].
  repeat split; assumption.
Qed.

Lemma GetChunk_reads_chunk_bytes_witness :
  exists chunk,
    GetChunk 0 sample_state
    = (Ok chunk,
       set_file (Some (mkFILE (f_bytes (mkFILE sample_file 89)) (m_dataStart sample_state + 12)))
         sample_state)
    /\ chunk_buffer chunk
       = take (Z.to_nat (12 - 0))
           (drop (Z.to_nat (m_dataStart sample_state + 0)) (f_bytes (mkFILE sample_file 89)))
    /\ Z.of_nat (length (chunk_buffer chunk)) = 12 - 0
    /\ chunk_id chunk = 0
    /\ chunk_deserializers chunk = m_deserializers sample_state
    /\ OffsetsTable.GetStartIndex (loaded_table sample_records 89) 0
       = Ok (chunk_startSequence chunk)
    /\ OffsetsTable.GetNumSequences (loaded_table sample_records 89) 0
       = Ok (chunk_numSequences chunk).
Proof.
  apply (GetChunk_reads_chunk_bytes sample_state sample_records 89 (mkFILE sample_file 89)
           0 0 12 sample_state_Initialized).
  - reflexivity.
  - simpl. lia.
  - vm_compute. reflexivity.
  - vm_compute. reflexivity.
  - lia.
  - vm_compute. discriminate.
  - vm_compute. discriminate.
  - vm_compute. reflexivity.
Defined.

(** X12.  [GetChunk] can be repeated.  [ReadChunk] seeks to an absolute
    position, so where the handle stands before the call does not matter:
    when the position it seeks to, [m_dataStart + GetOffset(chunkId)] as a
    64-bit integer, is not negative and a call of [GetChunk] returns, the
    same call made again returns the same chunk, byte for byte, and leaves
    the store exactly as the first call left it. *)
Theorem GetChunk_repeatable s ot chunkId off chunk s1 :
  m_offsetsTable s = Some ot ->
  OffsetsTable.GetOffset ot chunkId = Ok off ->
  0 <= to_int64 (m_dataStart s + off) ->
  GetChunk chunkId s = (Ok chunk, s1) ->
  GetChunk chunkId s1 = (Ok chunk, s1).
Proof.
  intros Hot Hoff Hpos H.
  destruct (GetChunk_Ok_inv s ot chunkId chunk s1 Hot H)
    as (f & off' & size & si & ns & Hfile & Hoff' & Hsize & Hbound & Hsi & Hns).
  assert (off' = off) as -> by congruence. clear Hoff'.
  pose proof (GetChunk_run s ot f chunkId off size si ns Hot Hfile Hoff Hsize Hbound Hsi Hns)
    as Hrun.
  cbv zeta in Hrun. rewrite Hrun in H. inversion H as [[Hchunk Hs1]]. clear H.
  set (f1 := mkFILE (f_bytes f)
               (f_pos (chunk_seek s f off) + Z.of_nat (length (chunk_bytes s f off size)))).
  assert (Hds : m_dataStart (set_file (Some f1) s) = m_dataStart s)
    by (destruct s; reflexivity).
  assert (Hseek : chunk_seek (set_file (Some f1) s) f1 off = chunk_seek s f off).
  { rewrite !chunk_seek_nonneg by (rewrite ?Hds; exact Hpos). rewrite Hds. reflexivity. }
  pose proof (GetChunk_run (set_file (Some f1) s) ot f1 chunkId off size si ns) as Hrun1.
  cbv zeta in Hrun1. unfold chunk_bytes in Hrun1 |- *. rewrite Hseek in Hrun1.
  rewrite Hrun1; try assumption; destruct s; assumption || reflexivity.
Qed.

Lemma GetChunk_repeatable_witness :
  GetChunk 0 (set_file (Some (mkFILE sample_file 81)) sample_state)
  = (Ok (mkChunk 0 0 3 (payload_values [1; 2; 3])
           [Some (DenseBinaryDataDeserializer tfloat 1)]),
     set_file (Some (mkFILE sample_file 81)) sample_state).
Proof.
  apply (GetChunk_repeatable sample_state (loaded_table sample_records 89) 0 0).
  - reflexivity.
  - vm_compute. reflexivity.
  - vm_compute. discriminate.
  - vm_compute. reflexivity.
Defined.

(** ** What the queries leave alone *)

Lemma moves_handle_refl s : moves_handle s s.
Proof. split; [apply only_file_refl|]. destruct (m_file s); reflexivity || exact I. Qed.

Lemma moves_handle_trans a b c : moves_handle a b -> moves_handle b c -> moves_handle a c.
Proof.
  intros [H1 H2] [H3 H4]. split; [eapply only_file_trans; eauto|].
  destruct (m_file a), (m_file b), (m_file c); try contradiction; try exact I.
  congruence.
Qed.

Lemma moves_handle_on_file {A} (op : stateful FILE A) :
  (forall f r f', op f = (r, f') -> f_bytes f' = f_bytes f) ->
  preserves moves_handle (on_file op).
Proof.
  intros Hop s r s' H. split; [exact (only_file_on_file op s r s' H)|].
  unfold on_file in H. destruct (m_file s) as [f|] eqn:Hf.
  - destruct (op f) as [r' f'] eqn:Hopf. inversion H; subst.
    replace (m_file (set_file (Some f') s)) with (Some f') by (destruct s; reflexivity).
    exact (Hop _ _ _ Hopf).
  - inversion H; subst. rewrite Hf. exact I.
Qed.

Lemma seek_bytes off w f r f' : seek off w f = (r, f') -> f_bytes f' = f_bytes f.
Proof. unfold seek. intros H. inversion H. apply fseek_bytes. Qed.

Lemma read_bytes size count f r f' : read size count f = (r, f') -> f_bytes f' = f_bytes f.
Proof. unfold read, fread. intros H. inversion H. reflexivity. Qed.

Ltac moves_handle_auto :=
  repeat first
    [ apply moves_handle_on_file; first [ apply seek_bytes | apply read_bytes ]
    | preserves_step moves_handle_refl moves_handle_trans ].

Lemma GetChunk_moves_handle chunkId : preserves moves_handle (GetChunk chunkId).
Proof. unfold GetChunk, ReadChunk, offsetsTable. moves_handle_auto. Qed.

Lemma GetChunkDescriptions_unchanged NDEBUG :
  preserves eq (GetChunkDescriptions NDEBUG).
Proof.
  assert (Hloop : forall n c result, preserves eq (GetChunkDescriptions_loop n c result)).
  { induction n as [|n IH]; intros c result; cbn [GetChunkDescriptions_loop];
      unfold offsetsTable; repeat preserves_step (@eq_refl t) (@eq_trans t). apply IH. }
  unfold GetChunkDescriptions, c_assert. repeat preserves_step (@eq_refl t) (@eq_trans t).
  all: apply Hloop.
Qed.

(** X13.  The three queries are read-only up to the position of the file
    handle, whatever they end in and on whatever store they run.
    [GetChunkDescriptions] leaves the store exactly as it was.  [GetChunk]
    and [GetSequencesForChunk] change at most where the handle stands: the
    content of the file, the offsets table, the codecs, the counts and every
    other member stay as they were, and no handle is opened or closed. *)
Theorem queries_are_read_only :
  (forall NDEBUG s, snd (GetChunkDescriptions NDEBUG s) = s)
  /\ (forall chunkId s, moves_handle s (snd (GetChunk chunkId s)))
  /\ (forall SequenceData (m_numberOfSamples : SequenceData -> Z) GetSequence
             chunkId result s,
        moves_handle s
          (snd (GetSequencesForChunk SequenceData m_numberOfSamples GetSequence
                  chunkId result s))).
Proof.
  split; [|split].
  - intros NDEBUG s. destruct (GetChunkDescriptions NDEBUG s) as [r s'] eqn:E.
    symmetry. exact (GetChunkDescriptions_unchanged NDEBUG s r s' E).
  - intros chunkId s. destruct (GetChunk chunkId s) as [r s'] eqn:E.
    exact (GetChunk_moves_handle chunkId s r s' E).
  - intros SD ns GS chunkId result s.
    assert (Hloop : forall n c startId chunk res,
               preserves moves_handle
                 (GetSequencesForChunk_loop SD ns GS n c chunkId startId chunk res)).
    { induction n as [|n IH]; intros c startId chunk res;
        cbn [GetSequencesForChunk_loop]; unfold offsetsTable; moves_handle_auto.
      apply IH. }
    assert (Hall : preserves moves_handle (GetSequencesForChunk SD ns GS chunkId result)).
    { pose proof (GetChunk_moves_handle chunkId).
      unfold GetSequencesForChunk, offsetsTable. moves_handle_auto. apply Hloop. }
    destruct (GetSequencesForChunk SD ns GS chunkId result s) as [r s'] eqn:E.
    exact (Hall s r s' E).
Qed.

(** X14.  The edges of [GetSequencesForChunk] at the sequence count of the
    chunk.  A negative count makes [result.reserve] throw
    [std::length_error] before anything is read: the store, its file handle
    included, is untouched.  A count of 0 still reads the chunk with
    [GetChunk], which moves the handle, and then returns the vector as it was
    given. *)
Theorem GetSequencesForChunk_count_edges
    (SequenceData : Type) (m_numberOfSamples : SequenceData -> Z)
    (GetSequence : Z -> list SequenceData -> stateful BinaryDataChunk (list SequenceData))
    s ot chunkId sequences result :
  m_offsetsTable s = Some ot ->
  OffsetsTable.GetNumSequences ot chunkId = Ok sequences ->
  (sequences < 0 ->
     GetSequencesForChunk SequenceData m_numberOfSamples GetSequence chunkId result s
     = (Throw StdLengthError, s))
  /\ (sequences = 0 ->
        forall chunk s', GetChunk chunkId s = (Ok chunk, s') ->
          GetSequencesForChunk SequenceData m_numberOfSamples GetSequence chunkId result s
          = (Ok result, s')).
Proof.
  intros Hot Hns. split.
  - intros Hneg. unfold GetSequencesForChunk.
    rewrite (bind_Ok _ _ _ _ _ (offsetsTable_run s ot Hot)).
    rewrite (bind_Ok _ _ s sequences s) by (unfold lift; rewrite Hns; reflexivity).
    destruct (Z.ltb_spec sequences 0) as [_|Hge]; [reflexivity | lia].
  - intros -> chunk s' Hchunk.
    destruct (GetChunk_Ok_inv s ot chunkId chunk s' Hot Hchunk)
      as (f & off & csize & si & ns & _ & _ & _ & _ & Hsi & _).
    rewrite (GetSequencesForChunk_run SequenceData m_numberOfSamples GetSequence
               s ot chunkId chunk s' 0 si [] result Hot Hns ltac:(bounds; lia) Hsi Hchunk
               eq_refl).
    cbn [imap]. rewrite app_nil_r. reflexivity.
Qed.

Lemma GetSequencesForChunk_count_edges_witness :
  let ot := loaded_table [mkDisk 0 (-1) 0] 89 in
  let s := set_offsetsTable (Some ot) sample_state in
  (-1 < 0 ->
     GetSequencesForChunk SpecChunk.SequenceData SpecChunk.m_numberOfSamples
       SpecChunk.GetSequence 0 [] s
     = (Throw StdLengthError, s))
  /\ (-1 = 0 ->
        forall chunk s', GetChunk 0 s = (Ok chunk, s') ->
          GetSequencesForChunk SpecChunk.SequenceData SpecChunk.m_numberOfSamples
            SpecChunk.GetSequence 0 [] s
          = (Ok [], s')).
Proof.
  apply (GetSequencesForChunk_count_edges SpecChunk.SequenceData
           SpecChunk.m_numberOfSamples SpecChunk.GetSequence
           (set_offsetsTable (Some (loaded_table [mkDisk 0 (-1) 0] 89)) sample_state)
           (loaded_table [mkDisk 0 (-1) 0] 89) 0 (-1) []).
  - reflexivity.
  - vm_compute. reflexivity.
Defined.

(** ** The trace level *)

Lemma ignores_trace_ret {A} (a : A) : ignores_trace (mret a).
Proof. intros level s. reflexivity. Qed.

Lemma ignores_trace_lift {A} (r : result A) : ignores_trace (lift r).
Proof. intros level s. reflexivity. Qed.

Lemma ignores_trace_use {A} (v : option A) : ignores_trace (use v).
Proof. destruct v; intros level s; reflexivity. Qed.

Lemma ignores_trace_gets {A} (proj : t -> A) :
  (forall level s, proj (set_traceLevel level s) = proj s) ->
  ignores_trace (gets proj).
Proof. intros Hproj level s. unfold gets. rewrite Hproj. reflexivity. Qed.

Lemma ignores_trace_bind {A B} (m : stateful t A) (k : A -> stateful t B) :
  ignores_trace m -> (forall a, ignores_trace (k a)) -> ignores_trace (m ≫= k).
Proof.
  intros Hm Hk level s. unfold mbind, stateful_bind. rewrite Hm.
  destruct (m s) as [[a|e| |] s1]; cbn [fst snd]; [apply Hk | reflexivity..].
Qed.

Lemma ignores_trace_on_file {A} (op : stateful FILE A) : ignores_trace (on_file op).
Proof.
  intros level s. unfold on_file.
  replace (m_file (set_traceLevel level s)) with (m_file s) by (destruct s; reflexivity).
  destruct (m_file s) as [f|]; [|reflexivity].
  destruct (op f) as [r f']. destruct s. reflexivity.
Qed.

Ltac ignores_trace_auto :=
  repeat first
    [ apply ignores_trace_bind; [|intros ?]
    | apply ignores_trace_ret
    | apply ignores_trace_lift
    | apply ignores_trace_use
    | apply ignores_trace_on_file
    | apply ignores_trace_gets; intros ? []; reflexivity
    | assumption
    | match goal with
      | |- ignores_trace (if ?c then _ else _) => destruct c
      | |- ignores_trace (match ?x with _ => _ end) => destruct x
      end ].

Lemma GetChunk_ignores_trace chunkId : ignores_trace (GetChunk chunkId).
Proof.
  unfold GetChunk, ReadChunk, offsetsTable, throw. ignores_trace_auto.
Qed.

(** X15.  [SetTraceLevel] stores its argument in [m_traceLevel] and touches
    nothing else, and no query reads that member: [GetChunkDescriptions],
    [GetChunk] and [GetSequencesForChunk] end in the same outcome whatever
    the trace level is, leave the same store behind, and leave the trace
    level as it was set. *)
Theorem trace_level_has_no_effect :
  (forall level s, SetTraceLevel level s = (Ok tt, set_traceLevel level s))
  /\ (forall NDEBUG, ignores_trace (GetChunkDescriptions NDEBUG))
  /\ (forall chunkId, ignores_trace (GetChunk chunkId))
  /\ (forall SequenceData (m_numberOfSamples : SequenceData -> Z) GetSequence
             chunkId result,
        ignores_trace
          (GetSequencesForChunk SequenceData m_numberOfSamples GetSequence chunkId result)).
Proof.
  split; [reflexivity|]. split; [|split].
  - intros NDEBUG.
    assert (Hloop : forall n c result, ignores_trace (GetChunkDescriptions_loop n c result)).
    { induction n as [|n IH]; intros c result; cbn [GetChunkDescriptions_loop];
        unfold offsetsTable; ignores_trace_auto. apply IH. }
    unfold GetChunkDescriptions, c_assert, throw. ignores_trace_auto.
    all: apply Hloop.
  - exact GetChunk_ignores_trace.
  - intros SD ns GS chunkId result.
    assert (Hloop : forall n c startId chunk res,
               ignores_trace
                 (GetSequencesForChunk_loop SD ns GS n c chunkId startId chunk res)).
    { induction n as [|n IH]; intros c startId chunk res;
        cbn [GetSequencesForChunk_loop]; unfold offsetsTable; ignores_trace_auto.
      apply IH. }
    pose proof (GetChunk_ignores_trace chunkId).
    unfold GetSequencesForChunk, offsetsTable, throw. ignores_trace_auto. apply Hloop.
Qed.

(** ** Offsets that decrease *)

Lemma short_state_Initialized : Initialized short_state [mkDisk 0 3 3; mkDisk 1000 2 2] 89.
Proof.
  repeat split; try reflexivity; [eexists; reflexivity | vm_compute; discriminate].
Defined.

(** X16.  [GetChunk] on a chunk whose entry in the table has a larger offset
    than the entry behind it.  The difference of the two offsets, taken as a
    [size_t], wraps around to 2^64 minus the gap; for a gap of at most 2^63
    [make_unique<byte[]>] is asked for more than [PTRDIFF_MAX] bytes and
    [GetChunk] throws [std::bad_alloc], after the seek to the chunk and
    before anything is read. *)
Theorem GetChunk_decreasing_offsets s records endOffset f chunkId lo hi :
  Initialized s records endOffset ->
  m_file s = Some f ->
  0 <= chunkId < Z.of_nat (length records) ->
  OffsetsTable.GetOffset (loaded_table records endOffset) chunkId = Ok lo ->
  OffsetsTable.GetOffset (loaded_table records endOffset) (chunkId + 1) = Ok hi ->
  hi < lo ->
  lo - hi <= 2 ^ 63 ->
  OffsetsTable.GetChunkSize (loaded_table records endOffset) chunkId
  = Ok (2 ^ 64 - (lo - hi))
  /\ GetChunk chunkId s = (Throw StdBadAlloc, set_file (Some (chunk_seek s f lo)) s).
Proof.
  intros (Hot & Hnb & _ & Hsize) Hfile Hid Hlo Hhi Hlt Hgap.
  unfold sizeof_DiskOffsetsTable in Hsize.
  assert (Hcs : OffsetsTable.GetChunkSize (loaded_table records endOffset) chunkId
                = Ok (2 ^ 64 - (lo - hi))).
  { unfold OffsetsTable.GetChunkSize.
    unfold OffsetsTable.GetOffset in Hlo, Hhi.
    rewrite (to_size_t_small (chunkId + 1)) by (bounds; lia).
    destruct (array_get _ (chunkId + 1)) as [rhi|e| |]; try discriminate.
    destruct (array_get _ chunkId) as [rlo|e| |]; try discriminate.
    cbn [mbind result_bind mret result_ret] in *.
    inversion Hlo; inversion Hhi; subst. do 2 f_equal.
    unfold to_size_t, wrap_unsigned.
    replace (offset rhi - offset rlo)
      with (2 ^ 64 - (offset rlo - offset rhi) + (-1) * 2 ^ 64) by lia.
    rewrite Z_mod_plus_full. apply Z.mod_small. bounds. lia. }
  split; [exact Hcs|].
  unfold GetChunk, ReadChunk, offsetsTable. unfold_monad.
  destruct s as [fn fl os ds sts des otb ver nb ni tl].
  cbn in Hot, Hfile. subst otb fl.
  cbv beta iota zeta delta [m_offsetsTable m_file m_dataStart m_deserializers set_file].
  rewrite Hlo.
  cbv beta iota zeta delta [m_offsetsTable m_file m_dataStart m_deserializers set_file].
  rewrite Hcs.
  destruct (Z.gtb_spec (2 ^ 64 - (lo - hi)) PTRDIFF_MAX) as [_|Hno]; [|bounds; lia].
  reflexivity.
Qed.

Lemma GetChunk_decreasing_offsets_witness :
  OffsetsTable.GetChunkSize (loaded_table [mkDisk 0 3 3; mkDisk 1000 2 2] 89) 1
  = Ok (2 ^ 64 - (1000 - 89))
  /\ GetChunk 1 short_state
     = (Throw StdBadAlloc,
        set_file (Some (chunk_seek short_state (mkFILE short_file 89) 1000)) short_state).
Proof.
  apply (GetChunk_decreasing_offsets short_state [mkDisk 0 3 3; mkDisk 1000 2 2] 89
           (mkFILE short_file 89) 1 1000 89 short_state_Initialized).
  - reflexivity.
  - simpl. lia.
  - vm_compute. reflexivity.
  - vm_compute. reflexivity.
  - lia.
  - vm_compute. discriminate.
Defined.

(** ** A file that ends inside its offsets table *)

Lemma array_get_cases (a : disk_array) i :
  (exists r, array_get a i = Ok r /\ a !! Z.to_nat i = Some (Some r))
  \/ array_get a i = Undefined.
Proof.
  unfold array_get. destruct (a !! Z.to_nat i) as [[r|]|]; eauto.
Qed.

(** The loop of [OffsetsTable::Initialize] reads every entry from [c] to
    [c + n - 1]; one that was never written makes it undefined. *)
Lemma Initialize_loop_hole tbl :
  forall n c startIndex seen (j : nat),
    0 <= c ->
    (Z.to_nat c <= j < Z.to_nat c + n)%nat ->
    tbl !! j = Some None ->
    OffsetsTable.Initialize_loop n c tbl startIndex seen = Undefined.
Proof.
  induction n as [|n IH]; intros c startIndex seen j Hc Hj Hhole; [lia|].
  cbn [OffsetsTable.Initialize_loop].
  destruct (array_get_cases tbl c) as [(r & Hr & Hlook)|Hu].
  - rewrite Hr. cbn [mbind result_bind].
    apply (IH _ _ _ j); [lia | | exact Hhole].
    assert (j <> Z.to_nat c) by (intros ->; congruence). lia.
  - rewrite Hu. reflexivity.
Qed.

Lemma fread_short size count f :
  0 < size -> 0 <= f_pos f ->
  Z.of_nat (length (remaining f)) <= size * count ->
  fread size count f
  = (take (Z.to_nat (Z.of_nat (length (remaining f)) / size * size)) (remaining f),
     mkFILE (f_bytes f) (f_pos f + Z.of_nat (length (remaining f)))).
Proof.
  intros Hs Hp Hlen. unfold fread. fold (remaining f).
  rewrite Z.min_r by lia. rewrite Nat2Z.id.
  rewrite (take_ge (remaining f) (length (remaining f))) by lia.
  destruct (Z.eqb_spec size 0) as [->|_]; [lia|]. reflexivity.
Qed.

(** X17.  A file that ends inside its offsets table.  When the header
    announces [n >= 2] chunks and the file holds fewer than [n] complete
    records from [m_offsetStart] on, nothing in [ReadOffsetsTable(infile)]
    looks at the number of records that [fread] delivered: the entries that
    were not read stay unwritten, and the constructor of [OffsetsTable] adds
    up the sequence count of one of them.  The use of that indeterminate
    value leaves the load without a defined behaviour; the statement says
    nothing about what a build does from there on. *)
Theorem ReadOffsetsTable_truncated_table NDEBUG s f n :
  m_file s = Some f ->
  m_numBatches s = Some (Z.of_nat n) ->
  (2 <= n)%nat ->
  (Z.of_nat n + 1) * sizeof_DiskOffsetsTable <= PTRDIFF_MAX ->
  0 <= m_offsetStart s < 2 ^ 63 ->
  Z.of_nat (length (f_bytes f)) < m_offsetStart s + 16 * Z.of_nat n ->
  Z.of_nat (length (f_bytes f)) < 2 ^ 63 ->
  fst (ReadOffsetsTable_all NDEBUG s) = Undefined.
Proof.
  intros Hfile Hnb Hn2 Hsize Hos Hcut Hlen.
  unfold sizeof_DiskOffsetsTable in Hsize.
  assert (Hn : to_size_t (Z.of_nat n) = Z.of_nat n) by (apply to_size_t_small; bounds; lia).
  assert (Hn1 : to_size_t (Z.of_nat n + 1) = Z.of_nat n + 1)
    by (apply to_size_t_small; bounds; lia).
  destruct s as [fn fl os ds sts des otb ver nb ni tl]. cbn in Hfile, Hnb, Hos, Hcut |- *.
  subst fl nb. destruct f as [bytes pos]. cbn in Hcut, Hlen |- *.
  assert (Hcond : to_int64 (to_size_t (0 + to_size_t (Z.of_nat n))) = Z.of_nat n).
  { rewrite Z.add_0_l, Hn, Hn. apply to_int64_small. bounds. lia. }
  assert (Hslots : to_size_t (to_size_t (Z.of_nat n) + 1) = Z.of_nat n + 1)
    by (rewrite Hn; exact Hn1).
  assert (Hseek : _fseeki64 (mkFILE bytes pos) (to_int64 (to_size_t (0 * 16 + os))) SEEK_SET
                  = mkFILE bytes os).
  { rewrite Z.mul_0_l, Z.add_0_l.
    rewrite (to_size_t_small os) by (bounds; lia).
    rewrite (to_int64_small os) by (bounds; lia).
    unfold _fseeki64. destruct (Z.ltb_spec os 0); [lia|reflexivity]. }
  set (avail := drop (Z.to_nat os) bytes).
  assert (Havail : (length avail < 16 * n)%nat).
  { unfold avail. rewrite length_drop. lia. }
  set (k := (length avail / 16)%nat).
  assert (Hk : (k < n)%nat).
  { unfold k. apply Nat.Div0.div_lt_upper_bound. lia. }
  assert (Hk16 : (16 * k <= length avail)%nat).
  { unfold k. apply Nat.Div0.mul_div_le. }
  assert (Hread : fread 16 (to_size_t (Z.of_nat n)) (mkFILE bytes os)
                  = (take (16 * k) avail, mkFILE bytes (os + Z.of_nat (length avail)))).
  { rewrite Hn. rewrite fread_short; unfold remaining; cbn [f_pos f_bytes]; fold avail;
      try lia.
    assert (Hdiv : Z.of_nat (length avail) / 16 = Z.of_nat k)
      by (unfold k; rewrite Nat2Z.inj_div; reflexivity).
    rewrite Hdiv. do 2 f_equal. lia. }
  assert (Hend : _fseeki64 (mkFILE bytes (os + Z.of_nat (length avail))) 0 SEEK_END
                 = mkFILE bytes (Z.of_nat (length bytes))).
  { unfold _fseeki64. cbn [f_bytes]. rewrite Z.add_0_r.
    destruct (Z.ltb_spec (Z.of_nat (length bytes)) 0); [lia|reflexivity]. }
  set (records := decode_records (length (take (16 * k) avail) `div` 16) (take (16 * k) avail)).
  assert (Hlenr : length records = k).
  { unfold records. rewrite decode_records_length, length_take.
    replace ((16 * k) `min` length avail)%nat with (k * 16)%nat by lia.
    apply Nat.div_mul. lia. }
  set (table := (Some <$> records) ++ replicate (Z.to_nat (Z.of_nat n + 1) - length records) None).
  assert (Htable : length table = S n).
  { unfold table. rewrite length_app, length_fmap, length_replicate. lia. }
  assert (Hset : array_set table (to_size_t (Z.of_nat n)) (mkDisk (Z.of_nat (length bytes)) 0 0)
                 = Ok (<[n := Some (mkDisk (Z.of_nat (length bytes)) 0 0)]> table)).
  { unfold array_set. rewrite Hn, Nat2Z.id.
    destruct (decide (n < length table)%nat) as [_|Hno]; [reflexivity | lia]. }
  assert (Hnew : OffsetsTable.new (to_size_t (Z.of_nat n))
                   (<[n := Some (mkDisk (Z.of_nat (length bytes)) 0 0)]> table)
                 = Undefined).
  { unfold OffsetsTable.new, OffsetsTable.Initialize. rewrite Hn.
    rewrite to_int64_small by (bounds; lia).
    rewrite to_size_t_small by (bounds; lia).
    destruct (Z.gtb_spec (Z.of_nat n * 8) PTRDIFF_MAX) as [Hgt|_]; [bounds; lia|].
    rewrite (Initialize_loop_hole _ _ _ _ _ (Nat.max 1 k)); [reflexivity | lia | lia |].
    rewrite list_lookup_insert_ne by lia.
    unfold table. rewrite lookup_app_r by (rewrite length_fmap; lia).
    apply lookup_replicate_2. rewrite length_fmap. lia. }
  unfold ReadOffsetsTable_all, ReadOffsetsTable, c_assert.
  unfold_monad. unfold sizeof_DiskOffsetsTable.
  destruct NDEBUG; load_step;
    rewrite ?Hcond, ?Z.leb_refl; load_step;
    rewrite Hseek; load_step;
    rewrite Hslots;
    (destruct (Z.gtb_spec ((Z.of_nat n + 1) * 16) PTRDIFF_MAX) as [Hgt|_]; [lia|]);
    load_step; rewrite Hread; load_step; fold records;
    (destruct (decide (Z.to_nat (Z.of_nat n + 1) < length records)%nat) as [Hbad|_]; [lia|]);
    load_step; rewrite ?Hcond, ?Z.eqb_refl; load_step;
    rewrite Hend; load_step; fold table;
    rewrite Hset, Hnew; reflexivity.
Qed.

Lemma ReadOffsetsTable_truncated_table_witness :
  fst (ReadOffsetsTable_all false
         (set_file (Some (mkFILE (take 60 sample_file) 37)) sample_state_before_load))
  = Undefined.
Proof.
  apply (ReadOffsetsTable_truncated_table false
           (set_file (Some (mkFILE (take 60 sample_file) 37)) sample_state_before_load)
           (mkFILE (take 60 sample_file) 37) 2).
  - reflexivity.
  - reflexivity.
  - lia.
  - vm_compute. discriminate.
  - vm_compute. split; [discriminate | reflexivity].
  - vm_compute. reflexivity.
  - vm_compute. reflexivity.
Defined.

(** ** A chunk decoder that fails *)

Section DecoderFailure.

Variable SequenceData : Type.
Variable m_numberOfSamples : SequenceData -> Z.
Variable GetSequence :
  Z -> list SequenceData -> stateful BinaryDataChunk (list SequenceData).

(** The loop fails as the first call of [GetSequence] that fails does, and
    leaves the store alone. *)
Lemma GetSequencesForChunk_loop_fails s ot chunkId startIndex startId :
  m_offsetsTable s = Some ot ->
  OffsetsTable.GetStartIndex ot chunkId = Ok startIndex ->
  forall (n : nat) (c : Z) chunk result,
    returned (decode_sequences GetSequence n c startIndex chunk) = false ->
    same_failure (decode_sequences GetSequence n c startIndex chunk)
      (fst (GetSequencesForChunk_loop SequenceData m_numberOfSamples GetSequence
              n c chunkId startId chunk result s))
    /\ snd (GetSequencesForChunk_loop SequenceData m_numberOfSamples GetSequence
              n c chunkId startId chunk result s) = s.
Proof.
  intros Hot Hsi. induction n as [|n IH]; intros c chunk result Hfail.
  - cbn in Hfail. discriminate.
  - cbn [decode_sequences] in Hfail |- *. cbn [GetSequencesForChunk_loop].
    unfold offsetsTable. unfold_monad. rewrite Hot, Hsi.
    destruct (GetSequence (to_size_t (startIndex + c)) [] chunk) as [temp chunk'].
    destruct temp as [temp|e| |]; try (split; reflexivity).
    cbn [mbind result_bind] in Hfail |- *.
    specialize (IH (c + 1) chunk'
                  (result ++ [mkSequenceDescription (to_size_t (startId + c))
                                (max_numberOfSamples SequenceData m_numberOfSamples temp)
                                chunkId true (to_size_t (startId + c), 0)])).
    destruct (decode_sequences GetSequence n (c + 1) startIndex chunk') as [rest|e| |];
      [discriminate | | |]; exact (IH eq_refl).
Qed.

End DecoderFailure.

(** X18.  When the chunk can be read but the decoding of one of its sequences
    fails, [GetSequencesForChunk] fails in the same way as the first call of
    [BinaryDataChunk::GetSequence] that fails: the exception it throws is the
    one that leaves [GetSequencesForChunk], which catches nothing.  The store
    is left as [GetChunk] left it. *)
Theorem GetSequencesForChunk_decoder_failure
    (SequenceData : Type) (m_numberOfSamples : SequenceData -> Z)
    (GetSequence : Z -> list SequenceData -> stateful BinaryDataChunk (list SequenceData))
    s ot chunkId chunk s' sequences startIndex result :
  m_offsetsTable s = Some ot ->
  OffsetsTable.GetNumSequences ot chunkId = Ok sequences ->
  0 <= sequences < 2 ^ 64 ->
  OffsetsTable.GetStartIndex ot chunkId = Ok startIndex ->
  GetChunk chunkId s = (Ok chunk, s') ->
  returned (decode_sequences GetSequence (Z.to_nat sequences) 0 startIndex chunk) = false ->
  same_failure (decode_sequences GetSequence (Z.to_nat sequences) 0 startIndex chunk)
    (fst (GetSequencesForChunk SequenceData m_numberOfSamples GetSequence chunkId result s))
  /\ snd (GetSequencesForChunk SequenceData m_numberOfSamples GetSequence chunkId result s)
     = s'.
Proof.
  intros Hot Hns Hrange Hsi Hchunk Hfail.
  assert (Hot' : m_offsetsTable s' = Some ot).
  { rewrite (GetChunk_only_file chunkId s _ s' Hchunk). destruct s. exact Hot. }
  unfold GetSequencesForChunk.
  rewrite (bind_Ok _ _ _ _ _ (offsetsTable_run s ot Hot)).
  rewrite (bind_Ok _ _ s sequences s) by (unfold lift; rewrite Hns; reflexivity).
  destruct (Z.ltb_spec sequences 0) as [Hneg|_]; [lia|].
  rewrite (bind_Ok _ _ _ _ _ Hchunk).
  rewrite (bind_Ok _ _ _ _ _ (offsetsTable_run s' ot Hot')).
  rewrite (bind_Ok _ _ s' startIndex s') by (unfold lift; rewrite Hsi; reflexivity).
  rewrite (bind_Ok _ _ s' sequences s') by (unfold lift; rewrite Hns; reflexivity).
  rewrite (to_size_t_small sequences) by lia.
  apply GetSequencesForChunk_loop_fails with (ot := ot); assumption.
Qed.

Lemma GetSequencesForChunk_decoder_failure_witness :
  same_failure
    (decode_sequences rejecting_GetSequence (Z.to_nat 3) 0 0
       (mkChunk 0 0 3 (payload_values [1; 2; 3])
          [Some (DenseBinaryDataDeserializer tfloat 1)]))
    (fst (GetSequencesForChunk unit (fun _ => 0) rejecting_GetSequence 0 [] sample_state))
  /\ snd (GetSequencesForChunk unit (fun _ => 0) rejecting_GetSequence 0 [] sample_state)
     = set_file (Some (mkFILE sample_file 81)) sample_state.
Proof.
  apply (GetSequencesForChunk_decoder_failure unit (fun _ => 0) rejecting_GetSequence
           sample_state (loaded_table sample_records 89) 0).
  - reflexivity.
  - vm_compute. reflexivity.
  - vm_compute. split; [discriminate | reflexivity].
  - vm_compute. reflexivity.
  - vm_compute. reflexivity.
  - vm_compute. reflexivity.
Defined.

(** ** Every chunk that [GetChunk] returns *)

(** X19.  What holds of every chunk that [GetChunk] returns, on any store
    and any file.  The file was open; the offsets table answered [GetOffset],
    [GetChunkSize], [GetStartIndex] and [GetNumSequences] for [chunkId]; the
    chunk carries [chunkId], that start index, that sequence count and the
    codec list of the store; and its buffer has exactly [GetChunkSize(chunkId)]
    bytes, at most [PTRDIFF_MAX]: the bytes that the file holds from the
    position [ReadChunk] seeks to, followed by zero bytes if the file ends
    early. *)
Theorem GetChunk_returns_consistent_chunk s ot chunkId chunk s1 :
  m_offsetsTable s = Some ot ->
  GetChunk chunkId s = (Ok chunk, s1) ->
  exists f off csize,
    m_file s = Some f
    /\ OffsetsTable.GetOffset ot chunkId = Ok off
    /\ OffsetsTable.GetChunkSize ot chunkId = Ok csize
    /\ 0 <= csize <= PTRDIFF_MAX
    /\ Z.of_nat (length (chunk_buffer chunk)) = csize
    /\ chunk_buffer chunk
       = chunk_bytes s f off csize
         ++ replicate (Z.to_nat csize - length (chunk_bytes s f off csize)) zero_byte
    /\ chunk_id chunk = chunkId
    /\ OffsetsTable.GetStartIndex ot chunkId = Ok (chunk_startSequence chunk)
    /\ OffsetsTable.GetNumSequences ot chunkId = Ok (chunk_numSequences chunk)
    /\ chunk_deserializers chunk = m_deserializers s.
Proof.
  intros Hot H.
  destruct (GetChunk_Ok_inv s ot chunkId chunk s1 Hot H)
    as (f & off & csize & si & ns & Hfile & Hoff & Hsize & Hbound & Hsi & Hns).
  pose proof (GetChunk_run s ot f chunkId off csize si ns Hot Hfile Hoff Hsize Hbound Hsi Hns)
    as Hrun.
  cbv zeta in Hrun. rewrite Hrun in H. inversion H as [[Hchunk Hs1]]. clear H.
  exists f, off, csize.
  cbn [chunk_buffer chunk_id chunk_startSequence chunk_numSequences chunk_deserializers].
  repeat split; try assumption; try lia.
  rewrite length_app, length_replicate.
  assert (length (chunk_bytes s f off csize) <= Z.to_nat csize)%nat
    by (unfold chunk_bytes; rewrite length_take; lia).
  lia.
Qed.

Lemma GetChunk_returns_consistent_chunk_witness :
  exists f off csize,
    m_file truncated_state = Some f
    /\ OffsetsTable.GetOffset (loaded_table sample_records 75) 0 = Ok off
    /\ OffsetsTable.GetChunkSize (loaded_table sample_records 75) 0 = Ok csize
    /\ 0 <= csize <= PTRDIFF_MAX
    /\ Z.of_nat (length (chunk_buffer
                          (mkChunk 0 0 3
                             (take 6 (payload_values [1; 2; 3; 4; 5]) ++ replicate 6 zero_byte)
                             [Some (DenseBinaryDataDeserializer tfloat 1)]))) = csize
    /\ chunk_buffer
         (mkChunk 0 0 3
            (take 6 (payload_values [1; 2; 3; 4; 5]) ++ replicate 6 zero_byte)
            [Some (DenseBinaryDataDeserializer tfloat 1)])
       = chunk_bytes truncated_state f off csize
         ++ replicate (Z.to_nat csize - length (chunk_bytes truncated_state f off csize))
              zero_byte
    /\ chunk_id (mkChunk 0 0 3
                   (take 6 (payload_values [1; 2; 3; 4; 5]) ++ replicate 6 zero_byte)
                   [Some (DenseBinaryDataDeserializer tfloat 1)]) = 0
    /\ OffsetsTable.GetStartIndex (loaded_table sample_records 75) 0
       = Ok (chunk_startSequence
               (mkChunk 0 0 3
                  (take 6 (payload_values [1; 2; 3; 4; 5]) ++ replicate 6 zero_byte)
                  [Some (DenseBinaryDataDeserializer tfloat 1)]))
    /\ OffsetsTable.GetNumSequences (loaded_table sample_records 75) 0
       = Ok (chunk_numSequences
               (mkChunk 0 0 3
                  (take 6 (payload_values [1; 2; 3; 4; 5]) ++ replicate 6 zero_byte)
                  [Some (DenseBinaryDataDeserializer tfloat 1)]))
    /\ chunk_deserializers
         (mkChunk 0 0 3
            (take 6 (payload_values [1; 2; 3; 4; 5]) ++ replicate 6 zero_byte)
            [Some (DenseBinaryDataDeserializer tfloat 1)])
       = m_deserializers truncated_state.
Proof.
  apply (GetChunk_returns_consistent_chunk truncated_state (loaded_table sample_records 75) 0
           (mkChunk 0 0 3
              (take 6 (payload_values [1; 2; 3; 4; 5]) ++ replicate 6 zero_byte)
              [Some (DenseBinaryDataDeserializer tfloat 1)])
           (set_file (Some (mkFILE truncated_file 75)) truncated_state)).
  - reflexivity.
  - vm_compute. reflexivity.
Defined.
